(** * tallier: a shallow embedding of [src/tallier.py]

    The statsd-like aggregation daemon of the repository, embedded as Rocq
    functions, one module per Python class:

    - [Py]: the Python 2 builtins the code calls ([str.splitlines],
      [str.split], slicing, [int(s, 16)], [sorted], exceptions);
    - [Sample]: the datagram parser;
    - [Listener]: the per-worker accumulation bundle and its flush;
    - [FrequencyCounter]: the bounded top-K counter;
    - [Master]: the merge of the flushed bundles, the graphite report and the
      scheduler loop.

    Conventions.  A Python 2 [str] is a [string] (a sequence of bytes).  A
    [dict] is a [gmap]; where the code iterates over a dict the embedding
    iterates over [map_to_list], Python 2 promising no particular order.
    Python numbers are exact rationals [Q]: an [int] is an integral value,
    [/] is the true division that [from __future__ import division] selects,
    and the rounding, infinities and NaN of binary floats are outside the
    model.  An exception is a value [Raise e] of type [result]. *)

From Stdlib Require Import ZArith QArith Qround Lqa Ascii String List Lia Permutation.
From Stdlib Require DecimalString.
From Stdlib Require Import Floats.
From stdpp Require Import gmap strings list sorting.

Local Open Scope Z_scope.

(** ** Python builtins *)

Module Py.

(** The exceptions that the embedded code can raise or catch. *)
Inductive exn : Type :=
| ValueError
| ZeroDivisionError
| IndexError
| KeyboardInterrupt
| socket_error
| URLError.

Inductive result (A : Type) : Type :=
| Ok (a : A)
| Raise (e : exn).
Arguments Ok {A} a.
Arguments Raise {A} e.

Definition bind {A B} (r : result A) (k : A -> result B) : result B :=
  match r with
  | Ok a => k a
  | Raise e => Raise e
  end.

(** [try: body; except exc: handler]: only [exc] is caught. *)
Definition exn_eqb (a b : exn) : bool :=
  match a, b with
  | ValueError, ValueError | ZeroDivisionError, ZeroDivisionError
  | IndexError, IndexError | KeyboardInterrupt, KeyboardInterrupt
  | socket_error, socket_error | URLError, URLError => true
  | _, _ => false
  end.

Definition try_except {A} (body : result A) (exc : exn) (handler : result A)
  : result A :=
  match body with
  | Ok a => Ok a
  | Raise e => if exn_eqb e exc then handler else Raise e
  end.

(** A [for] loop whose body may raise. *)
Fixpoint for_each {A S} (body : S -> A -> result S) (l : list A) (s : S)
  : result S :=
  match l with
  | [] => Ok s
  | x :: l' => bind (body s x) (for_each body l')
  end.

(** *** Byte strings *)

Definition is_space : ascii -> bool := Ascii.is_space.

(** [s[n:]] and [s[:n]] for a natural [n]. *)
Fixpoint drop (n : nat) (s : string) : string :=
  match n, s with
  | O, _ => s
  | S _, EmptyString => EmptyString
  | S n', String _ s' => drop n' s'
  end.

Fixpoint take (n : nat) (s : string) : string :=
  match n, s with
  | O, _ => EmptyString
  | S _, EmptyString => EmptyString
  | S n', String c s' => String c (take n' s')
  end.

(** [s[:n]] for a Python integer: a negative [n] counts from the end. *)
Definition slice_to (n : Z) (s : string) : string :=
  if n <? 0 then take (Z.to_nat (Z.of_nat (String.length s) + n)) s
  else take (Z.to_nat n) s.

(** [l[:n]] on a list, same convention. *)
Definition list_slice_to {A} (n : Z) (l : list A) : list A :=
  if n <? 0 then firstn (Z.to_nat (Z.of_nat (length l) + n)) l
  else firstn (Z.to_nat n) l.

(** [s.splitlines()]: lines end at LF, CR or CRLF; the terminators are
    dropped and a trailing terminator opens no further line. *)
Fixpoint splitlines_from (cur : string) (s : string) : list string :=
  match s with
  | EmptyString => match cur with EmptyString => [] | _ => [cur] end
  | String c rest =>
      if Ascii.eqb c "010" then cur :: splitlines_from EmptyString rest
      else if Ascii.eqb c "013" then
        match rest with
        | String c' rest' =>
            if Ascii.eqb c' "010" then cur :: splitlines_from EmptyString rest'
            else cur :: splitlines_from EmptyString rest
        | EmptyString => cur :: splitlines_from EmptyString rest
        end
      else splitlines_from (cur +:+ String c EmptyString) rest
  end.

Definition splitlines (s : string) : list string :=
  splitlines_from EmptyString s.

(** [s.split(sep)] for a one-character separator: never empty. *)
Fixpoint split_from (sep : ascii) (cur : string) (s : string) : list string :=
  match s with
  | EmptyString => [cur]
  | String c rest =>
      if Ascii.eqb c sep then cur :: split_from sep EmptyString rest
      else split_from sep (cur +:+ String c EmptyString) rest
  end.

Definition split (sep : ascii) (s : string) : list string :=
  split_from sep EmptyString s.

(** [sep in s]. *)
Fixpoint contains (sep : ascii) (s : string) : bool :=
  match s with
  | EmptyString => false
  | String c rest => Ascii.eqb c sep || contains sep rest
  end.

(** [s.split(sep, 1)]: at most one cut, at the first separator. *)
Fixpoint split_once_from (sep : ascii) (cur : string) (s : string)
  : list string :=
  match s with
  | EmptyString => [cur]
  | String c rest =>
      if Ascii.eqb c sep then [cur; rest]
      else split_once_from sep (cur +:+ String c EmptyString) rest
  end.

Definition split_once (sep : ascii) (s : string) : list string :=
  split_once_from sep EmptyString s.

(** [s.split()]: the maximal runs of non-whitespace bytes. *)
Fixpoint split_ws_from (cur : string) (s : string) : list string :=
  match s with
  | EmptyString => match cur with EmptyString => [] | _ => [cur] end
  | String c rest =>
      if is_space c then
        match cur with
        | EmptyString => split_ws_from EmptyString rest
        | _ => cur :: split_ws_from EmptyString rest
        end
      else split_ws_from (cur +:+ String c EmptyString) rest
  end.

Definition split_ws (s : string) : list string :=
  split_ws_from EmptyString s.

(** [sep.join(l)]. *)
Fixpoint join (sep : string) (l : list string) : string :=
  match l with
  | [] => EmptyString
  | [x] => x
  | x :: l' => x +:+ sep +:+ join sep l'
  end.

(** [s.replace(a, b)] for one-character [a] and [b]. *)
Fixpoint replace (a b : ascii) (s : string) : string :=
  match s with
  | EmptyString => EmptyString
  | String c rest =>
      String (if Ascii.eqb c a then b else c) (replace a b rest)
  end.

(** [''.join(pattern.findall(s))] for a one-character class [cls]. *)
Fixpoint findall (cls : ascii -> bool) (s : string) : string :=
  match s with
  | EmptyString => EmptyString
  | String c rest =>
      if cls c then String c (findall cls rest) else findall cls rest
  end.

(** [s.startswith(p)]. *)
Definition startswith (p s : string) : bool := String.prefix p s.

(** [s.lstrip()] as [int] and [float] apply it. *)
Fixpoint lstrip (s : string) : string :=
  match s with
  | EmptyString => EmptyString
  | String c rest => if is_space c then lstrip rest else s
  end.

(** *** [int(s, 16)] *)

Definition hex_digit (c : ascii) : option Z :=
  let n := Z.of_nat (nat_of_ascii c) in
  if (48 <=? n) && (n <=? 57) then Some (n - 48)
  else if (97 <=? n) && (n <=? 102) then Some (n - 87)
  else if (65 <=? n) && (n <=? 70) then Some (n - 55)
  else None.

(** The longest run of hexadecimal digits at the head of [s]: its value
    after [acc], how many digits were read, and what follows. *)
Fixpoint hex_run (acc : Z) (read : nat) (s : string) : Z * nat * string :=
  match s with
  | EmptyString => (acc, read, s)
  | String c rest =>
      match hex_digit c with
      | Some d => hex_run (16 * acc + d) (S read) rest
      | None => (acc, read, s)
      end
  end.

(** An optional [0x] or [0X] is skipped when a digit follows it. *)
Definition skip_0x (s : string) : string :=
  match s with
  | String z (String x (String d rest)) =>
      if Ascii.eqb z "0" && (Ascii.eqb x "x" || Ascii.eqb x "X")
         && bool_decide (is_Some (hex_digit d))
      then String d rest else s
  | _ => s
  end.

(** An optional sign. *)
Definition sign (s : string) : bool * string :=
  match s with
  | String c rest =>
      if Ascii.eqb c "-" then (true, rest)
      else if Ascii.eqb c "+" then (false, rest)
      else (false, s)
  | EmptyString => (false, s)
  end.

(** [int(s, 16)] on a [str]: surrounding whitespace, an optional sign,
    an optional [0x], then at least one digit and nothing else; anything
    else is a [ValueError]. *)
Definition int16 (s : string) : result Z :=
  let '(neg, s) := sign (lstrip s) in
  let '(v, read, rest) := hex_run 0 0 (skip_0x (lstrip s)) in
  match read, lstrip rest with
  | S _, EmptyString => Ok (if neg then - v else v)
  | _, _ => Raise ValueError
  end.

(** *** Numbers *)

Definition Qlt_bool (x y : Q) : bool := negb (Qle_bool y x).

(** [x / y], which raises on a zero divisor. *)
Definition div (x y : Q) : result Q :=
  if Qeq_bool y 0 then Raise ZeroDivisionError else Ok (x / y)%Q.

(** [int(x)]: truncation toward zero. *)
Definition int (x : Q) : Z := Z.quot (Qnum x) (Zpos (Qden x)).

(** [sum(l)]. *)
Definition sum (l : list Q) : Q := fold_left Qplus l 0%Q.

(** [sorted(l, key=key)]: ascending in [key], stable. *)
Fixpoint insert_by {A} (key : A -> Q) (x : A) (l : list A) : list A :=
  match l with
  | [] => [x]
  | y :: l' =>
      if Qle_bool (key x) (key y) then x :: y :: l'
      else y :: insert_by key x l'
  end.

Fixpoint sorted {A} (key : A -> Q) (l : list A) : list A :=
  match l with
  | [] => []
  | x :: l' => insert_by key x (sorted key l')
  end.

(** [l[i]] for [i >= 0], and [l[-1]]. *)
Definition index {A} (l : list A) (i : Z) : result A :=
  if i <? 0 then Raise IndexError
  else match nth_error l (Z.to_nat i) with
       | Some x => Ok x
       | None => Raise IndexError
       end.

Definition last_item {A} (l : list A) : result A :=
  match List.last (List.map Some l) None with
  | Some x => Ok x
  | None => Raise IndexError
  end.

(** ['%s' % n] for a natural number. *)
Definition str_of_nat (n : nat) : string :=
  DecimalString.NilEmpty.string_of_uint (Nat.to_uint n).

End Py.

Notation "'do' x <- r ; k" := (Py.bind r (fun x => k))
  (at level 10, x name, r at level 100, k at level 200, only parsing).
Notation "'do' ' p <- r ; k" := (Py.bind r (fun p => k))
  (at level 10, p pattern, r at level 100, k at level 200, only parsing).

(** The builtin [float(s)] on a [str] is not code of the repository: it is a
    parameter of the development.  [None] stands for the [ValueError] that
    [float] raises on a string that is not a number. *)
Class FloatBuiltin : Type := pyfloat : string -> option Q.

(** ** class Sample *)

Module Sample.

Inductive kind : Type := COUNTER | TIMER.

(** [Sample.__init__]: a key, value, value type, and sample rate. *)
Record t : Type := mk {
  key : string;
  value : Q;
  value_type : kind;
  sample_rate : Q
}.

(** [_VALID_CHAR_PATTERN = re.compile(r'[A-Za-z0-9._-]')] *)
Definition _VALID_CHAR_PATTERN (c : ascii) : bool :=
  let n := nat_of_ascii c in
  ((65 <=? n) && (n <=? 90) || (97 <=? n) && (n <=? 122)
   || (48 <=? n) && (n <=? 57)
   || Ascii.eqb c "." || Ascii.eqb c "_" || Ascii.eqb c "-")%nat.

(** [Sample._normalize_key] *)
Definition _normalize_key (key : string) : string :=
  let key := Py.replace "\" "-" (Py.join "_" (Py.split_ws key)) in
  Py.findall _VALID_CHAR_PATTERN key.

(** The compression header of [Sample.parse] (the [if] at the head of the
    loop body): the line that the rest of the body works on, or the
    [ValueError] of [int]. *)
Definition decompress (previous metric : string) : Py.result string :=
  if (2 <? String.length metric)%nat
     && bool_decide (String.get 0 metric = Some "^"%char)
  then
    do prefix_len <- Py.int16 (String.substring 1 2 metric);
    Py.Ok (Py.slice_to prefix_len previous +:+ Py.drop 3 metric)
  else Py.Ok metric.

Section Parser.
Context `{FloatBuiltin}.

Definition float (s : string) : Py.result Q :=
  match pyfloat s with
  | Some x => Py.Ok x
  | None => Py.Raise Py.ValueError
  end.

(** [Sample._parse_part]; format: <value> '|' <value_type> ('@' <sample_rate>)? *)
Definition _parse_part (key part : string) : Py.result t :=
  match Py.split "|" part with
  | [f0; f1] =>
      do value <- float f0;
      do '(f1, sample_rate) <-
        (if Py.contains "@" f1 then
           match Py.split_once "@" f1 with
           | [f1'; rate] =>
               do sample_rate <- float rate;
               if Py.Qlt_bool 0 sample_rate && Qle_bool sample_rate 1
               then Py.Ok (f1', sample_rate)
               else Py.Raise Py.ValueError
           | _ => Py.Raise Py.ValueError
           end
         else Py.Ok (f1, 1%Q));
      let value_type := if bool_decide (f1 = "ms") then TIMER else COUNTER in
      Py.Ok (mk key value value_type sample_rate)
  | _ => Py.Raise Py.ValueError
  end.

(** The inner loop of [Sample.parse]: the parts of one line. *)
Definition parse_parts (key : string) (parts : list string)
    (samples : list t) : Py.result (list t) :=
  Py.for_each
    (fun samples part =>
       Py.try_except
         (do s <- _parse_part key part; Py.Ok (samples ++ [s]))
         Py.ValueError
         (Py.Ok samples))
    parts samples.

(** The body of the outer loop of [Sample.parse], on the pair of the
    local variables [previous] and [samples]. *)
Definition parse_metric (st : string * list t) (metric : string)
  : Py.result (string * list t) :=
  let '(previous, samples) := st in
  match decompress previous metric with
  | Py.Raise Py.ValueError => Py.Ok (previous, samples)
  | Py.Raise e => Py.Raise e
  | Py.Ok metric =>
      let previous := metric in
      match Py.split ":" metric with
      | [] => Py.Ok (previous, samples)
      | raw :: parts =>
          do samples <- parse_parts (_normalize_key raw) parts samples;
          Py.Ok (previous, samples)
      end
  end.

(** [Sample.parse]: parses a datagram into a list of Sample values. *)
Definition parse (datagram : string) : Py.result (list t) :=
  do st <- Py.for_each parse_metric (Py.splitlines datagram) (EmptyString, []);
  Py.Ok (snd st).

End Parser.

End Sample.

(** ** class Listener *)

Module Listener.

(** The accumulation bundle [(collections.defaultdict(float), {})]:
    counters, that read 0.0 where they have no entry, and timers. *)
Definition bundle : Type := gmap string Q * gmap string (list Q).

Definition empty_bundle : bundle := (∅, ∅).

(** [d[k]] on a [defaultdict(float)]. *)
Definition get (d : gmap string Q) (k : string) : Q := default 0%Q (d !! k).

(** The state of a started Listener. *)
Record t : Type := mk {
  listener_id : nat;
  current_samples : bundle;
  message_count : Z;
  last_message_count : Z;
  byte_count : Z;
  last_byte_count : Z
}.

(** [Listener.start]: the fields as the thread finds them. *)
Definition start (listener_id : nat) : t :=
  mk listener_id empty_bundle 0 0 0 0.

Definition with_samples (self : t) (b : bundle) : t :=
  mk (listener_id self) b (message_count self) (last_message_count self)
     (byte_count self) (last_byte_count self).

(** [Listener._handle_sample] *)
Definition _handle_sample (self : t) (sample : Sample.t) : Py.result t :=
  let key := Sample.key sample in
  let value := Sample.value sample in
  let '(counters, timers) := current_samples self in
  do '(counters, timers) <-
    (match Sample.value_type sample with
     | Sample.COUNTER =>
         do scaled <- Py.div value (Sample.sample_rate sample);
         Py.Ok (<[key := (get counters key + scaled)%Q]> counters, timers)
     | Sample.TIMER =>
         Py.Ok (counters, <[key := default [] (timers !! key) ++ [value]]> timers)
     end);
  let count_key := "tallier._key_counts." +:+ key in
  Py.Ok (with_samples self
           (<[count_key := (get counters count_key + 1)%Q]> counters, timers)).

Section Receive.
Context `{FloatBuiltin}.

(** [Listener._handle_datagram] *)
Definition _handle_datagram (self : t) (datagram : string) : Py.result t :=
  do samples <- Sample.parse datagram;
  do self <- Py.for_each _handle_sample samples self;
  Py.Ok (mk (listener_id self) (current_samples self)
            (message_count self + 1) (last_message_count self)
            (byte_count self + Z.of_nat (String.length datagram))
            (last_byte_count self)).
End Receive.

(** [Listener.flush]: the bundle handed to the Controller, and the
    Listener after the call. *)
Definition flush (self : t) : bundle * t :=
  let samples := current_samples self in
  let mc := message_count self in
  let samples :=
    (<["tallier.messages.child_" +:+ Py.str_of_nat (listener_id self)
         := inject_Z (mc - last_message_count self)]> (fst samples),
     snd samples) in
  let bc := byte_count self in
  let samples :=
    (<["tallier.bytes.child_" +:+ Py.str_of_nat (listener_id self)
         := inject_Z (bc - last_byte_count self)]> (fst samples),
     snd samples) in
  (samples, mk (listener_id self) empty_bundle mc mc bc bc).

End Listener.

(** ** class FrequencyCounter *)

Module FrequencyCounter.

Record t : Type := mk {
  size : Z;
  oversample_size : Z;
  total_observed : Q;
  frequencies : gmap string Q
}.

(** [FrequencyCounter.__init__] *)
Definition __init__ (size : Z) : t := mk size size 0%Q ∅.

(** [d[k]] on a [defaultdict(int)]. *)
Definition get (d : gmap string Q) (k : string) : Q := default 0%Q (d !! k).

(** [FrequencyCounter.cleanup] *)
Definition cleanup (self : t) (num : Z) : t :=
  let items := Py.sorted snd (map_to_list (frequencies self)) in
  mk (size self) (oversample_size self) (total_observed self)
     (fold_left (fun freq item => delete (fst item) freq)
                (Py.list_slice_to num items) (frequencies self)).

(** [FrequencyCounter._sample_batch] *)
Definition _sample_batch (self : t) (batch : gmap string Q) : t :=
  let self :=
    fold_left
      (fun self item =>
         let '(key, value) := item in
         mk (size self) (oversample_size self)
            (total_observed self + value)%Q
            (<[key := (get (frequencies self) key + value)%Q]> (frequencies self)))
      (Py.sorted (fun i => (- snd i)%Q) (map_to_list batch)) self in
  let len := Z.of_nat (base.size (frequencies self)) in
  if size self + oversample_size self <? len then
    let overrun := len - size self - oversample_size self in
    cleanup self overrun
  else self.

(** [FrequencyCounter.sample] *)
Definition sample (self : t) (chunk : list string) : t :=
  let batch :=
    fold_left (fun batch key => <[key := (get batch key + 1)%Q]> batch)
              chunk (∅ : gmap string Q) in
  _sample_batch self batch.

(** [FrequencyCounter.top] *)
Definition top (self : t) (n : Z) : list (string * Q) :=
  Py.list_slice_to n
    (Py.sorted (fun i => (- snd i)%Q) (map_to_list (frequencies self))).

(** [FrequencyCounter.coverage] *)
Definition coverage (self : t) : Q * Q :=
  (Py.sum (map snd (map_to_list (frequencies self))), total_observed self).

End FrequencyCounter.

(** ** class Master *)

Module Master.

(** One line of the graphite report, ['<path> %f %d' % (path, value, now)]:
    the path, the value that [%f] renders and the integer that [%d] renders. *)
Definition line : Type := string * Q * Z.

(** [logging.info] and [logging.exception]. *)
Inductive level : Type := INFO | ERROR.

(** What the Master keeps between flushes once [start] has set it up.
    [log] is what the methods of Master have passed to [logging], oldest
    first; [graphite] is what the sink has received, one report per
    connection; [stopped] records that [_shutdown] has run. *)
Record t : Type := mk {
  num_workers : nat;
  flush_interval : Q;
  harold : bool;
  next_flush_time : Q;
  last_flush_time : Q;
  num_stats : Z;
  stat_key_counter : FrequencyCounter.t;
  _last_stat_msg : Q;
  log : list (level * string);
  graphite : list (list line);
  stopped : bool
}.

(** The state with one field replaced. *)
Definition set_log (self : t) (l : list (level * string)) : t :=
  mk (num_workers self) (flush_interval self) (harold self)
     (next_flush_time self) (last_flush_time self) (num_stats self)
     (stat_key_counter self) (_last_stat_msg self) l (graphite self)
     (stopped self).

Definition logging_info (self : t) (msg : string) : t :=
  set_log self (log self ++ [(INFO, msg)]).

Definition logging_exception (self : t) (msg : string) : t :=
  set_log self (log self ++ [(ERROR, msg)]).

(** *** The merge of [Master._flush] *)

(** The local variables of [_flush]. *)
Record merged : Type := mk_merged {
  agg_counters : gmap string Q;
  agg_timers : gmap string (list Q);
  total_message_count : Q;
  total_byte_count : Q;
  stat_key_counts : gmap string Q
}.

Definition merged_init : merged := mk_merged ∅ ∅ 0%Q 0%Q ∅.

(** The body of [for key, value in counters.iteritems()]. *)
Definition merge_counter (m : merged) (item : string * Q) : merged :=
  let '(key, value) := item in
  let stat_key_counts :=
    if Py.startswith "tallier._key_counts." key
    then <[Py.drop (String.length "tallier._key_counts.") key := value]>
           (stat_key_counts m)
    else stat_key_counts m in
  let agg_counters :=
    <[key := (Listener.get (agg_counters m) key + value)%Q]> (agg_counters m) in
  let '(total_message_count, total_byte_count) :=
    if Py.startswith "tallier.messages.child_" key
    then ((total_message_count m + value)%Q, total_byte_count m)
    else if Py.startswith "tallier.bytes.child_" key
    then (total_message_count m, (total_byte_count m + value)%Q)
    else (total_message_count m, total_byte_count m) in
  mk_merged agg_counters (agg_timers m) total_message_count total_byte_count
            stat_key_counts.

(** The body of [for key, values in timers.iteritems()]. *)
Definition merge_timer (m : merged) (item : string * list Q) : merged :=
  let '(key, values) := item in
  mk_merged (agg_counters m)
            (<[key := default [] (agg_timers m !! key) ++ values]> (agg_timers m))
            (total_message_count m) (total_byte_count m) (stat_key_counts m).

(** The body of [for counters, timers in results]. *)
Definition merge_bundle (m : merged) (b : Listener.bundle) : merged :=
  let m := fold_left merge_counter (map_to_list (fst b)) m in
  fold_left merge_timer (map_to_list (snd b)) m.

(** Lines 184 to 199 of [_flush]: the loop over the workers' replies. *)
Definition merge (results : list Listener.bundle) : merged :=
  fold_left merge_bundle results merged_init.

(** *** [Master._build_graphite_report] *)

Definition counter_lines (interval : Q) (now : Q) (item : string * Q)
  : Py.result (list line) :=
  let '(key, value) := item in
  do scaled_value <- Py.div value interval;
  Py.Ok [("stats." +:+ key, scaled_value, Py.int now);
         ("stats_counts." +:+ key, value, Py.int now)].

Definition percentile : nat := 90.

Definition timer_lines (interval : Q) (now : Q) (item : string * list Q)
  : Py.result (list line) :=
  let '(key, values) := item in
  let values := Py.sorted (fun v => v) values in
  let len := Z.of_nat (length values) in
  do lower <- Py.index values 0;
  do upper <- Py.last_item values;
  do upper_p <- Py.index values
                  (Py.int (inject_Z (len * Z.of_nat percentile) / 100)%Q);
  do mean <- Py.div (Py.sum values) (inject_Z len);
  do rate <- Py.div (inject_Z len) interval;
  Py.Ok [("stats.timers." +:+ key +:+ ".lower", lower, Py.int now);
         ("stats.timers." +:+ key +:+ ".upper", upper, Py.int now);
         ("stats.timers." +:+ key +:+ ".upper_" +:+ Py.str_of_nat percentile,
          upper_p, Py.int now);
         ("stats.timers." +:+ key +:+ ".mean", mean, Py.int now);
         ("stats.timers." +:+ key +:+ ".count", inject_Z len, Py.int now);
         ("stats.timers." +:+ key +:+ ".rate", rate, Py.int now)].

(** The lines of every item of a dict, in the order of its iteration. *)
Definition lines_of {A} (f : string * A -> Py.result (list line))
    (items : list (string * A)) : Py.result (list line) :=
  Py.for_each (fun acc item => do ls <- f item; Py.Ok (acc ++ ls)) items [].

(** The generator, run to its end at the clock reading [now]: the Master
    after it, and the lines it yielded or the exception that stopped it.
    [last_flush_time] is assigned before the first line, [num_stats] after
    the last timer. *)
Definition _build_graphite_report (self : t) (now : Q)
    (agg_counters : gmap string Q) (agg_timers : gmap string (list Q))
  : t * Py.result (list line) :=
  let interval := (now - last_flush_time self)%Q in
  let self :=
    mk (num_workers self) (flush_interval self) (harold self)
       (next_flush_time self) now (num_stats self)
       (stat_key_counter self) (_last_stat_msg self) (log self)
       (graphite self) (stopped self) in
  match
    (do cs <- lines_of (counter_lines interval now) (map_to_list agg_counters);
     do ts <- lines_of (timer_lines interval now) (map_to_list agg_timers);
     Py.Ok (cs ++ ts))
  with
  | Py.Raise e => (self, Py.Raise e)
  | Py.Ok ls =>
      let n :=
        num_stats self
        + Z.of_nat (base.size agg_counters) + Z.of_nat (base.size agg_timers) in
      let self :=
        mk (num_workers self) (flush_interval self) (harold self)
           (next_flush_time self) (last_flush_time self) n
           (stat_key_counter self) (_last_stat_msg self) (log self)
           (graphite self) (stopped self) in
      (self,
       Py.Ok (ls ++ [("stats.tallier.num_stats", inject_Z n, Py.int now);
                     ("stats.tallier.num_workers",
                      inject_Z (Z.of_nat (num_workers self)), Py.int now)]))
  end.

(** *** The outside world during one flush *)

(** What the environment answers while [_flush] runs: the replies of the
    workers to FLUSH, the successive readings of [time.time()], and how
    the calls on the graphite socket and on harold end. *)
Record flush_io : Type := mk_io {
  results : list Listener.bundle;
  time_stat : Q;
  time_stat_set : Q;
  time_report : Q;
  connect : Py.result unit;
  send : Py.result unit;
  heartbeat : Py.result unit
}.

(** [Master._send_to_graphite]; [msgs] is the generator of
    [_build_graphite_report], which runs inside ['\n'.join(msgs)]. *)
Definition _send_to_graphite (self : t) (io : flush_io)
    (agg_counters : gmap string Q) (agg_timers : gmap string (list Q))
  : t * Py.result unit :=
  let self := logging_info self "Connecting to graphite..." in
  match connect io with
  | Py.Raise e => (self, Py.Raise e)
  | Py.Ok _ =>
      match _build_graphite_report self (time_report io) agg_counters agg_timers with
      | (self, Py.Raise e) => (self, Py.Raise e)
      | (self, Py.Ok msg) =>
          match send io with
          | Py.Raise e => (self, Py.Raise e)
          | Py.Ok _ =>
              let self :=
                mk (num_workers self) (flush_interval self) (harold self)
                   (next_flush_time self) (last_flush_time self)
                   (num_stats self) (stat_key_counter self)
                   (_last_stat_msg self) (log self)
                   (graphite self ++ [msg]) (stopped self) in
              let self := logging_info self "Stats sent!" in
              if harold self then
                let self := logging_info self "Harold heartbeat." in
                match heartbeat io with
                | Py.Raise Py.URLError =>
                    (logging_exception self "Error sending heartbeat to harold!", Py.Ok tt)
                | Py.Raise e => (self, Py.Raise e)
                | Py.Ok _ => (self, Py.Ok tt)
                end
              else (self, Py.Ok tt)
          end
      end
  end.

(** [Master._flush] *)
Definition _flush (self : t) (io : flush_io) : t * Py.result unit :=
  let m := merge (results io) in
  let counter := FrequencyCounter._sample_batch (stat_key_counter self)
                   (stat_key_counts m) in
  let self :=
    mk (num_workers self) (flush_interval self) (harold self)
       (next_flush_time self) (last_flush_time self) (num_stats self)
       counter (_last_stat_msg self) (log self) (graphite self)
       (stopped self) in
  let self :=
    if Qle_bool 60 (time_stat io - _last_stat_msg self) then
      let top_stats := FrequencyCounter.top (stat_key_counter self) 10 in
      let self :=
        match top_stats with
        | [] => self
        | _ => logging_info self "Top stat keys:"
        end in
      mk (num_workers self) (flush_interval self) (harold self)
         (next_flush_time self) (last_flush_time self) (num_stats self)
         (stat_key_counter self) (time_stat_set io) (log self)
         (graphite self) (stopped self)
    else self in
  let agg_counters :=
    <["tallier.bytes.total" := total_byte_count m]>
      (<["tallier.messages.total" := total_message_count m]> (agg_counters m)) in
  _send_to_graphite self io agg_counters (agg_timers m).

(** *** The scheduler loop of [Master.start] *)

(** [Master._shutdown], as far as the Master's own state goes. *)
Definition _shutdown (self : t) : t :=
  let self := logging_info self "Closing socket..." in
  let self := logging_info self "Sending shutdown command..." in
  let self := logging_info self "Messages:" in
  let self := logging_info self "Terminating child processes..." in
  let self := logging_info self "Shutdown complete." in
  mk (num_workers self) (flush_interval self) (harold self)
     (next_flush_time self) (last_flush_time self) (num_stats self)
     (stat_key_counter self) (_last_stat_msg self) (log self)
     (graphite self) true.

(** What the environment answers during one turn of [while True]: the
    reading of [time.time()], how [asyncore.poll] ends when the Master
    sleeps, and the flush when it does not. *)
Record tick : Type := mk_tick {
  now : Q;
  poll : Py.result unit;
  io : flush_io
}.

(** One turn of the loop (lines 283 to 289). *)
Definition turn (self : t) (tk : tick) : t * Py.result unit :=
  let sleep_time := (next_flush_time self - now tk)%Q in
  if Py.Qlt_bool 0 sleep_time then (self, poll tk)
  else
    match _flush self (io tk) with
    | (self, Py.Raise e) => (self, Py.Raise e)
    | (self, Py.Ok _) =>
        (mk (num_workers self) (flush_interval self) (harold self)
            (next_flush_time self + flush_interval self)%Q
            (last_flush_time self) (num_stats self) (stat_key_counter self)
            (_last_stat_msg self) (log self) (graphite self) (stopped self),
         Py.Ok tt)
    end.

(** Lines 281 to 293 of [start], run against the answers [ticks]: [None]
    while the loop is still turning when the answers run out, [Some r]
    when [start] has ended, normally or with an exception, [_shutdown]
    having run in both cases. *)
Fixpoint start_loop (self : t) (ticks : list tick)
  : t * option (Py.result unit) :=
  match ticks with
  | [] => (self, None)
  | tk :: ticks' =>
      match turn self tk with
      | (self, Py.Ok _) => start_loop self ticks'
      | (self, Py.Raise Py.KeyboardInterrupt) =>
          (_shutdown self, Some (Py.Ok tt))
      | (self, Py.Raise e) => (_shutdown self, Some (Py.Raise e))
      end
  end.

End Master.

(** ** The specification's wording, for comparison with the code *)

Module Spec.

(** Key normalization as the specification words it: every run of
    whitespace becomes one underscore, each backslash a dash, and the
    bytes outside the class are dropped. *)
Fixpoint collapse_from (in_run : bool) (s : string) : string :=
  match s with
  | EmptyString => EmptyString
  | String c rest =>
      if Py.is_space c then
        if in_run then collapse_from true rest
        else String "_" (collapse_from true rest)
      else String c (collapse_from false rest)
  end.

Definition collapse_ws (s : string) : string := collapse_from false s.

Definition normalize_key (key : string) : string :=
  Py.findall Sample._VALID_CHAR_PATTERN (Py.replace "\" "-" (collapse_ws key)).

(** [s.strip()]: [s] without its leading and trailing whitespace. *)
Fixpoint rstrip (s : string) : string :=
  match s with
  | EmptyString => EmptyString
  | String c rest =>
      match rstrip rest with
      | EmptyString => if Py.is_space c then EmptyString else String c EmptyString
      | rest' => String c rest'
      end
  end.

Definition strip (s : string) : string := rstrip (Py.lstrip s).

(** Prefix compression as the specification words it: two hexadecimal
    digits give [n], anything else skips the line ([None]); the effective
    line is the first [n] bytes of the previous one and the line from
    position 3 on. *)
Definition decompress (previous metric : string) : option string :=
  if (2 <? String.length metric)%nat
     && bool_decide (String.get 0 metric = Some "^"%char)
  then
    match String.get 1 metric, String.get 2 metric with
    | Some a, Some b =>
        match Py.hex_digit a, Py.hex_digit b with
        | Some x, Some y =>
            Some (Py.take (Z.to_nat (16 * x + y)) previous +:+ Py.drop 3 metric)
        | _, _ => None
        end
    | _, _ => None
    end
  else Some metric.

(** What the code's header computation amounts to in the specification's
    terms: a [ValueError] skips the line. *)
Definition of_result {A} (r : Py.result A) : option A :=
  match r with
  | Py.Ok a => Some a
  | Py.Raise _ => None
  end.

Section Parts.
Context `{FloatBuiltin}.

(** The samples of the well-formed parts of a line, in order. *)
Definition well_formed_parts (key : string) (parts : list string)
  : list Sample.t :=
  flat_map (fun part => match Sample._parse_part key part with
                        | Py.Ok s => [s]
                        | Py.Raise _ => []
                        end) parts.

Definition line_samples (effective : string) : list Sample.t :=
  match Py.split ":" effective with
  | raw :: parts => well_formed_parts (Sample._normalize_key raw) parts
  | [] => []
  end.

(** The effective lines of a datagram: a line whose header does not
    parse is left out and does not become the previous line. *)
Fixpoint effective_lines (previous : string) (lines : list string)
  : list string :=
  match lines with
  | [] => []
  | metric :: lines' =>
      match Sample.decompress previous metric with
      | Py.Ok effective => effective :: effective_lines effective lines'
      | Py.Raise _ => effective_lines previous lines'
      end
  end.
End Parts.

End Spec.

(** ** The datagrams of the specification's scenarios *)

Module Scenario.

Definition LF : string := String "010" EmptyString.

(** S4: prefix compression within a datagram. *)
Definition S4 : string := "long.key.name:1|c" +:+ LF +:+ "^08other:2|c".

(** S5: malformed interleaving. *)
Definition S5 : string :=
  "a:1|c" +:+ LF +:+ "b:notanumber|c" +:+ LF +:+ "c:3|c@2.0" +:+ LF +:+ "d:4|c".

(** S1 as one worker flushes it: the datagram 'x:3|c'. *)
Definition bundle1 : Listener.bundle :=
  (<["tallier.bytes.child_0" := 4%Q]>
     (<["tallier.messages.child_0" := 1%Q]>
        (<["tallier._key_counts.x" := 1%Q]> (<["x" := 3%Q]> ∅))),
   ∅).

(** A Master that [start] set up at time 990, one worker, no harold. *)
Definition master0 : Master.t :=
  Master.mk 1 10 false 1000 990 0 (FrequencyCounter.__init__ 1000) 990 [] []
            false.

(** A flush at time 1000 during which graphite refuses the connection,
    and one during which it is up. *)
Definition io_down : Master.flush_io :=
  Master.mk_io [bundle1] 1000 1000 1000 (Py.Raise Py.socket_error)
               (Py.Ok tt) (Py.Ok tt).

Definition io_up : Master.flush_io :=
  Master.mk_io [bundle1] 1000 1000 1000 (Py.Ok tt) (Py.Ok tt) (Py.Ok tt).

Definition tick_down : Master.tick := Master.mk_tick 1000 (Py.Ok tt) io_down.

Definition tick_up : Master.tick := Master.mk_tick 1000 (Py.Ok tt) io_up.

(** Two workers that each saw the key 'x', three times and four times. *)
Definition worker_a : Listener.bundle :=
  (<["tallier._key_counts.x" := 3%Q]> (<["x" := 3%Q]> ∅), ∅).

Definition worker_b : Listener.bundle :=
  (<["tallier._key_counts.x" := 4%Q]> (<["x" := 4%Q]> ∅), ∅).

End Scenario.

(** ** Calls on a FrequencyCounter, and their runs *)

Module Calls.

Inductive call : Type :=
| sample (chunk : list string)
| _sample_batch (batch : gmap string Q).

Definition step (self : FrequencyCounter.t) (c : call) : FrequencyCounter.t :=
  match c with
  | sample chunk => FrequencyCounter.sample self chunk
  | _sample_batch batch => FrequencyCounter._sample_batch self batch
  end.

Definition run (self : FrequencyCounter.t) (calls : list call)
  : FrequencyCounter.t :=
  fold_left step calls self.



End Calls.

(** ** An instance of the [float] builtin, for evaluation

    [float] on plain decimal literals, an optional sign, digits and an
    optional fraction.  Every other string is rejected here; the instance
    serves to run the code on the literals of the scenarios. *)

Module Decimal.

Definition digit (c : ascii) : option Z :=
  let n := Z.of_nat (nat_of_ascii c) in
  if (48 <=? n) && (n <=? 57) then Some (n - 48) else None.

Fixpoint run (acc : Z) (read : nat) (s : string) : Z * nat * string :=
  match s with
  | EmptyString => (acc, read, s)
  | String c rest =>
      match digit c with
      | Some d => run (10 * acc + d) (S read) rest
      | None => (acc, read, s)
      end
  end.

Definition unsigned (s : string) : option Q :=
  let '(ip, n1, rest) := run 0 0 s in
  match rest with
  | EmptyString => if (0 <? n1)%nat then Some (inject_Z ip) else None
  | String "." frac =>
      let '(fp, n2, rest') := run 0 0 frac in
      match rest' with
      | EmptyString =>
          if (0 <? n1 + n2)%nat
          then Some (Qred (inject_Z ip
                           + inject_Z fp / inject_Z (10 ^ Z.of_nat n2)))%Q
          else None
      | _ => None
      end
  | _ => None
  end%char.

Definition float (s : string) : option Q :=
  match s with
  | String "-" rest => Qopp <$> unsigned rest
  | String "+" rest => unsigned rest
  | _ => unsigned s
  end%char.

Definition builtin : FloatBuiltin := float.

End Decimal.

(** ** class Controller *)

Module Controller.

Definition FLUSH : string := "flush".
Definition SHUTDOWN : string := "shutdown".

(** What goes over the pipe to the Master: a flushed bundle, or the
    message count that answers SHUTDOWN. *)
Inductive reply : Type :=
| bundle (b : Listener.bundle)
| count (n : Z).

(** A Controller whose Listener is started: the Listener, what [conn.send]
    has sent, oldest first, and what [logging.info] has received. *)
Record t : Type := mk {
  controller_id : nat;
  listener : Listener.t;
  conn : list reply;
  log : list string
}.

(** [Controller.start] up to the loop: [_create_listener] and
    [listener.start()]. *)
Definition started (controller_id : nat) : t :=
  mk controller_id (Listener.start controller_id) [] [].

(** [Controller._flush] *)
Definition _flush (self : t) : t :=
  let '(samples, listener) := Listener.flush (listener self) in
  mk (controller_id self) listener (conn self ++ [bundle samples]) (log self).

(** [Controller._shutdown]; that the Listener is dropped shows in the loop,
    which ends. *)
Definition _shutdown (self : t) : t :=
  mk (controller_id self) (listener self)
     (conn self ++ [count (Listener.message_count (listener self))])
     (log self ++ ["sending back message count..."]).

(** What happens next in the worker process: the Listener thread receives
    a datagram, the Controller receives a command on its pipe, or it is
    interrupted.  Each is taken whole, in the order given. *)
Inductive event : Type :=
| datagram (d : string)
| command (cmd : string)
| interrupt.

Definition info (self : t) (msg : string) : t :=
  mk (controller_id self) (listener self) (conn self) (log self ++ [msg]).

Section Loop.
Context `{FloatBuiltin}.

(** The loop of [Controller.start] against the events: the Controller at
    the end, and whether the loop has ended ([true]) or still waits for a
    command ([false]). *)
Fixpoint start_loop (self : t) (events : list event) : Py.result (t * bool) :=
  match events with
  | [] => Py.Ok (self, false)
  | datagram d :: events' =>
      do l <- Listener._handle_datagram (listener self) d;
      start_loop (mk (controller_id self) l (conn self) (log self)) events'
  | command cmd :: events' =>
      if bool_decide (cmd = FLUSH) then start_loop (_flush self) events'
      else if bool_decide (cmd = SHUTDOWN)
      then Py.Ok (info (_shutdown self) "controller stopped.", true)
      else start_loop
             (info self ("controller reporting bad command from master: "
                         +:+ cmd))
             events'
  | interrupt :: _ =>
      Py.Ok (info (_shutdown self) "controller stopped.", true)
  end.

End Loop.

End Controller.

(** ** The command interface of the Master *)

Module Commands.

(** [s.lower()] and [s.upper()] on a [str]: the ASCII letters. *)
Definition lower_char (c : ascii) : ascii :=
  let n := nat_of_ascii c in
  if (65 <=? n)%nat && (n <=? 90)%nat then ascii_of_nat (n + 32) else c.

Definition upper_char (c : ascii) : ascii :=
  let n := nat_of_ascii c in
  if (97 <=? n)%nat && (n <=? 122)%nat then ascii_of_nat (n - 32) else c.

Fixpoint lower (s : string) : string :=
  match s with
  | EmptyString => EmptyString
  | String c rest => String (lower_char c) (lower rest)
  end.

Fixpoint upper (s : string) : string :=
  match s with
  | EmptyString => EmptyString
  | String c rest => String (upper_char c) (upper rest)
  end.

Definition CRLF : string := String "013" (String "010" EmptyString).

(** The bound methods of a Master, as [inspect.getmembers] lists them,
    sorted by name. *)
Definition methods : list string :=
  ["CMD_help"; "__init__"; "_bind"; "_build_graphite_report"; "_command_all";
   "_create_controllers"; "_flush"; "_send_to_graphite"; "_shutdown";
   "from_config"; "run_command"; "start"].

(** [Master.CMD_help] *)
Definition CMD_help (parts : list string) : list string :=
  "Available commands:"
  :: flat_map (fun key => if Py.startswith "CMD_" key
                          then ["  " +:+ upper (Py.drop 4 key)] else [])
       methods.

(** [getattr(self, 'CMD_%s' % name, None)] on a Master: its one command. *)
Definition handler_of (name : string) : option (list string -> list string) :=
  if bool_decide ("CMD_" +:+ name = "CMD_help") then Some CMD_help else None.

Section RunCommand.
(** The lookup of a handler is a parameter, so that the same body serves
    an object with further [CMD_] methods. *)
Variable getattr : string -> option (list string -> list string).

(** [Master.run_command]: the chunks that the generator yields. *)
Definition run_command (line : string) : list string :=
  match Py.split_ws (lower line) with
  | [] => ["ERROR: invalid command" +:+ CRLF]
  | name :: rest =>
      match getattr name with
      | Some handler =>
          map (fun line =>
                 (if Py.startswith "." line then "." +:+ line else line)
                 +:+ CRLF)
              (handler (name :: rest))
          ++ ["." +:+ CRLF]
      | None => ["ERROR: invalid command" +:+ CRLF]
      end
  end.

End RunCommand.

End Commands.

(** * The same code on binary64 floats *)

(** The modules above carry Python's numbers as exact rationals, which is
    what the claims on counts, order and structure need.  The values that
    the code adds and divides are floats, though: [float()] returns them,
    [defaultdict(float)] holds them, [time.time()] returns them.  The
    definitions of this module follow the same source lines with IEEE 754
    binary64 arithmetic, rounding, infinities and NaN included. *)
Module Binary64.

Notation float := PrimFloat.float.

(** [x / y] on floats, which raises on a zero divisor of either sign. *)
Definition div (x y : float) : Py.result float :=
  if PrimFloat.eqb y PrimFloat.zero then Py.Raise Py.ZeroDivisionError
  else Py.Ok (PrimFloat.div x y).

(** [sum(l)] on floats: the additions run from the left, from 0. *)
Definition sum (l : list float) : float :=
  fold_left PrimFloat.add l PrimFloat.zero.

(** [sorted(l, key=key)] on float keys: list.sort is stable, so on keys
    that the comparison orders totally it is this insertion sort. *)
Fixpoint insert_by {A} (key : A -> float) (x : A) (l : list A) : list A :=
  match l with
  | [] => [x]
  | y :: l' =>
      if PrimFloat.leb (key x) (key y) then x :: y :: l'
      else y :: insert_by key x l'
  end.

Fixpoint sorted {A} (key : A -> float) (l : list A) : list A :=
  match l with
  | [] => []
  | x :: l' => insert_by key x (sorted key l')
  end.

(** ** class Sample, with the floats that [float()] returns *)
Module Sample.

Record t : Type := mk {
  key : string;
  value : float;
  value_type : Sample.kind;
  sample_rate : float
}.

End Sample.

(** ** class Listener *)
Module Listener.

Definition bundle : Type := gmap string float * gmap string (list float).

(** [d[k]] on a [defaultdict(float)]. *)
Definition get (d : gmap string float) (k : string) : float :=
  default PrimFloat.zero (d !! k).

Record t : Type := mk {
  listener_id : nat;
  current_samples : bundle;
  message_count : Z;
  last_message_count : Z;
  byte_count : Z;
  last_byte_count : Z
}.

(** [Listener._handle_sample]: [+=] is the float addition, the [1] of
    the key count is converted to [1.0]. *)
Definition _handle_sample (self : t) (sample : Sample.t) : Py.result t :=
  let key := Sample.key sample in
  let value := Sample.value sample in
  let '(counters, timers) := current_samples self in
  do '(counters, timers) <-
    (match Sample.value_type sample with
     | Sample.COUNTER =>
         do scaled <- div value (Sample.sample_rate sample);
         Py.Ok (<[key := PrimFloat.add (get counters key) scaled]> counters,
                timers)
     | Sample.TIMER =>
         Py.Ok (counters, <[key := default [] (timers !! key) ++ [value]]> timers)
     end);
  let count_key := "tallier._key_counts." +:+ key in
  Py.Ok (mk (listener_id self)
            (<[count_key := PrimFloat.add (get counters count_key)
                                          PrimFloat.one]> counters,
             timers)
            (message_count self) (last_message_count self)
            (byte_count self) (last_byte_count self)).

End Listener.

(** ** class FrequencyCounter, fed with float counts as [Master._flush]
    feeds it *)
Module FrequencyCounter.

Record t : Type := mk {
  size : Z;
  oversample_size : Z;
  total_observed : float;
  frequencies : gmap string float
}.

(** [FrequencyCounter.__init__]; the integer 0 of [total_observed] is the
    float 0.0 from the first addition on. *)
Definition __init__ (size : Z) : t := mk size size PrimFloat.zero ∅.

Definition get (d : gmap string float) (k : string) : float :=
  default PrimFloat.zero (d !! k).

(** [FrequencyCounter.cleanup] *)
Definition cleanup (self : t) (num : Z) : t :=
  let items := sorted snd (map_to_list (frequencies self)) in
  mk (size self) (oversample_size self) (total_observed self)
     (fold_left (fun freq item => delete (fst item) freq)
                (Py.list_slice_to num items) (frequencies self)).

(** [FrequencyCounter._sample_batch] *)
Definition _sample_batch (self : t) (batch : gmap string float) : t :=
  let self :=
    fold_left
      (fun self item =>
         let '(key, value) := item in
         mk (size self) (oversample_size self)
            (PrimFloat.add (total_observed self) value)
            (<[key := PrimFloat.add (get (frequencies self) key) value]>
               (frequencies self)))
      (sorted (fun i => PrimFloat.opp (snd i)) (map_to_list batch)) self in
  let len := Z.of_nat (base.size (frequencies self)) in
  if size self + oversample_size self <? len then
    cleanup self (len - size self - oversample_size self)
  else self.

(** [FrequencyCounter.coverage] *)
Definition coverage (self : t) : float * float :=
  (sum (map snd (map_to_list (frequencies self))), total_observed self).

End FrequencyCounter.

(** ** class Master: the timers of the report *)
Module Master.

(** One line of the report: the path and the two operands of
    ['<path> %f %d' % (path, value, now)], as they are before [%]
    renders them. *)
Definition line : Type := string * float * float.

(** [float(n)] for a Python integer: the nearest binary64, ties to even. *)
Definition float_of_Z (n : Z) : float :=
  SF2Prim (binary_normalize prec emax n 0 false).

(** [int(x)] for a float: truncation toward zero; there is no integer
    for an infinity or a NaN, on which Python raises. *)
Definition int (x : float) : option Z :=
  match Prim2SF x with
  | S754_zero _ => Some 0
  | S754_finite s m e =>
      let a := if 0 <=? e then Zpos m * 2 ^ e else Zpos m / 2 ^ (- e) in
      Some (if s then - a else a)
  | S754_infinity _ | S754_nan => None
  end.

Definition percentile : nat := 90.

(** The body of [for key, values in agg_timers.iteritems()] (lines 226
    to 239): the six lines of one timer, or the exception that stops the
    generator.  [len(values) * percentile / 100.0] is a float quotient,
    finite for every length, so [int] always has a value there. *)
Definition timer_lines (interval now : float) (item : string * list float)
  : Py.result (list line) :=
  let '(key, values) := item in
  let values := sorted (fun v => v) values in
  let len := Z.of_nat (length values) in
  do lower <- Py.index values 0;
  do upper <- Py.last_item values;
  do upper_p <-
    (match int (PrimFloat.div (float_of_Z (len * Z.of_nat percentile))
                              100%float) with
     | Some i => Py.index values i
     | None => Py.Raise Py.ValueError
     end);
  do mean <- div (sum values) (float_of_Z len);
  do rate <- div (float_of_Z len) interval;
  Py.Ok [("stats.timers." +:+ key +:+ ".lower", lower, now);
         ("stats.timers." +:+ key +:+ ".upper", upper, now);
         ("stats.timers." +:+ key +:+ ".upper_" +:+ Py.str_of_nat percentile,
          upper_p, now);
         ("stats.timers." +:+ key +:+ ".mean", mean, now);
         ("stats.timers." +:+ key +:+ ".count", float_of_Z len, now);
         ("stats.timers." +:+ key +:+ ".rate", rate, now)].





(** *** The flush and the loop of [Master.start] *)

(** What a call can raise: the exceptions that these lines name or meet,
    and any other, of which they know nothing. *)
Inductive exn (X : Type) : Type :=
| KeyboardInterrupt
| socket_error
| URLError
| AttributeError
| other (x : X).
Arguments KeyboardInterrupt {X}.
Arguments socket_error {X}.
Arguments URLError {X}.
Arguments AttributeError {X}.
Arguments other {X} x.

Section Loop.
(** [W] stands for the fields that only lines 183 to 212 of [_flush] and
    the generator of [_build_graphite_report] read and write (num_stats,
    stat_key_counter, _last_stat_msg, last_flush_time), [E] for what the
    workers and the clock answer during a flush, [G] for the generator
    [msgs]; [X] for the exceptions that are not named here. *)
Context {X W E G : Type}.

(** Lines 183 to 212 of [_flush], whatever they compute: the work fields
    after them, what they passed to [logging.info], and the generator
    [msgs] or the exception that stopped them. *)
Variable merge_and_build : W -> E -> W * list string * (G + exn X).

(** ['\n'.join(msgs)]: the generator run to its end, or to the
    exception that stops it. *)
Variable join : G -> W -> E -> W * (string + exn X).

(** A Master in the loop.  [command_service] is [None] when the
    attribute was never assigned, as [__init__] leaves it, and [Some b]
    once [_bind] has assigned it, [b] telling whether a service runs. *)
Record t : Type := mk {
  work : W;
  flush_interval : float;
  harold : bool;
  next_flush_time : float;
  command_service : option bool;
  log : list (Master.level * string);
  graphite : list string
}.

Definition logging (lvl : Master.level) (self : t) (msg : string) : t :=
  mk (work self) (flush_interval self) (harold self) (next_flush_time self)
     (command_service self) (log self ++ [(lvl, msg)]) (graphite self).

Definition with_work (self : t) (w : W) : t :=
  mk w (flush_interval self) (harold self) (next_flush_time self)
     (command_service self) (log self) (graphite self).

(** What the environment answers during one flush. *)
Record flush_io : Type := mk_io {
  answers : E;
  connect : unit + exn X;
  send : unit + exn X;
  heartbeat : unit + exn X
}.

(** [Master._send_to_graphite] *)
Definition _send_to_graphite (self : t) (io : flush_io) (msgs : G)
  : t * (unit + exn X) :=
  let self := logging Master.INFO self "Connecting to graphite..." in
  match connect io with
  | inr e => (self, inr e)
  | inl _ =>
      let '(w, joined) := join msgs (work self) (answers io) in
      let self := with_work self w in
      match joined with
      | inr e => (self, inr e)
      | inl msg =>
          match send io with
          | inr e => (self, inr e)
          | inl _ =>
              let self :=
                mk (work self) (flush_interval self) (harold self)
                   (next_flush_time self) (command_service self) (log self)
                   (graphite self ++ [msg +:+ String "010" EmptyString]) in
              let self := logging Master.INFO self "Stats sent!" in
              if harold self then
                let self := logging Master.INFO self "Harold heartbeat." in
                match heartbeat io with
                | inr URLError =>
                    (logging Master.ERROR self
                             "Error sending heartbeat to harold!", inl tt)
                | inr e => (self, inr e)
                | inl _ => (self, inl tt)
                end
              else (self, inl tt)
          end
      end
  end.

(** [Master._flush] *)
Definition _flush (self : t) (io : flush_io) : t * (unit + exn X) :=
  let '(w, infos, built) := merge_and_build (work self) (answers io) in
  let self :=
    mk w (flush_interval self) (harold self) (next_flush_time self)
       (command_service self)
       (log self ++ map (fun msg => (Master.INFO, msg)) infos)
       (graphite self) in
  match built with
  | inr e => (self, inr e)
  | inl msgs => _send_to_graphite self io msgs
  end.

(** [Master._shutdown]: the log after it and how it ends.  The read of
    [self.command_service] raises when the attribute was never assigned;
    [children] is how [_command_all(SHUTDOWN)] ends.  After a shutdown
    next_flush_time and last_flush_time are None: no Master is left. *)
Definition _shutdown (self : t) (children : unit + exn X)
  : list (Master.level * string) * (unit + exn X) :=
  let log := log self ++ [(Master.INFO, "Closing socket...")] in
  match command_service self with
  | None => (log, inr AttributeError)
  | Some _ =>
      let log := log ++ [(Master.INFO, "Sending shutdown command...")] in
      match children with
      | inr e => (log, inr e)
      | inl _ =>
          (log ++ [(Master.INFO, "Messages:");
                   (Master.INFO, "Terminating child processes...");
                   (Master.INFO, "Shutdown complete.")], inl tt)
      end
  end.

(** What the environment answers during one turn of [while True]. *)
Record tick : Type := mk_tick {
  now : float;
  poll : unit + exn X;
  io : flush_io;
  children : unit + exn X
}.

(** One turn of the loop (lines 283 to 289). *)
Definition turn (self : t) (tk : tick) : t * (unit + exn X) :=
  let sleep_time := PrimFloat.sub (next_flush_time self) (now tk) in
  if PrimFloat.ltb PrimFloat.zero sleep_time then (self, poll tk)
  else
    match _flush self (io tk) with
    | (self, inr e) => (self, inr e)
    | (self, inl _) =>
        (mk (work self) (flush_interval self) (harold self)
            (PrimFloat.add (next_flush_time self) (flush_interval self))
            (command_service self) (log self) (graphite self), inl tt)
    end.

(** Where [start] stands: in the loop, or ended with the log and what
    graphite received, normally or with an exception. *)
Inductive state : Type :=
| running (self : t)
| ended (log : list (Master.level * string)) (graphite : list string)
        (r : unit + exn X).

(** Lines 281 to 293 of [start]: the loop, [except KeyboardInterrupt]
    and [finally]; an exception of [_shutdown] replaces the one that
    ended the loop. *)
Fixpoint start_loop (self : t) (ticks : list tick) : state :=
  match ticks with
  | [] => running self
  | tk :: ticks' =>
      match turn self tk with
      | (self, inl _) => start_loop self ticks'
      | (self, inr e) =>
          let '(log, r) := _shutdown self (children tk) in
          ended log (graphite self)
                match r with
                | inr e' => inr e'
                | inl _ =>
                    match e with
                    | KeyboardInterrupt => inl tt
                    | _ => inr e
                    end
                end
      end
  end.

End Loop.

End Master.

End Binary64.

(** * Properties *)

(** ** Byte strings *)

#[local] Arguments String.append !_ _ / : simpl nomatch.

Section Strings.

Lemma app_nil_r (s : string) : s +:+ EmptyString = s.
Proof. induction s as [|c s IH]; cbn; [reflexivity | now rewrite IH]. Qed.

Lemma app_snoc (a : string) (c : ascii) (x : string) :
  (a +:+ String c EmptyString) +:+ x = a +:+ String c x.
Proof. induction a as [|d a IH]; cbn; [reflexivity | now rewrite IH]. Qed.

Lemma app_assoc (a b c : string) : (a +:+ b) +:+ c = a +:+ (b +:+ c).
Proof. induction a as [|d a IH]; cbn; [reflexivity | now rewrite IH]. Qed.

Lemma snoc_not_empty (a : string) (c : ascii) :
  a +:+ String c EmptyString <> EmptyString.
Proof. destruct a; cbn; discriminate. Qed.

Lemma length_app (a b : string) :
  String.length (a +:+ b) = (String.length a + String.length b)%nat.
Proof. induction a as [|d a IH]; cbn; [reflexivity | now rewrite IH]. Qed.

Lemma rstrip_cons_nonspace c r :
  Py.is_space c = false -> Spec.rstrip (String c r) = String c (Spec.rstrip r).
Proof. intros Hc. cbn. rewrite Hc. now destruct (Spec.rstrip r). Qed.

Lemma rstrip_cons_space_empty c r :
  Py.is_space c = true -> Spec.rstrip r = EmptyString ->
  Spec.rstrip (String c r) = EmptyString.
Proof. intros Hc Hr. cbn. now rewrite Hr, Hc. Qed.

Lemma rstrip_cons_keep c r :
  Spec.rstrip r <> EmptyString ->
  Spec.rstrip (String c r) = String c (Spec.rstrip r).
Proof. intros Hr. cbn. destruct (Spec.rstrip r); [congruence | reflexivity]. Qed.

Lemma split_ws_from_nonempty cur s :
  cur <> EmptyString -> Py.split_ws_from cur s <> [].
Proof.
  revert cur. induction s as [|c r IH]; intros cur Hcur; cbn.
  - destruct cur; congruence.
  - destruct (Py.is_space c).
    + destruct cur; [congruence | discriminate].
    + apply IH, snoc_not_empty.
Qed.

Lemma split_ws_nil_iff s :
  Py.split_ws_from EmptyString s = [] <-> Spec.rstrip s = EmptyString.
Proof.
  induction s as [|c r IH]; cbn; [tauto|].
  destruct (Py.is_space c) eqn:Hc.
  - rewrite IH. destruct (Spec.rstrip r); [tauto|]. split; discriminate.
  - split; intros Hn.
    + exfalso. revert Hn. apply split_ws_from_nonempty. discriminate.
    + destruct (Spec.rstrip r); discriminate.
Qed.

Lemma lstrip_cons c r :
  Py.lstrip (String c r) = if Py.is_space c then Py.lstrip r else String c r.
Proof. reflexivity. Qed.

Lemma lstrip_rstrip s : Py.lstrip (Spec.rstrip s) = Spec.rstrip (Py.lstrip s).
Proof.
  induction s as [|c r IH]; [reflexivity|].
  destruct (Py.is_space c) eqn:Hc.
  - rewrite (lstrip_cons c r), Hc, <- IH.
    destruct (decide (Spec.rstrip r = EmptyString)) as [He|Hne].
    + rewrite rstrip_cons_space_empty, He by assumption. reflexivity.
    + rewrite rstrip_cons_keep by assumption. now rewrite lstrip_cons, Hc.
  - rewrite rstrip_cons_nonspace by assumption.
    rewrite !lstrip_cons, Hc. now rewrite rstrip_cons_nonspace.
Qed.

Lemma collapse_true_lstrip x :
  Spec.collapse_from true x = Spec.collapse_from false (Py.lstrip x).
Proof.
  induction x as [|c r IH]; [reflexivity|]. cbn.
  destruct (Py.is_space c) eqn:Hc; [exact IH|]. cbn. now rewrite Hc.
Qed.

Lemma join_cons sep x l :
  Py.join sep (x :: l) =
  match l with [] => x | _ => x +:+ sep +:+ Py.join sep l end.
Proof. destruct l; reflexivity. Qed.

(** Splitting at whitespace and joining with underscores is collapsing
    the runs of whitespace of the stripped string. *)
Lemma join_split_ws_from s :
  (forall cur, cur <> EmptyString ->
     Py.join "_" (Py.split_ws_from cur s)
     = cur +:+ Spec.collapse_from false (Spec.rstrip s))
  /\ Py.join "_" (Py.split_ws_from EmptyString s)
     = Spec.collapse_from false (Spec.rstrip (Py.lstrip s)).
Proof.
  induction s as [|c r [IH1 IH2]].
  - split; [|reflexivity]. intros cur Hcur. cbn.
    destruct cur; [congruence|]. cbn. now rewrite app_nil_r.
  - destruct (Py.is_space c) eqn:Hc.
    + split.
      * intros cur Hcur. cbn [Py.split_ws_from]. rewrite Hc.
        destruct cur as [|d cur]; [congruence|].
        rewrite join_cons, IH2.
        destruct (Py.split_ws_from EmptyString r) eqn:Hsplit.
        -- apply split_ws_nil_iff in Hsplit.
           rewrite rstrip_cons_space_empty by assumption.
           cbn. now rewrite app_nil_r.
        -- assert (Spec.rstrip r <> EmptyString) as Hne.
           { intros He. apply split_ws_nil_iff in He. congruence. }
           rewrite rstrip_cons_keep by assumption.
           cbn [Spec.collapse_from]. rewrite Hc.
           rewrite collapse_true_lstrip, lstrip_rstrip. reflexivity.
      * cbn [Py.split_ws_from Py.lstrip]. rewrite Hc. exact IH2.
    + split.
      * intros cur Hcur. cbn [Py.split_ws_from]. rewrite Hc.
        rewrite IH1 by apply snoc_not_empty.
        rewrite rstrip_cons_nonspace by assumption.
        cbn [Spec.collapse_from]. rewrite Hc. apply app_snoc.
      * cbn [Py.split_ws_from Py.lstrip]. rewrite Hc.
        rewrite IH1 by apply snoc_not_empty.
        rewrite rstrip_cons_nonspace by assumption.
        cbn [Spec.collapse_from]. rewrite Hc. reflexivity.
Qed.

Lemma join_split_ws s :
  Py.join "_" (Py.split_ws s) = Spec.collapse_ws (Spec.strip s).
Proof. apply join_split_ws_from. Qed.

Lemma findall_valid cls s n a :
  String.get n (Py.findall cls s) = Some a -> cls a = true.
Proof.
  revert n. induction s as [|d r IH]; intros n; cbn; [discriminate|].
  destruct (cls d) eqn:Hd; [|apply IH].
  destruct n as [|n]; cbn; [congruence | apply IH].
Qed.

End Strings.

(** ** The parser *)

Section ParserFacts.
Context `{FloatBuiltin}.

Lemma int16_raises s e : Py.int16 s = Py.Raise e -> e = Py.ValueError.
Proof.
  unfold Py.int16.
  destruct (Py.sign (Py.lstrip s)) as [neg s'].
  destruct (Py.hex_run 0 0 (Py.skip_0x (Py.lstrip s'))) as [[v read] rest].
  destruct read, (Py.lstrip rest); congruence.
Qed.

Lemma decompress_raises previous metric e :
  Sample.decompress previous metric = Py.Raise e -> e = Py.ValueError.
Proof.
  unfold Sample.decompress.
  destruct (_ && _); [|discriminate].
  destruct (Py.int16 _) eqn:Hint; cbn; [discriminate|].
  intros [= <-]. eapply int16_raises, Hint.
Qed.

Lemma float_raises s e : Sample.float s = Py.Raise e -> e = Py.ValueError.
Proof. unfold Sample.float. destruct (pyfloat s); congruence. Qed.

Lemma parse_part_raises key part e :
  Sample._parse_part key part = Py.Raise e -> e = Py.ValueError.
Proof.
  unfold Sample._parse_part.
  destruct (Py.split "|" part) as [|f0 [|f1 [|? ?]]]; try congruence.
  destruct (Sample.float f0) eqn:Hf0; cbn;
    [|intros [= <-]; eapply float_raises, Hf0].
  destruct (Py.contains "@" f1); cbn; [|discriminate].
  destruct (Py.split_once "@" f1) as [|f1' [|rate [|? ?]]]; cbn; try congruence.
  destruct (Sample.float rate) eqn:Hrate; cbn;
    [|intros [= <-]; eapply float_raises, Hrate].
  destruct (_ && _); cbn; congruence.
Qed.

(** A parsed sample carries the key it was parsed under and a rate in
    (0, 1]. *)
Lemma parse_part_ok key part s :
  Sample._parse_part key part = Py.Ok s ->
  Sample.key s = key /\ (0 < Sample.sample_rate s)%Q
  /\ (Sample.sample_rate s <= 1)%Q.
Proof.
  unfold Sample._parse_part.
  destruct (Py.split "|" part) as [|f0 [|f1 [|? ?]]]; try congruence.
  destruct (Sample.float f0); cbn; [|discriminate].
  destruct (Py.contains "@" f1); cbn.
  - destruct (Py.split_once "@" f1) as [|f1' [|rate [|? ?]]]; cbn;
      try congruence.
    destruct (Sample.float rate) as [r|]; cbn; [|discriminate].
    destruct (Py.Qlt_bool 0 r && Qle_bool r 1) eqn:Hr; cbn; [|discriminate].
    intros [= <-]. cbn. apply andb_prop in Hr as [Hlt Hle].
    split; [reflexivity|]. split.
    + unfold Py.Qlt_bool in Hlt. apply negb_true_iff in Hlt.
      apply Qnot_le_lt. intros Hle'. apply Qle_bool_iff in Hle'. congruence.
    + now apply Qle_bool_iff.
  - intros [= <-]. cbn. split; [reflexivity|]. split; [reflexivity|].
    apply Qle_refl.
Qed.

Lemma parse_parts_spec key parts samples :
  Sample.parse_parts key parts samples
  = Py.Ok (samples ++ Spec.well_formed_parts key parts).
Proof.
  unfold Sample.parse_parts. revert samples.
  induction parts as [|part parts IH]; intros samples; cbn.
  - now rewrite List.app_nil_r.
  - destruct (Sample._parse_part key part) as [s|e] eqn:Hpart; cbn.
    + rewrite IH, <- List.app_assoc. reflexivity.
    + apply parse_part_raises in Hpart as ->. cbn. apply IH.
Qed.

Lemma parse_metric_spec previous samples metric :
  Sample.parse_metric (previous, samples) metric
  = match Sample.decompress previous metric with
    | Py.Ok effective =>
        Py.Ok (effective, samples ++ Spec.line_samples effective)
    | Py.Raise _ => Py.Ok (previous, samples)
    end.
Proof.
  unfold Sample.parse_metric, Spec.line_samples.
  destruct (Sample.decompress previous metric) as [effective|e] eqn:Hd.
  - destruct (Py.split ":" effective) as [|raw parts].
    + now rewrite List.app_nil_r.
    + now rewrite parse_parts_spec.
  - now apply decompress_raises in Hd as ->.
Qed.

Lemma parse_lines_spec lines previous samples :
  exists previous',
    Py.for_each Sample.parse_metric lines (previous, samples)
    = Py.Ok (previous',
             samples ++ flat_map Spec.line_samples
                          (Spec.effective_lines previous lines)).
Proof.
  revert previous samples.
  induction lines as [|metric lines IH]; intros previous samples;
    cbn [Py.for_each Spec.effective_lines].
  - exists previous. cbn. now rewrite List.app_nil_r.
  - rewrite parse_metric_spec.
    destruct (Sample.decompress previous metric) as [effective|e];
      cbn [Py.bind flat_map].
    + destruct (IH effective (samples ++ Spec.line_samples effective))
        as [p Hp].
      exists p. rewrite Hp, <- List.app_assoc. reflexivity.
    + apply IH.
Qed.

(** [parse] returns the samples of the well-formed parts of the effective
    lines, and nothing else happens. *)
Lemma parse_spec datagram :
  Sample.parse datagram
  = Py.Ok (flat_map Spec.line_samples
             (Spec.effective_lines EmptyString (Py.splitlines datagram))).
Proof.
  unfold Sample.parse.
  destruct (parse_lines_spec (Py.splitlines datagram) EmptyString [])
    as [p ->].
  reflexivity.
Qed.

Lemma well_formed_parts_elem key parts s :
  In s (Spec.well_formed_parts key parts) <->
  exists part, In part parts /\ Sample._parse_part key part = Py.Ok s.
Proof.
  unfold Spec.well_formed_parts. rewrite in_flat_map. split.
  - intros (part & Hin & Hs). exists part. split; [assumption|].
    destruct (Sample._parse_part key part); cbn in Hs; [|tauto].
    destruct Hs as [->|[]]. reflexivity.
  - intros (part & Hin & Hs). exists part. split; [assumption|].
    rewrite Hs. now left.
Qed.

(** Every sample that [parse] returns has a rate in (0, 1]. *)
Lemma parse_rate samples datagram s :
  Sample.parse datagram = Py.Ok samples -> In s samples ->
  (0 < Sample.sample_rate s)%Q /\ (Sample.sample_rate s <= 1)%Q.
Proof.
  rewrite parse_spec. intros [= <-] Hin.
  apply in_flat_map in Hin as (effective & _ & Hin).
  unfold Spec.line_samples in Hin.
  destruct (Py.split ":" effective) as [|raw parts]; [destruct Hin|].
  apply well_formed_parts_elem in Hin as (part & _ & Hpart).
  now apply parse_part_ok in Hpart.
Qed.

End ParserFacts.

(** ** Key normalization (claim C7) *)

Section KeyNormalization.

(** C7, as stated, fails: leading and trailing whitespace is removed
    and leaves no underscore. *)
Lemma C7_counterexample :
  ~ (forall key, Sample._normalize_key key = Spec.normalize_key key).
Proof. intros Hall. specialize (Hall " a"). vm_compute in Hall. discriminate. Qed.

(** C7 (amended): for every raw key, normalization removes the leading
    and trailing whitespace, turns every remaining run of whitespace into
    a single underscore and every backslash into a dash, then keeps only
    the bytes of [A-Za-z0-9._-]; the result may be empty, and an empty key
    still yields samples; the line 'a b\c:1|c' produces a sample with key
    'a_b-c'. *)
Theorem C7_normalize_key (F : FloatBuiltin) (one : pyfloat "1" = Some 1%Q) :
  (forall raw,
      Sample._normalize_key raw = Spec.normalize_key (Spec.strip raw))
  /\ (forall raw n c,
      String.get n (Sample._normalize_key raw) = Some c ->
      Sample._VALID_CHAR_PATTERN c = true)
  /\ Sample._normalize_key " $ " = ""
  /\ Sample.parse ":1|c" = Py.Ok [Sample.mk "" 1 Sample.COUNTER 1]
  /\ Sample.parse "a b\c:1|c" = Py.Ok [Sample.mk "a_b-c" 1 Sample.COUNTER 1].
Proof.
  split; [|split; [|split; [|split]]].
  - intros raw. unfold Sample._normalize_key, Spec.normalize_key.
    now rewrite join_split_ws.
  - intros raw n c. apply findall_valid.
  - reflexivity.
  - unfold pyfloat in one. vm_compute. now rewrite one.
  - unfold pyfloat in one. vm_compute. now rewrite one.
Qed.

Lemma C7_normalize_key_witness :
  Sample.parse (H := Decimal.builtin) "a b\c:1|c"
  = Py.Ok [Sample.mk "a_b-c" 1 Sample.COUNTER 1].
Proof. exact (proj2 (proj2 (proj2 (proj2
         (C7_normalize_key Decimal.builtin eq_refl))))). Defined.

End KeyNormalization.

(** ** Prefix compression (claim C3) *)

Section PrefixCompression.

Lemma hex_digit_plain a x :
  Py.hex_digit a = Some x ->
  Py.is_space a = false /\ Ascii.eqb a "-" = false /\ Ascii.eqb a "+" = false.
Proof.
destruct a as [[] [] [] [] [] [] [] []]; intros Hx; vm_compute in Hx;
  (discriminate Hx || (repeat split; reflexivity)).
Qed.

Lemma int16_two_digits a b x y :
  Py.hex_digit a = Some x -> Py.hex_digit b = Some y ->
  Py.int16 (String a (String b EmptyString)) = Py.Ok (16 * x + y).
Proof.
  intros Ha Hb. destruct (hex_digit_plain a x Ha) as (Hs & Hm & Hp).
  unfold Py.int16. rewrite lstrip_cons, Hs. unfold Py.sign.
  rewrite Hm, Hp, lstrip_cons, Hs. cbn [Py.skip_0x Py.hex_run].
  rewrite Ha, Hb. cbn. f_equal; lia.
Qed.

Lemma slice_to_empty n : Py.slice_to n EmptyString = EmptyString.
Proof.
  unfold Py.slice_to.
  destruct (n <? 0); [destruct (Z.to_nat _) | destruct (Z.to_nat n)];
    reflexivity.
Qed.

(** C3, as stated, fails: [int] also reads a sign, and a negative
    length cuts the previous line from its end. *)
Lemma C3_counterexample :
  ~ (forall previous metric,
        Spec.of_result (Sample.decompress previous metric)
        = Spec.decompress previous metric).
Proof.
  intros Hall. specialize (Hall "abc:1|c" "^-1x:2|c").
  vm_compute in Hall. discriminate.
Qed.

(** C3 (amended): for every datagram line of length > 2 whose first
    character is '^', the next two characters are parsed by [int(., 16)],
    which reads two hexadecimal digits as their value; if that parse fails
    the line is skipped and the previous effective line is unchanged; if
    it gives n >= 0 the effective line is the first n characters of the
    previous effective line followed by the current line from position 3
    on, it becomes the previous line and its parts are parsed; with no
    previous effective line the prefix is empty.  The datagram
    'long.key.name:1|c\n^08other:2|c' yields exactly two samples, with
    keys 'long.key.name' and 'long.keyother'. *)
Theorem C3_prefix_compression (F : FloatBuiltin)
    (one : pyfloat "1" = Some 1%Q) (two : pyfloat "2" = Some 2%Q) :
  (forall previous samples metric,
      (2 < String.length metric)%nat ->
      String.get 0 metric = Some "^"%char ->
      (Py.int16 (String.substring 1 2 metric) = Py.Raise Py.ValueError ->
       Sample.parse_metric (previous, samples) metric
       = Py.Ok (previous, samples))
      /\ (forall n,
             Py.int16 (String.substring 1 2 metric) = Py.Ok n -> 0 <= n ->
             let effective :=
               Py.take (Z.to_nat n) previous +:+ Py.drop 3 metric in
             Sample.decompress previous metric = Py.Ok effective
             /\ Sample.parse_metric (previous, samples) metric
                = Py.Ok (effective, samples ++ Spec.line_samples effective))
      /\ (forall a b x y,
             String.get 1 metric = Some a -> String.get 2 metric = Some b ->
             Py.hex_digit a = Some x -> Py.hex_digit b = Some y ->
             Py.int16 (String.substring 1 2 metric) = Py.Ok (16 * x + y))
      /\ (forall n,
             Py.int16 (String.substring 1 2 metric) = Py.Ok n ->
             Sample.decompress EmptyString metric = Py.Ok (Py.drop 3 metric)))
  /\ Sample.parse Scenario.S4
     = Py.Ok [Sample.mk "long.key.name" 1 Sample.COUNTER 1;
              Sample.mk "long.keyother" 2 Sample.COUNTER 1].
Proof.
  split.
  - intros previous samples metric Hlen Hhead.
    assert (Hguard : (2 <? String.length metric)%nat
                     && bool_decide (String.get 0 metric = Some "^"%char)
                     = true).
    { apply andb_true_intro. split.
      - now apply Nat.ltb_lt.
      - now apply bool_decide_eq_true. }
    split; [|split; [|split]].
    + intros Hint. rewrite parse_metric_spec.
      unfold Sample.decompress. now rewrite Hguard, Hint.
    + intros n Hint Hn effective.
      assert (Hd : Sample.decompress previous metric = Py.Ok effective).
      { unfold Sample.decompress. rewrite Hguard, Hint. cbn.
        unfold Py.slice_to. apply Z.ltb_ge in Hn. now rewrite Hn. }
      split; [exact Hd|]. now rewrite parse_metric_spec, Hd.
    + intros a b x y Ha Hb Hx Hy.
      destruct metric as [|c0 [|a' [|b' rest]]]; cbn in Hlen; try lia.
      cbn in Ha, Hb. injection Ha as ->. injection Hb as ->.
      cbn [String.substring].
      replace (String.substring 0 0 rest) with EmptyString
        by now destruct rest.
      now apply int16_two_digits.
    + intros n Hint. unfold Sample.decompress. rewrite Hguard, Hint. cbn.
      now rewrite slice_to_empty.
  - unfold pyfloat in one, two. vm_compute. now rewrite one, two.
Qed.

Lemma C3_prefix_compression_witness :
  Sample.parse (H := Decimal.builtin) Scenario.S4
  = Py.Ok [Sample.mk "long.key.name" 1 Sample.COUNTER 1;
           Sample.mk "long.keyother" 2 Sample.COUNTER 1].
Proof. exact (proj2 (C3_prefix_compression Decimal.builtin eq_refl eq_refl)).
Defined.

End PrefixCompression.

(** ** Robustness of the parser (claim C9) *)

Section ParserTotal.

(** C9: for every datagram, [Sample.parse] returns a list of samples and
    raises nothing; the list holds exactly the samples of the well-formed
    parts of the effective lines, a malformed line, part or rate
    contributing nothing; for the datagram
    'a:1|c\nb:notanumber|c\nc:3|c@2.0\nd:4|c' exactly the keys 'a' and 'd'
    produce samples. *)
Theorem C9_parse_never_raises (F : FloatBuiltin)
    (one : pyfloat "1" = Some 1%Q) (nan : pyfloat "notanumber" = None)
    (three : pyfloat "3" = Some 3%Q) (rate : pyfloat "2.0" = Some 2%Q)
    (four : pyfloat "4" = Some 4%Q) :
  (forall datagram,
      Sample.parse datagram
      = Py.Ok (flat_map Spec.line_samples
                 (Spec.effective_lines EmptyString (Py.splitlines datagram))))
  /\ (forall key parts s,
         In s (Spec.well_formed_parts key parts) <->
         exists part, In part parts /\ Sample._parse_part key part = Py.Ok s)
  /\ (forall key part e,
         Sample._parse_part key part = Py.Raise e -> e = Py.ValueError)
  /\ Sample.parse Scenario.S5
     = Py.Ok [Sample.mk "a" 1 Sample.COUNTER 1;
              Sample.mk "d" 4 Sample.COUNTER 1].
Proof.
  split; [apply parse_spec|].
  split; [apply well_formed_parts_elem|].
  split; [apply parse_part_raises|].
  unfold pyfloat in *. vm_compute. rewrite one, nan, three, rate, four.
  reflexivity.
Qed.

Lemma C9_parse_never_raises_witness :
  Sample.parse (H := Decimal.builtin) Scenario.S5
  = Py.Ok [Sample.mk "a" 1 Sample.COUNTER 1;
           Sample.mk "d" 4 Sample.COUNTER 1].
Proof.
  exact (proj2 (proj2 (proj2
    (C9_parse_never_raises Decimal.builtin eq_refl eq_refl eq_refl eq_refl
       eq_refl)))).
Defined.

End ParserTotal.


(** ** The Listener (claims C1 and C4) *)

Section ListenerFacts.

Lemma key_count_ne key : key <> "tallier._key_counts." +:+ key.
Proof.
intros Heq. apply (f_equal String.length) in Heq.
rewrite length_app in Heq. cbn in Heq. lia.
Qed.

Lemma child_keys_ne id :
  "tallier.messages.child_" +:+ id <> "tallier.bytes.child_" +:+ id.
Proof. cbn. discriminate. Qed.

(** The effect of [_handle_sample] on a sample whose rate is not zero. *)
Lemma handle_sample_ok self sample :
  ~ (Sample.sample_rate sample == 0)%Q ->
  let key := Sample.key sample in
  let count_key := "tallier._key_counts." +:+ key in
  let counters := fst (Listener.current_samples self) in
  let timers := snd (Listener.current_samples self) in
  exists self',
    Listener._handle_sample self sample = Py.Ok self'
    /\ Listener.with_samples self' (Listener.current_samples self) = self
    /\ fst (Listener.current_samples self') !! count_key
       = Some (Listener.get counters count_key + 1)%Q
    /\ match Sample.value_type sample with
       | Sample.COUNTER =>
           fst (Listener.current_samples self') !! key
           = Some (Listener.get counters key
                   + Sample.value sample / Sample.sample_rate sample)%Q
           /\ snd (Listener.current_samples self') = timers
           /\ forall k, k <> key -> k <> count_key ->
                fst (Listener.current_samples self') !! k = counters !! k
       | Sample.TIMER =>
           snd (Listener.current_samples self') !! key
           = Some (default [] (timers !! key) ++ [Sample.value sample])
           /\ (forall k, k <> key ->
                 snd (Listener.current_samples self') !! k = timers !! k)
           /\ forall k, k <> count_key ->
                fst (Listener.current_samples self') !! k = counters !! k
       end.
Proof.
intros Hrate key count_key counters timers.
assert (Hne : key <> count_key) by apply key_count_ne.
unfold Listener._handle_sample.
destruct self as [id [c t] mc lmc bc lbc]. cbn in counters, timers.
cbn [Listener.current_samples].
fold key. fold count_key.
destruct (Sample.value_type sample).
- unfold Py.div.
  destruct (Qeq_bool (Sample.sample_rate sample) 0) eqn:Hz.
  { apply Qeq_bool_iff in Hz. contradiction. }
  cbn [Py.bind]. eexists. split; [reflexivity|].
  cbn [Listener.current_samples Listener.with_samples fst snd
       Listener.listener_id Listener.message_count
       Listener.last_message_count Listener.byte_count
       Listener.last_byte_count].
  split; [reflexivity|]. split.
  { rewrite lookup_insert_eq. unfold Listener.get at 1.
    rewrite lookup_insert_ne by assumption. reflexivity. }
  split; [|split; [reflexivity|]].
  + rewrite lookup_insert_ne by congruence. now rewrite lookup_insert_eq.
  + intros k Hk Hkc. rewrite !lookup_insert_ne by congruence. reflexivity.
- cbn [Py.bind]. eexists. split; [reflexivity|].
  cbn [Listener.current_samples Listener.with_samples fst snd
       Listener.listener_id Listener.message_count
       Listener.last_message_count Listener.byte_count
       Listener.last_byte_count].
  split; [reflexivity|]. split; [now rewrite lookup_insert_eq|].
  split; [now rewrite lookup_insert_eq|]. split.
  + intros k Hk. now rewrite lookup_insert_ne by congruence.
  + intros k Hk. now rewrite lookup_insert_ne by congruence.
Qed.

(** C4: [Listener.flush] replaces the live bundle with an empty one and
    returns the former one, in whose counters tallier.messages.child_<id> is
    message_count - last_message_count and tallier.bytes.child_<id> is
    byte_count - last_byte_count; every other counter and every timer list
    of the returned bundle is as accumulated; afterwards last_message_count
    and last_byte_count hold the current totals, and message_count,
    byte_count and the id are as before, so that a flush that follows at
    once reports 0 and 0. *)
Theorem C4_flush self :
  let returned := fst (Listener.flush self) in
  let self' := snd (Listener.flush self) in
  let id := Py.str_of_nat (Listener.listener_id self) in
  let messages := "tallier.messages.child_" +:+ id in
  let bytes := "tallier.bytes.child_" +:+ id in
  Listener.current_samples self' = Listener.empty_bundle
  /\ fst returned !! messages
     = Some (inject_Z (Listener.message_count self
                       - Listener.last_message_count self))
  /\ fst returned !! bytes
     = Some (inject_Z (Listener.byte_count self
                       - Listener.last_byte_count self))
  /\ (forall k, k <> messages -> k <> bytes ->
        fst returned !! k = fst (Listener.current_samples self) !! k)
  /\ snd returned = snd (Listener.current_samples self)
  /\ Listener.last_message_count self' = Listener.message_count self
  /\ Listener.last_byte_count self' = Listener.byte_count self
  /\ Listener.message_count self' = Listener.message_count self
  /\ Listener.byte_count self' = Listener.byte_count self
  /\ Listener.listener_id self' = Listener.listener_id self
  /\ fst (fst (Listener.flush self')) !! messages = Some (inject_Z 0)
  /\ fst (fst (Listener.flush self')) !! bytes = Some (inject_Z 0).
Proof.
intros returned self' id messages bytes.
assert (Hne : messages <> bytes) by apply child_keys_ne.
subst returned self'. unfold Listener.flush.
cbn [fst snd Listener.current_samples Listener.last_message_count
     Listener.last_byte_count Listener.message_count Listener.byte_count
     Listener.listener_id].
fold id. fold messages. fold bytes.
split; [reflexivity|].
split; [rewrite lookup_insert_ne by congruence; apply lookup_insert_eq|].
split; [apply lookup_insert_eq|].
split; [intros k Hm Hb; now rewrite !lookup_insert_ne by congruence|].
do 6 (split; [reflexivity|]).
rewrite !Z.sub_diag.
split; [rewrite lookup_insert_ne by congruence|]; apply lookup_insert_eq.
Qed.

End ListenerFacts.


(** ** Sorting *)

Section Sorting.
Context {A : Type} (key : A -> Q).

#[local] Abbreviation key_le := (fun a b : A => (key a <= key b)%Q).

Lemma insert_by_perm x l : Permutation (Py.insert_by key x l) (x :: l).
Proof.
induction l as [|y l IH]; cbn; [reflexivity|].
destruct (Qle_bool (key x) (key y)); [reflexivity|].
rewrite IH. apply perm_swap.
Qed.

Lemma sorted_perm l : Permutation (Py.sorted key l) l.
Proof.
induction l as [|x l IH]; cbn; [reflexivity|].
rewrite insert_by_perm. now apply perm_skip.
Qed.



Lemma sorted_length l : length (Py.sorted key l) = length l.
Proof. apply Permutation_length, sorted_perm. Qed.


End Sorting.


(** ** The FrequencyCounter (claims C8 and C10) *)

Section FrequencyCounterFacts.

#[local] Abbreviation del :=
  (fold_left (fun (freq : gmap string Q) (item : string * Q) =>
                delete (fst item) freq)).







#[local] Abbreviation add :=
  (fun (self : FrequencyCounter.t) (item : string * Q) =>
     let '(key, value) := item in
     FrequencyCounter.mk
       (FrequencyCounter.size self) (FrequencyCounter.oversample_size self)
       (FrequencyCounter.total_observed self + value)%Q
       (<[key := (FrequencyCounter.get (FrequencyCounter.frequencies self) key
                  + value)%Q]> (FrequencyCounter.frequencies self))).






End FrequencyCounterFacts.

Section BoundedMemory.





End BoundedMemory.

(** ** Coverage *)

Section Coverage.

#[local] Abbreviation msum :=
  (fun m : gmap string Q => Py.sum (map snd (map_to_list m))).

#[local] Abbreviation add :=
  (fun (self : FrequencyCounter.t) (item : string * Q) =>
     let '(key, value) := item in
     FrequencyCounter.mk
       (FrequencyCounter.size self) (FrequencyCounter.oversample_size self)
       (FrequencyCounter.total_observed self + value)%Q
       (<[key := (FrequencyCounter.get (FrequencyCounter.frequencies self) key
                  + value)%Q]> (FrequencyCounter.frequencies self))).

Lemma fold_left_Qplus l a :
  (fold_left Qplus l a == a + fold_right Qplus 0 l)%Q.
Proof.
revert a. induction l as [|x l IH]; intros a; cbn; [lra|].
rewrite IH. lra.
Qed.

Lemma sum_cons x l : (Py.sum (x :: l) == x + Py.sum l)%Q.
Proof. unfold Py.sum. cbn. rewrite !fold_left_Qplus. lra. Qed.

Lemma sum_perm l l' : Permutation l l' -> (Py.sum l == Py.sum l')%Q.
Proof.
induction 1 as [|x l l' _ IH|x y l|l l' l'' _ IH1 _ IH2].
- reflexivity.
- rewrite !sum_cons, IH. reflexivity.
- rewrite !sum_cons. lra.
- now rewrite IH1.
Qed.

Lemma msum_delete (m : gmap string Q) k v :
  m !! k = Some v -> (msum m == v + msum (delete k m))%Q.
Proof.
intros Hk. rewrite <- sum_cons.
apply sum_perm. change (v :: map snd (map_to_list (delete k m)))
  with (map snd ((k, v) :: map_to_list (delete k m))).
apply Permutation_map. symmetry. now apply map_to_list_delete.
Qed.

Lemma msum_insert (m : gmap string Q) k x :
  (msum (<[k := x]> m) == x + msum (delete k m))%Q.
Proof.
rewrite <- sum_cons, <- (insert_delete_eq m).
apply sum_perm. change (x :: map snd (map_to_list (delete k m)))
  with (map snd ((k, x) :: map_to_list (delete k m))).
apply Permutation_map, map_to_list_insert, lookup_delete_eq.
Qed.

(** The invariant: no count is negative, and the counts retained add up
    to no more than what was observed. *)
#[local] Abbreviation inv :=
  (fun self : FrequencyCounter.t =>
     (forall k v, FrequencyCounter.frequencies self !! k = Some v -> (0 <= v)%Q)
     /\ (msum (FrequencyCounter.frequencies self)
         <= FrequencyCounter.total_observed self)%Q).








End Coverage.

(** ** The merge of the flushed bundles (claim C6) *)

Section Merge.

(** C6, on two workers that counted the key 'x' three and four times: the
    batch for the FrequencyCounter holds 4 under 'x', the count of the
    bundle merged last, where the claim puts the total 7; the un-stripped
    key is summed to 7 in agg_counters. *)
Lemma C6_batch_is_overwritten :
  Master.stat_key_counts (Master.merge [Scenario.worker_a; Scenario.worker_b])
    !! "x" = Some 4%Q
  /\ Master.agg_counters (Master.merge [Scenario.worker_a; Scenario.worker_b])
       !! "tallier._key_counts.x" = Some (0 + 3 + 4)%Q.
Proof. split; vm_compute; reflexivity. Qed.

End Merge.

(** ** The graphite report (claim C5) *)

Section Report.

Lemma int_hundredth m : 0 <= m -> Py.int (inject_Z m / 100)%Q = m / 100.
Proof.
intros Hm. unfold Py.int. cbn. rewrite Z.mul_1_r.
now apply Z.quot_div_nonneg.
Qed.

Lemma last_item_nth {A} (l : list A) :
  l <> [] ->
  exists x, nth_error l (length l - 1) = Some x /\ Py.last_item l = Py.Ok x.
Proof.
unfold Py.last_item.
induction l as [|a l IH]; [congruence|]. intros _.
destruct l as [|b l].
- exists a. split; reflexivity.
- destruct IH as (x & Hnth & Hlast); [discriminate|].
  exists x. split.
  + cbn [length] in *. replace (S (S (length l)) - 1)%nat
      with (S (S (length l) - 1)) by lia. exact Hnth.
  + exact Hlast.
Qed.

Lemma index_nth {A} (l : list A) i x :
  0 <= i -> nth_error l (Z.to_nat i) = Some x -> Py.index l i = Py.Ok x.
Proof.
intros Hi Hx. unfold Py.index. apply Z.ltb_ge in Hi. now rewrite Hi, Hx.
Qed.

Lemma div_ok x y : ~ (y == 0)%Q -> Py.div x y = Py.Ok (x / y)%Q.
Proof.
intros Hy. unfold Py.div. destruct (Qeq_bool y 0) eqn:Hz; [|reflexivity].
apply Qeq_bool_iff in Hz. contradiction.
Qed.

(** The six lines of one timer key. *)
Lemma timer_lines_ok interval now key (L : list Q) :
  ~ (interval == 0)%Q -> L <> [] ->
  let S := Py.sorted (fun v => v) L in
  let n := Z.of_nat (length L) in
  exists lower upper upper_90,
    nth_error S 0 = Some lower
    /\ nth_error S (length L - 1) = Some upper
    /\ nth_error S (Z.to_nat (n * 90 / 100)) = Some upper_90
    /\ Master.timer_lines interval now (key, L)
       = Py.Ok
           [("stats.timers." +:+ key +:+ ".lower", lower, Py.int now);
            ("stats.timers." +:+ key +:+ ".upper", upper, Py.int now);
            ("stats.timers." +:+ key +:+ ".upper_90", upper_90, Py.int now);
            ("stats.timers." +:+ key +:+ ".mean",
             (Py.sum S / inject_Z n)%Q, Py.int now);
            ("stats.timers." +:+ key +:+ ".count", inject_Z n, Py.int now);
            ("stats.timers." +:+ key +:+ ".rate",
             (inject_Z n / interval)%Q, Py.int now)].
Proof.
intros Hinterval HL S n.
assert (Hlen : length S = length L) by apply sorted_length.
assert (Hpos : (0 < length L)%nat) by (destruct L; [congruence | cbn; lia]).
assert (HS : S <> []) by (intros HS; rewrite HS in Hlen; cbn in Hlen; lia).
destruct (nth_error S 0) as [lower|] eqn:Hlower;
  [|apply nth_error_None in Hlower; lia].
destruct (last_item_nth S HS) as (upper & Hupper & Hlast).
rewrite Hlen in Hupper.
assert (Hidx : 0 <= n * 90 / 100 < n).
{ subst n. split; [apply Z.div_pos; lia|].
  apply Z.div_lt_upper_bound; lia. }
destruct (nth_error S (Z.to_nat (n * 90 / 100))) as [upper_90|] eqn:H90;
  [|apply nth_error_None in H90; lia].
exists lower, upper, upper_90.
split; [reflexivity|]. split; [exact Hupper|]. split; [reflexivity|].
unfold Master.timer_lines. fold S. rewrite Hlen. fold n.
rewrite (index_nth S 0 lower) by (exact Hlower || lia).
rewrite Hlast. unfold Master.percentile.
change (Z.of_nat 90) with 90. rewrite int_hundredth by lia.
rewrite (index_nth S (n * 90 / 100) upper_90) by (exact H90 || lia).
rewrite div_ok, div_ok; [reflexivity | exact Hinterval |].
intros Hz. unfold Qeq in Hz. cbn in Hz. lia.
Qed.

Lemma counter_lines_ok interval now item :
  ~ (interval == 0)%Q -> exists ls, Master.counter_lines interval now item = Py.Ok ls.
Proof.
intros Hinterval. destruct item as [key value]. unfold Master.counter_lines.
rewrite div_ok by assumption. eexists. reflexivity.
Qed.

Lemma lines_of_ok {A} (f : string * A -> Py.result (list Master.line)) items :
  (forall item, In item items -> exists ls, f item = Py.Ok ls) ->
  exists lines,
    Master.lines_of f items = Py.Ok lines
    /\ forall item ls l,
         In item items -> f item = Py.Ok ls -> In l ls -> In l lines.
Proof.
unfold Master.lines_of.
assert (Hgen : forall acc,
  (forall item, In item items -> exists ls, f item = Py.Ok ls) ->
  exists lines,
    Py.for_each (fun acc item => do ls <- f item; Py.Ok (acc ++ ls)) items acc
    = Py.Ok lines
    /\ (forall l, In l acc -> In l lines)
    /\ forall item ls l,
         In item items -> f item = Py.Ok ls -> In l ls -> In l lines).
{ induction items as [|item items IH]; intros acc Hok.
  - exists acc. cbn. split; [reflexivity|]. split; [auto|]. intros ? ? ? [].
  - destruct (Hok item (or_introl eq_refl)) as [ls Hls].
    destruct (IH (acc ++ ls) (fun i Hi => Hok i (or_intror Hi)))
      as (lines & Hrun & Hacc & Hitems).
    exists lines. cbn [Py.for_each]. rewrite Hls. cbn [Py.bind].
    split; [exact Hrun|]. split.
    + intros l Hl. apply Hacc, in_or_app. now left.
    + intros item' ls' l [<-|Hin] Hls' Hl.
      * rewrite Hls in Hls'. injection Hls' as <-.
        apply Hacc, in_or_app. now right.
      * eapply Hitems; eassumption. }
intros Hok. destruct (Hgen [] Hok) as (lines & Hrun & _ & Hitems).
exists lines. split; assumption.
Qed.

End Report.

(** ** The scheduler loop and the sink (claim C2) *)

Section Scheduler.

(** What a flush that fails leaves of the Master: the deadline, what
    graphite has received, and no error in the log. *)
#[local] Abbreviation frame :=
  (fun self self' : Master.t =>
     Master.next_flush_time self' = Master.next_flush_time self
     /\ Master.graphite self' = Master.graphite self
     /\ forall msg, In (Master.ERROR, msg) (Master.log self') ->
                    In (Master.ERROR, msg) (Master.log self)).

Lemma in_info_snoc (l : list (Master.level * string)) info msg :
  In (Master.ERROR, msg) (l ++ [(Master.INFO, info)]) -> In (Master.ERROR, msg) l.
Proof.
intros Hin. apply in_app_or in Hin as [Hin|[Hin|[]]]; [exact Hin | discriminate].
Qed.

Lemma div_raises x y e : Py.div x y = Py.Raise e -> e = Py.ZeroDivisionError.
Proof. unfold Py.div. destruct (Qeq_bool y 0); congruence. Qed.

Lemma index_raises {A} (l : list A) i e :
  Py.index l i = Py.Raise e -> e = Py.IndexError.
Proof.
unfold Py.index. destruct (i <? 0); [congruence|].
destruct (nth_error l (Z.to_nat i)); congruence.
Qed.

Lemma last_item_raises {A} (l : list A) e :
  Py.last_item l = Py.Raise e -> e = Py.IndexError.
Proof. unfold Py.last_item. destruct (List.last _ _); congruence. Qed.

#[local] Abbreviation report_exn :=
  (fun e : Py.exn => e = Py.ZeroDivisionError \/ e = Py.IndexError).

Lemma counter_lines_raises interval now item e :
  Master.counter_lines interval now item = Py.Raise e -> report_exn e.
Proof.
destruct item as [key value]. unfold Master.counter_lines.
destruct (Py.div value interval) eqn:Hd; cbn [Py.bind]; [discriminate|].
intros [= <-]. left. eapply div_raises, Hd.
Qed.

Lemma timer_lines_raises interval now item e :
  Master.timer_lines interval now item = Py.Raise e -> report_exn e.
Proof.
destruct item as [key values]. unfold Master.timer_lines.
destruct (Py.index _ 0) eqn:H0; cbn [Py.bind];
  [|intros [= <-]; right; eapply index_raises, H0].
destruct (Py.last_item _) eqn:H1; cbn [Py.bind];
  [|intros [= <-]; right; eapply last_item_raises, H1].
destruct (Py.index _ (Py.int _)) eqn:H2; cbn [Py.bind];
  [|intros [= <-]; right; eapply index_raises, H2].
destruct (Py.div (Py.sum _) _) eqn:H3; cbn [Py.bind];
  [|intros [= <-]; left; eapply div_raises, H3].
destruct (Py.div _ interval) eqn:H4; cbn [Py.bind];
  [discriminate | intros [= <-]; left; eapply div_raises, H4].
Qed.

Lemma lines_of_raises {A} (f : string * A -> Py.result (list Master.line))
    items e :
  (forall item e, f item = Py.Raise e -> report_exn e) ->
  Master.lines_of f items = Py.Raise e -> report_exn e.
Proof.
intros Hf. unfold Master.lines_of. generalize (@nil Master.line) as acc.
induction items as [|item items IH]; intros acc; cbn; [discriminate|].
destruct (f item) eqn:Hitem; cbn; [apply IH|].
intros [= <-]. eapply Hf, Hitem.
Qed.

Lemma build_report_frame self now c t :
  let r := Master._build_graphite_report self now c t in
  Master.next_flush_time (fst r) = Master.next_flush_time self
  /\ Master.graphite (fst r) = Master.graphite self
  /\ Master.log (fst r) = Master.log self
  /\ Master.stopped (fst r) = Master.stopped self
  /\ forall e, snd r = Py.Raise e -> report_exn e.
Proof.
unfold Master._build_graphite_report.
destruct (Master.lines_of (Master.counter_lines _ now) _) as [cs|e1] eqn:Hcs;
  cbn [Py.bind].
- destruct (Master.lines_of (Master.timer_lines _ now) _) as [ts|e2] eqn:Hts;
    cbn.
  + do 4 (split; [reflexivity|]). discriminate.
  + do 4 (split; [reflexivity|]). intros e [= <-].
    eapply lines_of_raises; [|exact Hts]. apply timer_lines_raises.
- cbn. do 4 (split; [reflexivity|]). intros e [= <-].
  eapply lines_of_raises; [|exact Hcs]. apply counter_lines_raises.
Qed.

(** A flush during which the connection or the send fails. *)
Lemma flush_sink_failure self io :
  Master.connect io = Py.Raise Py.socket_error
  \/ (Master.connect io = Py.Ok tt /\ Master.send io = Py.Raise Py.socket_error) ->
  exists self' e,
    Master._flush self io = (self', Py.Raise e)
    /\ (e = Py.socket_error \/ report_exn e)
    /\ (Master.connect io = Py.Raise Py.socket_error ->
        e = Py.socket_error
        /\ Master.last_flush_time self' = Master.last_flush_time self
        /\ Master.num_stats self' = Master.num_stats self)
    /\ Master.stopped self' = Master.stopped self
    /\ frame self self'.
Proof.
intros Hfail. unfold Master._flush.
set (counter := FrequencyCounter._sample_batch _ _).
set (aggc := <["tallier.bytes.total" := _]> _).
set (self2 := if Qle_bool 60 _ then _ else _).
assert (H2 : Master.next_flush_time self2 = Master.next_flush_time self
             /\ Master.graphite self2 = Master.graphite self
             /\ Master.last_flush_time self2 = Master.last_flush_time self
             /\ Master.num_stats self2 = Master.num_stats self
             /\ Master.stopped self2 = Master.stopped self
             /\ forall msg, In (Master.ERROR, msg) (Master.log self2) ->
                            In (Master.ERROR, msg) (Master.log self)).
{ subst self2. destruct (Qle_bool 60 _); [|cbn; tauto].
  match goal with
  | |- context [match ?x with [] => _ | _ :: _ => _ end] => destruct x
  end; cbn; [tauto|].
  do 5 (split; [reflexivity|]). intros msg. apply in_info_snoc. }
destruct H2 as (Hn & Hg & Hl & Hs & Hst & Hlog).
clearbody self2 counter aggc.
unfold Master._send_to_graphite.
destruct Hfail as [Hc|[Hc Hs']]; rewrite Hc.
- eexists _, _. split; [reflexivity|]. cbn.
  split; [now left|]. split; [intros _; now repeat split|].
  split; [assumption|]. split; [assumption|]. split; [assumption|].
  intros msg Hin. apply Hlog. eapply in_info_snoc, Hin.
- destruct (build_report_frame
              (Master.logging_info self2 "Connecting to graphite...")
              (Master.time_report io) aggc
              (Master.agg_timers (Master.merge (Master.results io))))
    as (Hn' & Hg' & Hl' & Hst' & Hexn).
  destruct (Master._build_graphite_report _ _ _ _) as [self3 [msg|e]];
    cbn in Hn', Hg', Hl', Hst', Hexn.
  + rewrite Hs'. eexists _, _. split; [reflexivity|].
    split; [now left|]. split; [intros Hc'; congruence|].
    split; [congruence|]. split; [congruence|]. split; [congruence|].
    intros m Hin. rewrite Hl' in Hin.
    apply Hlog. eapply in_info_snoc, Hin.
  + eexists _, _. split; [reflexivity|].
    split; [right; now apply Hexn|]. split; [intros Hc'; congruence|].
    split; [congruence|]. split; [congruence|]. split; [congruence|].
    intros m Hin. rewrite Hl' in Hin.
    apply Hlog. eapply in_info_snoc, Hin.
Qed.

End Scheduler.


(** * Further properties of the code *)

(** ** The Listener over whole datagrams *)

Section ListenerRuns.
Context `{FloatBuiltin}.

(** What one sample adds to the counter read under [k]. *)
#[local] Abbreviation counter_share :=
  (fun (k : string) (s : Sample.t) =>
     (match Sample.value_type s with
      | Sample.COUNTER =>
          if bool_decide (Sample.key s = k)
          then Sample.value s / Sample.sample_rate s else 0
      | Sample.TIMER => 0
      end
      + (if bool_decide ("tallier._key_counts." +:+ Sample.key s = k)
         then 1 else 0))%Q).

(** The values that the TIMER samples under [k] carry, in order. *)
#[local] Abbreviation timer_values :=
  (fun (k : string) (samples : list Sample.t) =>
     map Sample.value
       (List.filter (fun s => match Sample.value_type s with
                              | Sample.TIMER => bool_decide (Sample.key s = k)
                              | Sample.COUNTER => false
                              end)
                    samples)).

#[local] Abbreviation good_rates :=
  (fun samples : list Sample.t =>
     Forall (fun s => ~ (Sample.sample_rate s == 0)%Q) samples).

Lemma parse_good_rates datagram samples :
  Sample.parse datagram = Py.Ok samples -> good_rates samples.
Proof.
intros Hparse. apply List.Forall_forall. intros s Hin.
destruct (parse_rate samples datagram s Hparse Hin) as [Hpos _].
intros Hz. rewrite Hz in Hpos. now apply Qlt_irrefl in Hpos.
Qed.

(** One sample, seen through [Listener.get] and the timer lists. *)
Lemma handle_sample_effect self s :
  ~ (Sample.sample_rate s == 0)%Q ->
  exists self',
    Listener._handle_sample self s = Py.Ok self'
    /\ Listener.with_samples self' (Listener.current_samples self) = self
    /\ (forall k,
          Listener.get (fst (Listener.current_samples self')) k
          == Listener.get (fst (Listener.current_samples self)) k
             + counter_share k s)%Q
    /\ (forall k,
          snd (Listener.current_samples self') !! k
          = match timer_values k [s] with
            | [] => snd (Listener.current_samples self) !! k
            | vs => Some (default [] (snd (Listener.current_samples self) !! k)
                          ++ vs)
            end).
Proof.
intros Hrate. unfold Listener._handle_sample.
destruct self as [id [c t] mc lmc bc lbc]. cbn [Listener.current_samples].
assert (Hne : Sample.key s <> "tallier._key_counts." +:+ Sample.key s)
  by apply key_count_ne.
destruct s as [key value [|] rate]; cbn [Sample.key Sample.value
  Sample.value_type Sample.sample_rate] in *.
- unfold Py.div. destruct (Qeq_bool rate 0) eqn:Hz.
  { apply Qeq_bool_iff in Hz. contradiction. }
  cbn [Py.bind]. eexists. split; [reflexivity|]. split; [reflexivity|].
  cbn [Listener.current_samples Listener.with_samples fst snd]. split.
  + intros k. unfold Listener.get.
    destruct (decide ("tallier._key_counts." +:+ key = k)) as [<-|Hk1].
    * rewrite lookup_insert_eq, lookup_insert_ne by assumption.
      rewrite bool_decide_eq_false_2 by assumption.
      rewrite bool_decide_eq_true_2 by reflexivity. cbn. lra.
    * rewrite lookup_insert_ne by assumption.
      rewrite (bool_decide_eq_false_2 (_ +:+ _ = k)) by assumption.
      destruct (decide (key = k)) as [<-|Hk2].
      -- rewrite lookup_insert_eq, bool_decide_eq_true_2 by reflexivity.
         cbn. lra.
      -- rewrite lookup_insert_ne by assumption.
         rewrite bool_decide_eq_false_2 by assumption. lra.
  + intros k. reflexivity.
- cbn [Py.bind]. eexists. split; [reflexivity|]. split; [reflexivity|].
  cbn [Listener.current_samples Listener.with_samples fst snd]. split.
  + intros k. unfold Listener.get.
    destruct (decide ("tallier._key_counts." +:+ key = k)) as [<-|Hk1].
    * rewrite lookup_insert_eq, bool_decide_eq_true_2 by reflexivity. cbn. lra.
    * rewrite lookup_insert_ne, bool_decide_eq_false_2 by assumption. lra.
  + intros k. cbn. destruct (decide (key = k)) as [<-|Hk2].
    * rewrite bool_decide_eq_true_2 by reflexivity. cbn. apply lookup_insert_eq.
    * rewrite bool_decide_eq_false_2 by assumption.
      cbn. now apply lookup_insert_ne.
Qed.

#[local] Abbreviation same_counts :=
  (fun self self' : Listener.t =>
     Listener.listener_id self' = Listener.listener_id self
     /\ Listener.message_count self' = Listener.message_count self
     /\ Listener.last_message_count self' = Listener.last_message_count self
     /\ Listener.byte_count self' = Listener.byte_count self
     /\ Listener.last_byte_count self' = Listener.last_byte_count self).

Lemma with_samples_counts self self' b :
  Listener.with_samples self' b = self -> same_counts self self'.
Proof. intros <-. cbn. tauto. Qed.

Lemma timer_values_cons k s samples :
  timer_values k (s :: samples) = timer_values k [s] ++ timer_values k samples.
Proof.
cbn. destruct (Sample.value_type s); [reflexivity|].
destruct (bool_decide (Sample.key s = k)); reflexivity.
Qed.

(** The samples of a datagram, one after the other. *)
Lemma handle_samples_effect samples self :
  good_rates samples ->
  exists self',
    Py.for_each Listener._handle_sample samples self = Py.Ok self'
    /\ same_counts self self'
    /\ (forall k,
          Listener.get (fst (Listener.current_samples self')) k
          == Listener.get (fst (Listener.current_samples self)) k
             + Py.sum (map (counter_share k) samples))%Q
    /\ (forall k,
          snd (Listener.current_samples self') !! k
          = match timer_values k samples with
            | [] => snd (Listener.current_samples self) !! k
            | vs => Some (default [] (snd (Listener.current_samples self) !! k)
                          ++ vs)
            end).
Proof.
revert self. induction samples as [|s samples IH]; intros self Hgood.
- exists self. split; [reflexivity|]. split; [tauto|].
  split; [intros k; unfold Py.sum; cbn; lra | reflexivity].
- apply Forall_cons in Hgood as [Hs Hgood].
  destruct (handle_sample_effect self s Hs) as (self1 & Hrun1 & Hw & Hc1 & Ht1).
  apply with_samples_counts in Hw.
  destruct (IH self1 Hgood) as (self' & Hrun & Hsame & Hc & Ht).
  exists self'. cbn [Py.for_each]. rewrite Hrun1. cbn [Py.bind].
  split; [exact Hrun|]. split; [intuition congruence|]. split.
  + intros k. rewrite Hc, Hc1. cbn [map]. rewrite sum_cons. lra.
  + intros k. rewrite Ht, Ht1. cbn [List.filter].
    destruct (Sample.value_type s);
      [|destruct (bool_decide (Sample.key s = k))]; cbn [map];
      destruct (map Sample.value (List.filter _ samples)) as [|v2 vs2]; cbn;
      rewrite <- ?List.app_assoc; reflexivity.
Qed.

(** A whole datagram. *)
Lemma handle_datagram_effect self datagram :
  exists samples self',
    Sample.parse datagram = Py.Ok samples
    /\ Listener._handle_datagram self datagram = Py.Ok self'
    /\ Listener.listener_id self' = Listener.listener_id self
    /\ Listener.message_count self' = Listener.message_count self + 1
    /\ Listener.byte_count self'
       = Listener.byte_count self + Z.of_nat (String.length datagram)
    /\ Listener.last_message_count self' = Listener.last_message_count self
    /\ Listener.last_byte_count self' = Listener.last_byte_count self
    /\ (forall k,
          Listener.get (fst (Listener.current_samples self')) k
          == Listener.get (fst (Listener.current_samples self)) k
             + Py.sum (map (counter_share k) samples))%Q
    /\ (forall k,
          snd (Listener.current_samples self') !! k
          = match timer_values k samples with
            | [] => snd (Listener.current_samples self) !! k
            | vs => Some (default [] (snd (Listener.current_samples self) !! k)
                          ++ vs)
            end).
Proof.
pose proof (parse_spec datagram) as Hparse.
set (samples := flat_map _ _) in Hparse.
destruct (handle_samples_effect samples self (parse_good_rates _ _ Hparse))
  as (self1 & Hrun & (Hid & Hmc & Hlmc & Hbc & Hlbc) & Hc & Ht).
exists samples. eexists. split; [exact Hparse|].
unfold Listener._handle_datagram. rewrite Hparse. cbn [Py.bind].
rewrite Hrun. cbn [Py.bind]. split; [reflexivity|].
cbn [Listener.listener_id Listener.message_count Listener.byte_count
     Listener.last_message_count Listener.last_byte_count
     Listener.current_samples].
rewrite Hid, Hmc, Hlmc, Hbc, Hlbc. repeat (split; [reflexivity|]).
split; assumption.
Qed.

(** X1: a datagram never stops the Listener: whatever its bytes,
    [_handle_datagram] returns, with message_count one higher, byte_count
    higher by the length of the datagram, and the id and the two snapshots
    of the last flush as they were. *)
Theorem X1_handle_datagram_total (self : Listener.t) (datagram : string) :
  exists self',
    Listener._handle_datagram self datagram = Py.Ok self'
    /\ Listener.message_count self' = Listener.message_count self + 1
    /\ Listener.byte_count self'
       = Listener.byte_count self + Z.of_nat (String.length datagram)
    /\ Listener.listener_id self' = Listener.listener_id self
    /\ Listener.last_message_count self' = Listener.last_message_count self
    /\ Listener.last_byte_count self' = Listener.last_byte_count self.
Proof.
destruct (handle_datagram_effect self datagram)
  as (samples & self' & _ & Hrun & Hid & Hmc & Hbc & Hlmc & Hlbc & _).
exists self'. tauto.
Qed.

(** X2: after a datagram, the timer list under each key is the list it
    was followed by the values of the datagram's TIMER samples with that
    key, in the order of the datagram; a key without such a sample keeps
    its entry, or its absence. *)
Theorem X2_handle_datagram_timers (self : Listener.t) (datagram : string) :
  exists samples self',
    Sample.parse datagram = Py.Ok samples
    /\ Listener._handle_datagram self datagram = Py.Ok self'
    /\ forall k,
         snd (Listener.current_samples self') !! k
         = match timer_values k samples with
           | [] => snd (Listener.current_samples self) !! k
           | vs => Some (default [] (snd (Listener.current_samples self) !! k)
                         ++ vs)
           end.
Proof.
destruct (handle_datagram_effect self datagram)
  as (samples & self' & Hparse & Hrun & _ & _ & _ & _ & _ & _ & Ht).
exists samples, self'. tauto.
Qed.

(** What [_handle_sample] does to the bundle depends on the bundle only. *)
Lemma handle_sample_bundle a b s :
  Listener.current_samples a = Listener.current_samples b ->
  (do x <- Listener._handle_sample a s; Py.Ok (Listener.current_samples x))
  = (do x <- Listener._handle_sample b s; Py.Ok (Listener.current_samples x)).
Proof.
intros Heq. unfold Listener._handle_sample. rewrite Heq.
destruct (Listener.current_samples b) as [c t].
destruct (Sample.value_type s); cbn [Py.bind].
- destruct (Py.div _ _); reflexivity.
- reflexivity.
Qed.

Lemma for_each_bundle {A} (f : Listener.t -> A -> Py.result Listener.t) :
  (forall a b x,
      Listener.current_samples a = Listener.current_samples b ->
      (do y <- f a x; Py.Ok (Listener.current_samples y))
      = (do y <- f b x; Py.Ok (Listener.current_samples y))) ->
  forall l a b,
    Listener.current_samples a = Listener.current_samples b ->
    (do y <- Py.for_each f l a; Py.Ok (Listener.current_samples y))
    = (do y <- Py.for_each f l b; Py.Ok (Listener.current_samples y)).
Proof.
intros Hf l. induction l as [|x l IH]; intros a b Heq; cbn [Py.for_each].
- cbn. now rewrite Heq.
- specialize (Hf a b x Heq).
  destruct (f a x) as [a'|ea], (f b x) as [b'|eb]; cbn [Py.bind] in *;
    try congruence.
  apply IH. congruence.
Qed.

Lemma handle_datagram_bundle a b datagram :
  Listener.current_samples a = Listener.current_samples b ->
  (do x <- Listener._handle_datagram a datagram;
   Py.Ok (Listener.current_samples x))
  = (do x <- Listener._handle_datagram b datagram;
     Py.Ok (Listener.current_samples x)).
Proof.
intros Heq. unfold Listener._handle_datagram.
destruct (Sample.parse datagram) as [samples|e]; cbn [Py.bind]; [|reflexivity].
pose proof (for_each_bundle Listener._handle_sample handle_sample_bundle
              samples a b Heq) as Hrun.
destruct (Py.for_each _ samples a), (Py.for_each _ samples b);
  cbn [Py.bind Listener.current_samples] in *; congruence.
Qed.

(** X4: what a Listener accumulates after a flush is what a Listener that
    has just been started accumulates from the same datagrams: nothing of
    the flushed bundle, and nothing of the counts, shows in the next
    bundle. *)
Theorem X4_flush_isolation (self : Listener.t) (datagrams : list string) :
  (do x <- Py.for_each Listener._handle_datagram datagrams
             (snd (Listener.flush self));
   Py.Ok (Listener.current_samples x))
  = (do x <- Py.for_each Listener._handle_datagram datagrams
               (Listener.start (Listener.listener_id self));
     Py.Ok (Listener.current_samples x)).
Proof.
apply (for_each_bundle Listener._handle_datagram handle_datagram_bundle).
reflexivity.
Qed.

End ListenerRuns.

(** ** The Controller *)

Section ControllerRuns.
Context `{FloatBuiltin}.

(** What the flushed bundles sent so far report under [key]. *)
#[local] Abbreviation reported :=
  (fun (key : string) (conn : list Controller.reply) =>
     Py.sum (flat_map (fun r => match r with
                                | Controller.bundle b => [Listener.get (fst b) key]
                                | Controller.count _ => []
                                end) conn)).

#[local] Abbreviation stops :=
  (fun e : Controller.event =>
     match e with
     | Controller.command cmd => bool_decide (cmd = Controller.SHUTDOWN)
     | Controller.interrupt => true
     | Controller.datagram _ => false
     end).

#[local] Abbreviation datagrams_of :=
  (fun events : list Controller.event =>
     flat_map (fun e => match e with
                        | Controller.datagram d => [d]
                        | _ => []
                        end) events).

#[local] Abbreviation flushes_of :=
  (fun events : list Controller.event =>
     List.filter (fun e => match e with
                           | Controller.command cmd =>
                               bool_decide (cmd = Controller.FLUSH)
                           | _ => false
                           end) events).

Lemma sum_app l1 l2 : (Py.sum (l1 ++ l2) == Py.sum l1 + Py.sum l2)%Q.
Proof.
induction l1 as [|x l1 IH]; cbn [app].
- unfold Py.sum at 2. cbn. lra.
- rewrite !sum_cons, IH. lra.
Qed.

Lemma sum_nil : (Py.sum [] == 0)%Q.
Proof. reflexivity. Qed.

Lemma sum_single x : (Py.sum [x] == x)%Q.
Proof. unfold Py.sum. cbn. lra. Qed.

Lemma inject_Z_sub a b : (inject_Z (a - b) == inject_Z a - inject_Z b)%Q.
Proof. unfold Z.sub. rewrite inject_Z_plus, inject_Z_opp. lra. Qed.

Lemma controller_flush_facts (self : Controller.t) :
  let id := Py.str_of_nat (Listener.listener_id (Controller.listener self)) in
  let l := Controller.listener self in
  let l1 := Controller.listener (Controller._flush self) in
  Listener.listener_id l1 = Listener.listener_id l
  /\ Listener.last_message_count l1 = Listener.message_count l
  /\ Listener.last_byte_count l1 = Listener.byte_count l
  /\ Listener.message_count l1 = Listener.message_count l
  /\ Listener.byte_count l1 = Listener.byte_count l
  /\ exists b,
       Controller.conn (Controller._flush self)
       = Controller.conn self ++ [Controller.bundle b]
       /\ Listener.get (fst b) ("tallier.messages.child_" +:+ id)
          = inject_Z (Listener.message_count l - Listener.last_message_count l)
       /\ Listener.get (fst b) ("tallier.bytes.child_" +:+ id)
          = inject_Z (Listener.byte_count l - Listener.last_byte_count l).
Proof.
intros id l l1. subst id l l1. unfold Controller._flush, Listener.flush.
cbn [Controller.listener Controller.conn Listener.listener_id
     Listener.last_message_count Listener.last_byte_count
     Listener.message_count Listener.byte_count].
do 5 (split; [reflexivity|]). eexists. split; [reflexivity|].
cbn [fst]. unfold Listener.get.
assert (Hne := child_keys_ne
                 (Py.str_of_nat
                    (Listener.listener_id (Controller.listener self)))).
split.
- rewrite lookup_insert_ne, lookup_insert_eq by congruence. reflexivity.
- rewrite lookup_insert_eq. reflexivity.
Qed.

(** The loop of the Controller over any events. *)
Lemma controller_run events self :
  exists self' stopped,
    Controller.start_loop self events = Py.Ok (self', stopped)
    /\ stopped = existsb stops events
    /\ (reported ("tallier.messages.child_"
                  +:+ Py.str_of_nat (Listener.listener_id (Controller.listener self)))
                 (Controller.conn self')
        == reported ("tallier.messages.child_"
                     +:+ Py.str_of_nat (Listener.listener_id (Controller.listener self)))
                    (Controller.conn self)
           + inject_Z (Listener.last_message_count (Controller.listener self')
                       - Listener.last_message_count (Controller.listener self)))%Q
    /\ (reported ("tallier.bytes.child_"
                  +:+ Py.str_of_nat (Listener.listener_id (Controller.listener self)))
                 (Controller.conn self')
        == reported ("tallier.bytes.child_"
                     +:+ Py.str_of_nat (Listener.listener_id (Controller.listener self)))
                    (Controller.conn self)
           + inject_Z (Listener.last_byte_count (Controller.listener self')
                       - Listener.last_byte_count (Controller.listener self)))%Q
    /\ (stopped = false ->
        Listener.message_count (Controller.listener self')
        = Listener.message_count (Controller.listener self)
          + Z.of_nat (length (datagrams_of events))
        /\ Listener.byte_count (Controller.listener self')
           = Listener.byte_count (Controller.listener self)
             + Z.of_nat (String.length (String.concat "" (datagrams_of events)))
        /\ length (Controller.conn self')
           = (length (Controller.conn self) + length (flushes_of events))%nat)
    /\ (stopped = true ->
        exists sent,
          Controller.conn self'
          = sent ++ [Controller.count
                       (Listener.message_count (Controller.listener self'))]).
Proof.
revert self. induction events as [|e events IH]; intros self.
- exists self, false. split; [reflexivity|]. split; [reflexivity|].
  rewrite !Z.sub_diag. change (inject_Z 0) with 0%Q.
  split; [lra|]. split; [lra|].
  split; [intros _; cbn; rewrite !Z.add_0_r, Nat.add_0_r; tauto | discriminate].
- destruct e as [d|cmd|].
  + destruct (handle_datagram_effect (Controller.listener self) d)
      as (samples & l & _ & Hrun & Hid & Hmc & Hbc & Hlmc & Hlbc & _).
    destruct (IH (Controller.mk (Controller.controller_id self) l
                    (Controller.conn self) (Controller.log self)))
      as (self' & stopped & Hloop & Hstop & Hm & Hb & Hrunning & Hstopped).
    cbn [Controller.listener Controller.conn] in *.
    exists self', stopped. cbn [Controller.start_loop]. rewrite Hrun.
    cbn [Py.bind]. split; [exact Hloop|]. split; [exact Hstop|].
    rewrite Hid, Hlmc in Hm. rewrite Hid, Hlbc in Hb.
    split; [exact Hm|]. split; [exact Hb|]. split; [|exact Hstopped].
    intros Hs. destruct (Hrunning Hs) as (Hmc' & Hbc' & Hlen).
    cbn [flat_map app List.filter].
    split; [|split; [|exact Hlen]].
    * rewrite Hmc', Hmc. cbn [length]. lia.
    * rewrite Hbc', Hbc.
      assert (Hcat : forall l0 : list string,
                 String.length (String.concat "" (d :: l0))
                 = (String.length d + String.length (String.concat "" l0))%nat).
      { intros [|x l0]; cbn [String.concat].
        - cbn. lia.
        - rewrite length_app. reflexivity. }
      rewrite Hcat. lia.
  + cbn [Controller.start_loop].
    destruct (bool_decide (cmd = Controller.FLUSH)) eqn:Hflush.
    * destruct (controller_flush_facts self)
        as (Hid & Hlmc & Hlbc & Hmc & Hbc & b & Hconn & Hgm & Hgb).
      destruct (IH (Controller._flush self))
        as (self' & stopped & Hloop & Hstop & Hm & Hb & Hrunning & Hstopped).
      exists self', stopped. split; [exact Hloop|].
      apply bool_decide_eq_true in Hflush. subst cmd.
      split; [exact Hstop|].
      rewrite Hid, Hlmc, Hconn, flat_map_app, sum_app in Hm.
      rewrite Hid, Hlbc, Hconn, flat_map_app, sum_app in Hb.
      cbn [flat_map app] in Hm, Hb. rewrite sum_single in Hm, Hb.
      rewrite Hgm in Hm. rewrite Hgb in Hb.
      rewrite !inject_Z_sub in Hm. rewrite !inject_Z_sub in Hb.
      rewrite !inject_Z_sub.
      split; [rewrite Hm; lra|]. split; [rewrite Hb; lra|].
      split; [|exact Hstopped].
      intros Hs. destruct (Hrunning Hs) as (Hmc' & Hbc' & Hlen).
      cbn [flat_map List.filter app]. rewrite bool_decide_eq_true_2 by reflexivity.
      rewrite Hmc in Hmc'. rewrite Hbc in Hbc'.
      split; [exact Hmc'|]. split; [exact Hbc'|].
      rewrite Hconn, List.length_app in Hlen. cbn [length] in *. lia.
    * destruct (bool_decide (cmd = Controller.SHUTDOWN)) eqn:Hshut.
      -- eexists _, true. split; [reflexivity|].
         cbn [existsb]. rewrite Hshut. split; [reflexivity|].
         cbn [Controller.info Controller._shutdown Controller.conn
              Controller.listener].
         rewrite !Z.sub_diag, !flat_map_app, !sum_app. cbn [flat_map app].
         change (inject_Z 0) with 0%Q. rewrite sum_nil.
         split; [lra|]. split; [lra|].
         split; [discriminate|]. intros _. eexists. reflexivity.
      -- destruct (IH (Controller.info self
                         ("controller reporting bad command from master: "
                          +:+ cmd)))
           as (self' & stopped & Hloop & Hstop & Hm & Hb & Hrunning & Hstopped).
         exists self', stopped. split; [exact Hloop|].
         cbn [existsb]. rewrite Hshut. split; [exact Hstop|].
         split; [exact Hm|]. split; [exact Hb|]. split; [|exact Hstopped].
         intros Hs. cbn [flat_map List.filter app]. rewrite Hflush.
         exact (Hrunning Hs).
  + eexists _, true. cbn [Controller.start_loop]. split; [reflexivity|].
    split; [reflexivity|].
    cbn [Controller.info Controller._shutdown Controller.conn
         Controller.listener].
    rewrite !Z.sub_diag, !flat_map_app, !sum_app. cbn [flat_map app].
    change (inject_Z 0) with 0%Q. rewrite sum_nil.
    split; [lra|]. split; [lra|].
    split; [discriminate|]. intros _. eexists. reflexivity.
Qed.

Lemma loop_stopped_prefix events after self self' :
  Controller.start_loop self events = Py.Ok (self', true) ->
  Controller.start_loop self (events ++ after) = Py.Ok (self', true).
Proof.
revert self. induction events as [|e events IH]; intros self; cbn [app].
- cbn. discriminate.
- destruct e as [d|cmd|]; cbn [Controller.start_loop].
  + destruct (Listener._handle_datagram _ d); cbn [Py.bind];
      [apply IH | discriminate].
  + destruct (bool_decide (cmd = Controller.FLUSH)); [apply IH|].
    destruct (bool_decide (cmd = Controller.SHUTDOWN)); [tauto | apply IH].
  + tauto.
Qed.

(** X5: the loop of [Controller.start] never fails, whatever datagrams
    and commands arrive.  It ends exactly when a SHUTDOWN command or an
    interrupt arrives; until then it has answered every FLUSH with one
    reply and any other command with none; when it ends, its last reply is
    the message count of its Listener, and nothing that arrives later is
    handled. *)
Theorem X5_controller_protocol (self : Controller.t)
    (events : list Controller.event) :
  exists self' stopped,
    Controller.start_loop self events = Py.Ok (self', stopped)
    /\ stopped = existsb stops events
    /\ (stopped = false ->
        length (Controller.conn self')
        = (length (Controller.conn self) + length (flushes_of events))%nat)
    /\ (stopped = true ->
        (exists sent,
            Controller.conn self'
            = sent ++ [Controller.count
                         (Listener.message_count (Controller.listener self'))])
        /\ forall after,
             Controller.start_loop self (events ++ after)
             = Py.Ok (self', true)).
Proof.
destruct (controller_run events self)
  as (self' & stopped & Hloop & Hstop & _ & _ & Hrunning & Hstopped).
exists self', stopped. split; [exact Hloop|]. split; [exact Hstop|].
split; [intros Hs; apply (Hrunning Hs)|].
intros Hs. split; [exact (Hstopped Hs)|].
intros after. apply loop_stopped_prefix. now rewrite <- Hs.
Qed.

(** X6: for a Controller that has just started, at any point of the loop
    the message deltas of the bundles flushed so far add up to the
    Listener's last_message_count, and the byte deltas to its
    last_byte_count: across flushes no datagram is reported twice and none
    is left out.  While the loop runs, message_count is the number of
    datagrams received and byte_count the sum of their lengths. *)
Theorem X6_flush_deltas_telescope (id : nat) (events : list Controller.event) :
  exists self' stopped,
    Controller.start_loop (Controller.started id) events = Py.Ok (self', stopped)
    /\ (reported ("tallier.messages.child_" +:+ Py.str_of_nat id)
                 (Controller.conn self')
        == inject_Z (Listener.last_message_count (Controller.listener self')))%Q
    /\ (reported ("tallier.bytes.child_" +:+ Py.str_of_nat id)
                 (Controller.conn self')
        == inject_Z (Listener.last_byte_count (Controller.listener self')))%Q
    /\ (stopped = false ->
        Listener.message_count (Controller.listener self')
        = Z.of_nat (length (datagrams_of events))
        /\ Listener.byte_count (Controller.listener self')
           = Z.of_nat (String.length (String.concat "" (datagrams_of events)))).
Proof.
destruct (controller_run events (Controller.started id))
  as (self' & stopped & Hloop & _ & Hm & Hb & Hrunning & _).
exists self', stopped. split; [exact Hloop|].
cbn [Controller.started Controller.listener Controller.conn Listener.start
     Listener.listener_id Listener.last_message_count
     Listener.last_byte_count Listener.message_count Listener.byte_count
     flat_map] in Hm, Hb, Hrunning.
rewrite Z.sub_0_r, sum_nil in Hm, Hb.
split; [rewrite Hm; lra|]. split; [rewrite Hb; lra|].
intros Hs. destruct (Hrunning Hs) as (Hmc & Hbc & _).
rewrite Hmc, Hbc. split; lia.
Qed.

End ControllerRuns.

(** ** The merge of the workers' bundles *)

Section MergeLaws.

(** [merge_counter] and [merge_timer], field by field. *)
Lemma merge_counter_fields m item :
  Master.agg_counters (Master.merge_counter m item)
  = <[fst item := (Listener.get (Master.agg_counters m) (fst item)
                   + snd item)%Q]> (Master.agg_counters m)
  /\ Master.agg_timers (Master.merge_counter m item) = Master.agg_timers m
  /\ Master.total_message_count (Master.merge_counter m item)
     = (if Py.startswith "tallier.messages.child_" (fst item)
        then (Master.total_message_count m + snd item)%Q
        else Master.total_message_count m)
  /\ Master.total_byte_count (Master.merge_counter m item)
     = (if negb (Py.startswith "tallier.messages.child_" (fst item))
           && Py.startswith "tallier.bytes.child_" (fst item)
        then (Master.total_byte_count m + snd item)%Q
        else Master.total_byte_count m).
Proof.
destruct item as [key value]. unfold Master.merge_counter. cbn [fst snd].
destruct (Py.startswith "tallier.messages.child_" key);
  [|destruct (Py.startswith "tallier.bytes.child_" key)]; cbn; tauto.
Qed.

Lemma merge_timer_fields m item :
  Master.agg_counters (Master.merge_timer m item) = Master.agg_counters m
  /\ Master.agg_timers (Master.merge_timer m item)
     = <[fst item := default [] (Master.agg_timers m !! fst item) ++ snd item]>
         (Master.agg_timers m)
  /\ Master.total_message_count (Master.merge_timer m item)
     = Master.total_message_count m
  /\ Master.total_byte_count (Master.merge_timer m item)
     = Master.total_byte_count m.
Proof. destruct item as [key values]. cbn. tauto. Qed.

(** The counters of one bundle, folded into the aggregate. *)
Lemma merge_counters_fold (items : list (string * Q)) m :
  NoDup (items.*1) ->
  let m' := fold_left Master.merge_counter items m in
  (forall k v, (k, v) ∈ items ->
     Master.agg_counters m' !! k
     = Some (Listener.get (Master.agg_counters m) k + v)%Q)
  /\ (forall k, k ∉ items.*1 ->
        Master.agg_counters m' !! k = Master.agg_counters m !! k)
  /\ Master.agg_timers m' = Master.agg_timers m
  /\ (Master.total_message_count m'
      == Master.total_message_count m
         + Py.sum (map snd (List.filter
                              (fun kv => Py.startswith "tallier.messages.child_"
                                           (fst kv)) items)))%Q
  /\ (Master.total_byte_count m'
      == Master.total_byte_count m
         + Py.sum (map snd (List.filter
                              (fun kv =>
                                 negb (Py.startswith "tallier.messages.child_"
                                         (fst kv))
                                 && Py.startswith "tallier.bytes.child_" (fst kv))
                              items)))%Q.
Proof.
revert m. induction items as [|[k0 v0] items IH]; intros m Hnd m'.
- subst m'. cbn [fold_left List.filter map].
  split; [intros k v Hin; now apply elem_of_nil in Hin|].
  split; [reflexivity|]. split; [reflexivity|].
  split; rewrite sum_nil; lra.
- rewrite fmap_cons in Hnd. apply NoDup_cons in Hnd as [Hk0 Hnd].
  destruct (merge_counter_fields m (k0, v0)) as (Hc & Ht & Hm & Hb).
  cbn [fst snd] in Hc, Hm, Hb.
  destruct (IH (Master.merge_counter m (k0, v0)) Hnd)
    as (Hin & Hout & Ht' & Hm' & Hb').
  subst m'. cbn [fold_left].
  split; [|split; [|split; [congruence|split]]].
  + intros k v Hkv. apply elem_of_cons in Hkv as [[= -> ->]|Hkv].
    * rewrite Hout, Hc by assumption. apply lookup_insert_eq.
    * rewrite (Hin k v Hkv), Hc. unfold Listener.get.
      rewrite lookup_insert_ne; [reflexivity|].
      intros <-. apply Hk0. apply list_elem_of_fmap. now exists (k0, v).
  + intros k Hk. rewrite fmap_cons, not_elem_of_cons in Hk.
    destruct Hk as [Hne Hk]. cbn in Hne.
    rewrite Hout, Hc by assumption. now apply lookup_insert_ne.
  + rewrite Hm', Hm. cbn [List.filter fst].
    destruct (Py.startswith "tallier.messages.child_" k0); cbn [map snd];
      rewrite ?sum_cons; lra.
  + rewrite Hb', Hb. cbn [List.filter fst].
    destruct (negb _ && _); cbn [map snd]; rewrite ?sum_cons; lra.
Qed.

(** The timers of one bundle, folded into the aggregate. *)
Lemma merge_timers_fold (items : list (string * list Q)) m :
  NoDup (items.*1) ->
  let m' := fold_left Master.merge_timer items m in
  (forall k vs, (k, vs) ∈ items ->
     Master.agg_timers m' !! k
     = Some (default [] (Master.agg_timers m !! k) ++ vs))
  /\ (forall k, k ∉ items.*1 ->
        Master.agg_timers m' !! k = Master.agg_timers m !! k)
  /\ Master.agg_counters m' = Master.agg_counters m
  /\ Master.total_message_count m' = Master.total_message_count m
  /\ Master.total_byte_count m' = Master.total_byte_count m.
Proof.
revert m. induction items as [|[k0 v0] items IH]; intros m Hnd m'.
- subst m'. cbn. split; [intros k v Hin; now apply elem_of_nil in Hin|].
  tauto.
- rewrite fmap_cons in Hnd. apply NoDup_cons in Hnd as [Hk0 Hnd].
  destruct (merge_timer_fields m (k0, v0)) as (Hc & Ht & Hm & Hb).
  cbn [fst snd] in Ht.
  destruct (IH (Master.merge_timer m (k0, v0)) Hnd)
    as (Hin & Hout & Hc' & Hm' & Hb').
  subst m'. cbn [fold_left].
  split; [|split; [|split; [congruence|split; congruence]]].
  + intros k v Hkv. apply elem_of_cons in Hkv as [[= -> ->]|Hkv].
    * rewrite Hout, Ht by assumption. apply lookup_insert_eq.
    * rewrite (Hin k v Hkv), Ht.
      rewrite lookup_insert_ne; [reflexivity|].
      intros <-. apply Hk0. apply list_elem_of_fmap. now exists (k0, v).
  + intros k Hk. rewrite fmap_cons, not_elem_of_cons in Hk.
    destruct Hk as [Hne Hk]. cbn in Hne.
    rewrite Hout, Ht by assumption. now apply lookup_insert_ne.
Qed.

(** One bundle. *)
Lemma merge_bundle_effect m (b : Listener.bundle) :
  let m' := Master.merge_bundle m b in
  (forall k,
      Master.agg_counters m' !! k
      = match fst b !! k with
        | Some v => Some (Listener.get (Master.agg_counters m) k + v)%Q
        | None => Master.agg_counters m !! k
        end)
  /\ (forall k,
      Master.agg_timers m' !! k
      = match snd b !! k with
        | Some vs => Some (default [] (Master.agg_timers m !! k) ++ vs)
        | None => Master.agg_timers m !! k
        end)
  /\ (Master.total_message_count m'
      == Master.total_message_count m
         + Py.sum (map snd (List.filter
                              (fun kv => Py.startswith "tallier.messages.child_"
                                           (fst kv))
                              (map_to_list (fst b)))))%Q
  /\ (Master.total_byte_count m'
      == Master.total_byte_count m
         + Py.sum (map snd (List.filter
                              (fun kv =>
                                 negb (Py.startswith "tallier.messages.child_"
                                         (fst kv))
                                 && Py.startswith "tallier.bytes.child_" (fst kv))
                              (map_to_list (fst b)))))%Q.
Proof.
intros m'. subst m'. unfold Master.merge_bundle.
destruct (merge_counters_fold (map_to_list (fst b)) m
            (NoDup_fst_map_to_list _)) as (Hcin & Hcout & Hct & Hcm & Hcb).
destruct (merge_timers_fold (map_to_list (snd b))
            (fold_left Master.merge_counter (map_to_list (fst b)) m)
            (NoDup_fst_map_to_list _)) as (Htin & Htout & Htc & Htm & Htb).
split; [|split; [|split; [now rewrite Htm | now rewrite Htb]]].
- intros k. rewrite Htc. destruct (fst b !! k) as [v|] eqn:Hk.
  + apply Hcin. now apply elem_of_map_to_list.
  + apply Hcout. intros Hin. apply list_elem_of_fmap in Hin as ([k' v] & -> & Hin).
    apply elem_of_map_to_list in Hin. cbn in Hk. congruence.
- intros k. destruct (snd b !! k) as [vs|] eqn:Hk.
  + rewrite (Htin k vs), Hct; [reflexivity|]. now apply elem_of_map_to_list.
  + rewrite Htout, Hct; [reflexivity|].
    intros Hin. apply list_elem_of_fmap in Hin as ([k' v] & -> & Hin).
    apply elem_of_map_to_list in Hin. cbn in Hk. congruence.
Qed.

#[local] Abbreviation message_share b :=
  (Py.sum (map snd (List.filter
                      (fun kv => Py.startswith "tallier.messages.child_" (fst kv))
                      (map_to_list (fst b))))).

#[local] Abbreviation byte_share b :=
  (Py.sum (map snd (List.filter
                      (fun kv =>
                         negb (Py.startswith "tallier.messages.child_" (fst kv))
                         && Py.startswith "tallier.bytes.child_" (fst kv))
                      (map_to_list (fst b))))).

(** All the bundles, from any aggregate. *)
Lemma merge_fold (results : list Listener.bundle) m k :
  let m' := fold_left Master.merge_bundle results m in
  (Listener.get (Master.agg_counters m') k
   == Listener.get (Master.agg_counters m) k
      + Py.sum (map (fun b : Listener.bundle => Listener.get (fst b) k) results))%Q
  /\ (Master.agg_counters m' !! k = None <->
      Master.agg_counters m !! k = None
      /\ List.Forall (fun b : Listener.bundle => fst b !! k = None) results)
  /\ default [] (Master.agg_timers m' !! k)
     = default [] (Master.agg_timers m !! k)
       ++ concat (map (fun b : Listener.bundle => default [] (snd b !! k)) results)
  /\ (Master.agg_timers m' !! k = None <->
      Master.agg_timers m !! k = None
      /\ List.Forall (fun b : Listener.bundle => snd b !! k = None) results)
  /\ (Master.total_message_count m'
      == Master.total_message_count m
         + Py.sum (map (fun b : Listener.bundle => message_share b) results))%Q
  /\ (Master.total_byte_count m'
      == Master.total_byte_count m
         + Py.sum (map (fun b : Listener.bundle => byte_share b) results))%Q.
Proof.
revert m. induction results as [|b results IH]; intros m m'.
- subst m'. cbn [fold_left map concat]. rewrite List.app_nil_r, sum_nil.
  split; [lra|]. split; [intuition|]. split; [reflexivity|].
  split; [intuition|]. split; lra.
- subst m'. cbn [fold_left map concat].
  destruct (merge_bundle_effect m b) as (Hc & Ht & Hm & Hb).
  destruct (IH (Master.merge_bundle m b)) as (Ic & Icn & It & Itn & Im & Ib).
  specialize (Hc k). specialize (Ht k).
  split; [|split; [|split; [|split; [|split]]]].
  + assert (Hb1 : (Listener.get (Master.agg_counters (Master.merge_bundle m b)) k
                   == Listener.get (Master.agg_counters m) k
                      + Listener.get (fst b) k)%Q).
    { unfold Listener.get in Hc |- *. rewrite Hc.
      destruct (fst b !! k); cbn [default from_option id]; lra. }
    rewrite Ic, sum_cons, Hb1. lra.
  + rewrite Icn, Hc, List.Forall_cons_iff.
    destruct (fst b !! k); intuition congruence.
  + rewrite It, Ht, List.app_assoc.
    destruct (snd b !! k); cbn [default from_option id]; [reflexivity|].
    now rewrite List.app_nil_r.
  + rewrite Itn, Ht, List.Forall_cons_iff.
    destruct (snd b !! k); intuition congruence.
  + rewrite Im, Hm, sum_cons. lra.
  + rewrite Ib, Hb, sum_cons. lra.
Qed.

(** X8 ([Master._flush], lines 198 and 199).  The merged timer list under a
    key is the concatenation, in the order of the workers' replies, of the
    workers' lists under that key; the key is absent from the merge exactly
    when every worker lacks it. *)
Theorem X8_merge_timers (results : list Listener.bundle) (k : string) :
  default [] (Master.agg_timers (Master.merge results) !! k)
  = concat (map (fun b : Listener.bundle => default [] (snd b !! k)) results)
  /\ (Master.agg_timers (Master.merge results) !! k = None <->
      List.Forall (fun b : Listener.bundle => snd b !! k = None) results).
Proof.
destruct (merge_fold results Master.merged_init k) as (_ & _ & Ht & Hn & _).
unfold Master.merge. rewrite Ht, Hn.
cbn [Master.merged_init Master.agg_timers]. rewrite lookup_empty.
cbn [default from_option id app]. tauto.
Qed.

End MergeLaws.

(** ** The FrequencyCounter: what a batch does to the entries *)

Section FrequencyCounterLaws.

#[local] Abbreviation msum :=
  (fun m : gmap string Q => Py.sum (map snd (map_to_list m))).

#[local] Abbreviation add :=
  (fun (self : FrequencyCounter.t) (item : string * Q) =>
     let '(key, value) := item in
     FrequencyCounter.mk
       (FrequencyCounter.size self) (FrequencyCounter.oversample_size self)
       (FrequencyCounter.total_observed self + value)%Q
       (<[key := (FrequencyCounter.get (FrequencyCounter.frequencies self) key
                  + value)%Q]> (FrequencyCounter.frequencies self))).

#[local] Abbreviation count_keys :=
  (fold_left (fun (batch : gmap string Q) (key : string) =>
                <[key := (FrequencyCounter.get batch key + 1)%Q]> batch)).

Lemma add_total l self :
  (FrequencyCounter.total_observed (fold_left add l self)
   == FrequencyCounter.total_observed self + Py.sum (map snd l))%Q.
Proof.
revert self. induction l as [|[k v] l IH]; intros self; cbn [fold_left map].
- rewrite sum_nil. lra.
- rewrite IH, sum_cons. cbn [FrequencyCounter.total_observed snd]. lra.
Qed.

Lemma add_lookup (l : list (string * Q)) self :
  NoDup (l.*1) ->
  (forall k v, (k, v) ∈ l ->
     FrequencyCounter.frequencies (fold_left add l self) !! k
     = Some (FrequencyCounter.get (FrequencyCounter.frequencies self) k + v)%Q)
  /\ (forall k, k ∉ l.*1 ->
        FrequencyCounter.frequencies (fold_left add l self) !! k
        = FrequencyCounter.frequencies self !! k).
Proof.
revert self. induction l as [|[k0 v0] l IH]; intros self Hnd.
- split; [intros k v Hin; now apply elem_of_nil in Hin | reflexivity].
- rewrite fmap_cons in Hnd. apply NoDup_cons in Hnd as [Hk0 Hnd].
  destruct (IH (add self (k0, v0)) Hnd) as (Hin & Hout).
  cbn [fold_left]. split.
  + intros k v Hkv. apply elem_of_cons in Hkv as [[= -> ->]|Hkv].
    * rewrite Hout by assumption. cbn [FrequencyCounter.frequencies].
      apply lookup_insert_eq.
    * rewrite (Hin k v Hkv). cbn [FrequencyCounter.frequencies].
      unfold FrequencyCounter.get. rewrite lookup_insert_ne; [reflexivity|].
      intros <-. apply Hk0. apply list_elem_of_fmap. now exists (k0, v).
  + intros k Hk. rewrite fmap_cons, not_elem_of_cons in Hk.
    destruct Hk as [Hne Hk]. cbn in Hne.
    rewrite Hout by assumption. cbn [FrequencyCounter.frequencies].
    now apply lookup_insert_ne.
Qed.

(** The entries once the batch is added, before any eviction. *)
Lemma add_batch_lookup self (batch : gmap string Q) k :
  FrequencyCounter.frequencies
    (fold_left add (Py.sorted (fun i => (- snd i)%Q) (map_to_list batch)) self)
  !! k
  = match batch !! k with
    | Some bv =>
        Some (FrequencyCounter.get (FrequencyCounter.frequencies self) k + bv)%Q
    | None => FrequencyCounter.frequencies self !! k
    end.
Proof.
set (items := Py.sorted _ _).
assert (Hperm : Permutation items (map_to_list batch)) by apply sorted_perm.
assert (Hnd : NoDup (items.*1)).
{ unfold items. rewrite (sorted_perm _ (map_to_list batch)).
  apply NoDup_fst_map_to_list. }
destruct (add_lookup items self Hnd) as (Hin & Hout).
destruct (batch !! k) as [bv|] eqn:Hk.
- apply Hin. rewrite Hperm. now apply elem_of_map_to_list.
- apply Hout. intros Hmem.
  apply list_elem_of_fmap in Hmem as ([k' v] & -> & Hmem).
  rewrite Hperm in Hmem. apply elem_of_map_to_list in Hmem. cbn in Hk.
  congruence.
Qed.

Lemma count_keys_sum (chunk : list string) (batch : gmap string Q) :
  (msum (count_keys chunk batch)
   == msum batch + inject_Z (Z.of_nat (length chunk)))%Q.
Proof.
revert batch. induction chunk as [|key chunk IH]; intros batch.
- cbn [fold_left length]. change (inject_Z (Z.of_nat 0)) with 0%Q. lra.
- cbn [fold_left length]. rewrite IH, msum_insert, Nat2Z.inj_succ.
  unfold Z.succ. rewrite inject_Z_plus. change (inject_Z 1) with 1%Q.
  unfold FrequencyCounter.get.
  destruct (batch !! key) as [v|] eqn:Hk; cbn [default from_option id].
  + rewrite (msum_delete batch key v Hk). lra.
  + rewrite delete_id by assumption. lra.
Qed.





End FrequencyCounterLaws.

(** ** The graphite report: its layout and its failures *)

Section ReportLaws.

(** The two lines of a counter. *)
#[local] Abbreviation counter_pair :=
  (fun (interval now : Q) (item : string * Q) =>
     [("stats." +:+ fst item, (snd item / interval)%Q, Py.int now);
      ("stats_counts." +:+ fst item, snd item, Py.int now)] : list Master.line).

(** The two lines that end a report. *)
#[local] Abbreviation trailer :=
  (fun (self : Master.t) (now : Q) (n : Z) =>
     [("stats.tallier.num_stats", inject_Z n, Py.int now);
      ("stats.tallier.num_workers",
       inject_Z (Z.of_nat (Master.num_workers self)), Py.int now)]
     : list Master.line).

(** The Master once the generator has assigned [last_flush_time] and
    [num_stats]. *)
#[local] Abbreviation reported_at :=
  (fun (self : Master.t) (now : Q) (n : Z) =>
     Master.mk (Master.num_workers self) (Master.flush_interval self)
               (Master.harold self) (Master.next_flush_time self) now n
               (Master.stat_key_counter self) (Master._last_stat_msg self)
               (Master.log self) (Master.graphite self) (Master.stopped self)).

Lemma lines_of_flat {A} (f : string * A -> Py.result (list Master.line))
    (g : string * A -> list Master.line) items :
  (forall item, In item items -> f item = Py.Ok (g item)) ->
  Master.lines_of f items = Py.Ok (flat_map g items).
Proof.
unfold Master.lines_of. change (flat_map g items) with ([] ++ flat_map g items).
generalize (@nil Master.line) as acc.
induction items as [|item items IH]; intros acc Hok; cbn [Py.for_each flat_map].
- now rewrite List.app_nil_r.
- rewrite (Hok item (or_introl eq_refl)). cbn [Py.bind].
  rewrite IH by (intros i Hi; apply Hok; now right).
  now rewrite List.app_assoc.
Qed.

Lemma lines_of_first_raises {A} (f : string * A -> Py.result (list Master.line))
    item items e :
  f item = Py.Raise e -> Master.lines_of f (item :: items) = Py.Raise e.
Proof. intros Hf. unfold Master.lines_of. cbn. now rewrite Hf. Qed.

(** Some item raises [e], and the items before it raise nothing else. *)
Lemma lines_of_some_raises {A} (f : string * A -> Py.result (list Master.line))
    items e :
  (forall item e', In item items -> f item = Py.Raise e' -> e' = e) ->
  (exists item, In item items /\ f item = Py.Raise e) ->
  Master.lines_of f items = Py.Raise e.
Proof.
unfold Master.lines_of. generalize (@nil Master.line) as acc.
induction items as [|item items IH]; intros acc Hall (bad & Hin & Hbad).
- destruct Hin.
- cbn [Py.for_each]. destruct (f item) as [ls|e'] eqn:Hitem; cbn [Py.bind].
  + apply IH; [intros i e0 Hi; apply Hall; now right|].
    destruct Hin as [<-|Hin]; [congruence|]. now exists bad.
  + f_equal. eapply Hall; [now left | exact Hitem].
Qed.

Lemma counter_lines_pair interval now item :
  ~ (interval == 0)%Q ->
  Master.counter_lines interval now item
  = Py.Ok (counter_pair interval now item).
Proof.
intros Hinterval. destruct item as [key value]. unfold Master.counter_lines.
now rewrite div_ok by assumption.
Qed.

Lemma timer_lines_six interval now key (L : list Q) :
  ~ (interval == 0)%Q -> L <> [] ->
  exists ls, Master.timer_lines interval now (key, L) = Py.Ok ls
             /\ length ls = 6%nat.
Proof.
intros Hinterval HL.
destruct (timer_lines_ok interval now key L Hinterval HL)
  as (? & ? & ? & _ & _ & _ & Hlines).
eexists. split; [exact Hlines | reflexivity].
Qed.

Lemma length_flat_map_const {A B} (g : A -> list B) (items : list A) n :
  (forall item, In item items -> length (g item) = n) ->
  length (flat_map g items) = (n * length items)%nat.
Proof.
induction items as [|item items IH]; intros Hn; cbn [flat_map length]; [lia|].
rewrite List.length_app, IH by (intros i Hi; apply Hn; now right).
rewrite (Hn item) by now left. lia.
Qed.

(** The whole report of a flush that meets no error. *)
Lemma report_layout self now (c : gmap string Q) (t : gmap string (list Q)) :
  ~ (now - Master.last_flush_time self == 0)%Q ->
  (forall key L, t !! key = Some L -> L <> []) ->
  let interval := (now - Master.last_flush_time self)%Q in
  let n := Master.num_stats self + Z.of_nat (size c) + Z.of_nat (size t) in
  exists timer_part,
    Master._build_graphite_report self now c t
    = (reported_at self now n,
       Py.Ok (flat_map (counter_pair interval now) (map_to_list c)
              ++ timer_part ++ trailer self now n))
    /\ length timer_part = (6 * size t)%nat.
Proof.
intros Hinterval Hnonempty interval n.
set (g := fun item : string * list Q =>
            match Master.timer_lines interval now item with
            | Py.Ok ls => ls
            | Py.Raise _ => []
            end).
assert (Hg : forall item, In item (map_to_list t) ->
             Master.timer_lines interval now item = Py.Ok (g item)
             /\ length (g item) = 6%nat).
{ intros [key L] Hitem. apply list_elem_of_In, elem_of_map_to_list in Hitem.
  destruct (timer_lines_six interval now key L Hinterval (Hnonempty key L Hitem))
    as (ls & Hls & Hlen).
  unfold g. rewrite Hls. split; [reflexivity | exact Hlen]. }
exists (flat_map g (map_to_list t)). split.
- unfold Master._build_graphite_report. fold interval.
  rewrite (lines_of_flat _ (counter_pair interval now))
    by (intros item _; now apply counter_lines_pair).
  cbn [Py.bind].
  rewrite (lines_of_flat _ g) by (intros item Hitem; now apply Hg).
  cbn [Py.bind Master.num_stats Master.num_workers Master.flush_interval
       Master.harold Master.next_flush_time Master.last_flush_time
       Master.stat_key_counter Master._last_stat_msg Master.log
       Master.graphite Master.stopped].
  fold n. now rewrite <- List.app_assoc.
- rewrite (length_flat_map_const g _ 6) by (intros item Hitem; now apply Hg).
  now rewrite length_map_to_list.
Qed.

Lemma div_zero x y : (y == 0)%Q -> Py.div x y = Py.Raise Py.ZeroDivisionError.
Proof.
intros Hy. unfold Py.div. apply Qeq_bool_iff in Hy. now rewrite Hy.
Qed.

(** A zero interval and at least one counter. *)
Lemma report_zero_interval self now (c : gmap string Q)
    (t : gmap string (list Q)) :
  (now - Master.last_flush_time self == 0)%Q -> c <> ∅ ->
  Master._build_graphite_report self now c t
  = (reported_at self now (Master.num_stats self),
     Py.Raise Py.ZeroDivisionError).
Proof.
intros Hzero Hc. unfold Master._build_graphite_report.
destruct (map_to_list c) as [|[key value] items] eqn:Hitems.
- apply map_to_list_empty_iff in Hitems. contradiction.
- rewrite (lines_of_first_raises _ _ _ Py.ZeroDivisionError).
  + reflexivity.
  + unfold Master.counter_lines. now rewrite div_zero.
Qed.

Lemma timer_lines_index_error interval now key (L : list Q) e :
  ~ (interval == 0)%Q ->
  Master.timer_lines interval now (key, L) = Py.Raise e -> e = Py.IndexError.
Proof.
intros Hinterval Hraise. destruct L as [|x L].
- unfold Master.timer_lines in Hraise. cbn in Hraise.
  change (Z.to_nat 0) with 0%nat in Hraise. cbn in Hraise. congruence.
- destruct (timer_lines_six interval now key (x :: L) Hinterval)
    as (ls & Hls & _); [discriminate|]. congruence.
Qed.

(** A non-zero interval and an empty timer list. *)
Lemma report_empty_timer self now (c : gmap string Q)
    (t : gmap string (list Q)) :
  ~ (now - Master.last_flush_time self == 0)%Q ->
  (exists key, t !! key = Some []) ->
  Master._build_graphite_report self now c t
  = (reported_at self now (Master.num_stats self), Py.Raise Py.IndexError).
Proof.
intros Hinterval [key Hkey]. unfold Master._build_graphite_report.
set (interval := (now - Master.last_flush_time self)%Q) in *.
rewrite (lines_of_flat _ (counter_pair interval now))
  by (intros item _; now apply counter_lines_pair).
cbn [Py.bind].
rewrite (lines_of_some_raises _ _ Py.IndexError).
- reflexivity.
- intros [k L] e _ Hraise. eapply timer_lines_index_error; eassumption.
- exists (key, []). split; [now apply list_elem_of_In, elem_of_map_to_list|].
  unfold Master.timer_lines. cbn.
  change (Z.to_nat 0) with 0%nat. reflexivity.
Qed.

(** X14 ([Master._build_graphite_report], the empty timer list).  When the
    interval is not zero and some timer key holds an empty list, the
    report stops with IndexError (values[0]); last_flush_time has already
    become now, num_stats has not changed. *)
Theorem X14_report_empty_timer (self : Master.t) (now : Q)
    (agg_counters : gmap string Q) (agg_timers : gmap string (list Q))
    (Hinterval : ~ (now - Master.last_flush_time self == 0)%Q)
    (Hempty : exists key, agg_timers !! key = Some []) :
  exists self',
    Master._build_graphite_report self now agg_counters agg_timers
    = (self', Py.Raise Py.IndexError)
    /\ Master.last_flush_time self' = now
    /\ Master.num_stats self' = Master.num_stats self
    /\ Master.graphite self' = Master.graphite self.
Proof.
rewrite (report_empty_timer self now agg_counters agg_timers Hinterval Hempty).
eexists. split; [reflexivity|]. cbn. tauto.
Qed.

Lemma X14_report_empty_timer_witness :
  exists self',
    Master._build_graphite_report Scenario.master0 1000 ∅ (<["t" := []]> ∅)
    = (self', Py.Raise Py.IndexError).
Proof.
destruct (X14_report_empty_timer Scenario.master0 1000 ∅ (<["t" := []]> ∅))
  as (self' & Hreport & _).
- intros Hz. vm_compute in Hz. discriminate Hz.
- exists "t". apply lookup_insert_eq.
- exists self'. exact Hreport.
Defined.

(** What [_flush] hands to [_send_to_graphite]. *)
Lemma flush_prelude self io :
  exists self2,
    Master._flush self io
    = Master._send_to_graphite self2 io
        (<["tallier.bytes.total" :=
             Master.total_byte_count (Master.merge (Master.results io))]>
           (<["tallier.messages.total" :=
                Master.total_message_count (Master.merge (Master.results io))]>
              (Master.agg_counters (Master.merge (Master.results io)))))
        (Master.agg_timers (Master.merge (Master.results io)))
    /\ Master.num_workers self2 = Master.num_workers self
    /\ Master.flush_interval self2 = Master.flush_interval self
    /\ Master.harold self2 = Master.harold self
    /\ Master.next_flush_time self2 = Master.next_flush_time self
    /\ Master.last_flush_time self2 = Master.last_flush_time self
    /\ Master.num_stats self2 = Master.num_stats self
    /\ Master.graphite self2 = Master.graphite self
    /\ Master.stopped self2 = Master.stopped self
    /\ forall msg, In (Master.ERROR, msg) (Master.log self2)
                   <-> In (Master.ERROR, msg) (Master.log self).
Proof.
unfold Master._flush.
set (counter := FrequencyCounter._sample_batch _ _).
set (self2 := if Qle_bool 60 _ then _ else _).
exists self2. split; [reflexivity|].
subst self2. destruct (Qle_bool 60 _); [|cbn; tauto].
match goal with
| |- context [match ?x with [] => _ | _ :: _ => _ end] => destruct x
end; cbn; [tauto|].
do 8 (split; [reflexivity|]). intros msg. split.
- apply in_info_snoc.
- intros Hin. apply in_or_app. now left.
Qed.

(** No merged timer list is empty when no worker's is. *)
Lemma merge_timers_nonempty (results : list Listener.bundle) :
  (forall b, In b results -> forall k L, snd b !! k = Some L -> L <> []) ->
  forall k L, Master.agg_timers (Master.merge results) !! k = Some L -> L <> [].
Proof.
intros Hworkers k L Hk.
destruct (merge_fold results Master.merged_init k) as (_ & _ & Ht & Hn & _).
fold (Master.merge results) in Ht, Hn. rewrite Hk in Ht, Hn.
cbn [Master.merged_init Master.agg_timers] in Ht. rewrite lookup_empty in Ht.
cbn [default from_option id app] in Ht. subst L.
assert (Hsome : ~ List.Forall (fun b : Listener.bundle => snd b !! k = None)
                    results).
{ intros Hall. assert (Some (concat (map (fun b : Listener.bundle =>
                                            default [] (snd b !! k)) results))
                       = None) as Hnone by (apply Hn; split; [|exact Hall];
                                            apply lookup_empty).
  discriminate Hnone. }
clear Hn Hk. induction results as [|b results IH]; [now destruct Hsome|].
cbn [map concat]. destruct (snd b !! k) as [Lb|] eqn:Hb.
- cbn [default from_option id]. intros Happ.
  apply app_eq_nil in Happ as [HLb _].
  exact (Hworkers b (or_introl eq_refl) k Lb Hb HLb).
- cbn [default from_option id app]. apply IH.
  + intros b' Hb'. apply Hworkers. now right.
  + intros Hall. apply Hsome. now constructor.
Qed.

End ReportLaws.

(** ** The scheduler loop: cadence and ending *)

Section SchedulerLaws.

(** What one call leaves of the Master: the deadline, the interval, the
    shutdown flag, and what graphite had received, to which at most one
    report is added, exactly one when the call returns. *)
#[local] Abbreviation kept :=
  (fun (self : Master.t) (r : Master.t * Py.result unit) =>
     Master.next_flush_time (fst r) = Master.next_flush_time self
     /\ Master.flush_interval (fst r) = Master.flush_interval self
     /\ Master.stopped (fst r) = Master.stopped self
     /\ exists new,
          Master.graphite (fst r) = Master.graphite self ++ new
          /\ (length new <= 1)%nat
          /\ (forall u, snd r = Py.Ok u -> length new = 1%nat)).

Lemma build_fields self now c t :
  let r := Master._build_graphite_report self now c t in
  Master.next_flush_time (fst r) = Master.next_flush_time self
  /\ Master.flush_interval (fst r) = Master.flush_interval self
  /\ Master.stopped (fst r) = Master.stopped self
  /\ Master.graphite (fst r) = Master.graphite self
  /\ Master.harold (fst r) = Master.harold self.
Proof.
unfold Master._build_graphite_report.
destruct (Py.bind _ _); cbn; tauto.
Qed.

Lemma send_kept self io c t : kept self (Master._send_to_graphite self io c t).
Proof.
unfold Master._send_to_graphite.
destruct (Master.connect io) as [_|e].
2:{ cbn. do 3 (split; [reflexivity|]). exists [].
    rewrite List.app_nil_r. split; [reflexivity|]. split; [cbn; lia|discriminate]. }
pose proof (build_fields (Master.logging_info self "Connecting to graphite...")
              (Master.time_report io) c t) as Hb.
destruct (Master._build_graphite_report _ _ _ _) as [self1 [msg|e]];
  cbn in Hb; destruct Hb as (Hn & Hf & Hs & Hg & Hh).
2:{ cbn. do 3 (split; [assumption|]). exists [].
    rewrite List.app_nil_r. split; [assumption|]. split; [cbn; lia|discriminate]. }
destruct (Master.send io) as [_|e].
2:{ cbn. do 3 (split; [assumption|]). exists [].
    rewrite List.app_nil_r. split; [assumption|]. split; [cbn; lia|discriminate]. }
cbn [Master.logging_info Master.set_log Master.harold].
destruct (Master.harold self1);
  [destruct (Master.heartbeat io) as [_|[]]|]; cbn;
  (do 3 (split; [assumption|])); exists [msg]; rewrite Hg;
  (split; [reflexivity|]); (split; [cbn; lia|reflexivity]).
Qed.

Lemma flush_kept self io : kept self (Master._flush self io).
Proof.
destruct (flush_prelude self io)
  as (self2 & Hflush & _ & Hfi & _ & Hnext & _ & _ & Hgraphite & Hstopped & _).
rewrite Hflush.
destruct (send_kept self2 io
            (<["tallier.bytes.total" :=
                 Master.total_byte_count (Master.merge (Master.results io))]>
               (<["tallier.messages.total" :=
                    Master.total_message_count
                      (Master.merge (Master.results io))]>
                  (Master.agg_counters (Master.merge (Master.results io)))))
            (Master.agg_timers (Master.merge (Master.results io))))
  as (Hn & Hf & Hs & new & Hg & Hlen).
split; [congruence|]. split; [congruence|]. split; [congruence|].
exists new. split; [congruence | exact Hlen].
Qed.

(** One turn of the loop. *)
Lemma turn_effect self tk :
  let r := Master.turn self tk in
  Master.flush_interval (fst r) = Master.flush_interval self
  /\ Master.stopped (fst r) = Master.stopped self
  /\ exists new,
       Master.graphite (fst r) = Master.graphite self ++ new
       /\ (length new <= 1)%nat
       /\ (forall u, snd r = Py.Ok u ->
           (Master.next_flush_time (fst r)
            == Master.next_flush_time self
               + inject_Z (Z.of_nat (length new)) * Master.flush_interval self)%Q).
Proof.
unfold Master.turn.
destruct (Py.Qlt_bool 0 _).
- cbn [fst snd]. split; [reflexivity|]. split; [reflexivity|]. exists [].
  rewrite List.app_nil_r. split; [reflexivity|]. split; [cbn; lia|].
  intros _ _. cbn [fst snd length].
  change (inject_Z (Z.of_nat 0)) with 0%Q. lra.
- destruct (flush_kept self (Master.io tk)) as (Hn & Hf & Hs & new & Hg & Hle & Hok).
  destruct (Master._flush self (Master.io tk)) as [self1 [u|e]];
    cbn [fst snd] in *.
  + split; [assumption|]. split; [assumption|]. exists new.
    split; [assumption|]. split; [assumption|]. intros _ _.
    cbn [Master.next_flush_time].
    rewrite (Hok u eq_refl), Hn, Hf. change (inject_Z (Z.of_nat 1)) with 1%Q. lra.
  + split; [assumption|]. split; [assumption|]. exists new.
    split; [assumption|]. split; [assumption|]. discriminate.
Qed.

Lemma shutdown_fields self :
  Master.flush_interval (Master._shutdown self) = Master.flush_interval self
  /\ Master.graphite (Master._shutdown self) = Master.graphite self
  /\ Master.stopped (Master._shutdown self) = true.
Proof. cbn. tauto. Qed.

(** The whole loop, against any answers of the environment. *)
Lemma loop_effect ticks self :
  let r := Master.start_loop self ticks in
  Master.flush_interval (fst r) = Master.flush_interval self
  /\ exists reports,
       Master.graphite (fst r) = Master.graphite self ++ reports
       /\ (length reports <= length ticks)%nat
       /\ match snd r with
          | None =>
              Master.stopped (fst r) = Master.stopped self
              /\ (Master.next_flush_time (fst r)
                  == Master.next_flush_time self
                     + inject_Z (Z.of_nat (length reports))
                       * Master.flush_interval self)%Q
          | Some res =>
              Master.stopped (fst r) = true
              /\ res <> Py.Raise Py.KeyboardInterrupt
          end.
Proof.
revert self. induction ticks as [|tk ticks IH]; intros self.
- cbn [Master.start_loop fst snd]. split; [reflexivity|]. exists [].
  rewrite List.app_nil_r. split; [reflexivity|]. split; [cbn; lia|].
  split; [reflexivity|]. cbn [length]. change (inject_Z (Z.of_nat 0)) with 0%Q.
  lra.
- cbn [Master.start_loop].
  destruct (turn_effect self tk) as (Hf & Hs & new & Hg & Hle & Hnext).
  destruct (Master.turn self tk) as [self1 [u|e]]; cbn [fst snd] in *.
  + destruct (IH self1) as (Hf1 & reports & Hg1 & Hle1 & Hrest).
    split; [congruence|]. exists (new ++ reports).
    split; [rewrite Hg1, Hg; now rewrite List.app_assoc|].
    split; [rewrite List.length_app; cbn [length]; lia|].
    destruct (snd (Master.start_loop self1 ticks)) as [res|].
    * exact Hrest.
    * destruct Hrest as [Hs1 Hn1]. split; [congruence|].
      rewrite Hn1, (Hnext u eq_refl), Hf, List.length_app, Nat2Z.inj_add,
        inject_Z_plus. lra.
  + destruct (shutdown_fields self1) as (Hf1 & Hg1 & Hs1).
    assert (Hend : forall res : Py.result unit,
      res <> Py.Raise Py.KeyboardInterrupt ->
      let r := (Master._shutdown self1, Some res) in
      Master.flush_interval (fst r) = Master.flush_interval self
      /\ exists reports,
           Master.graphite (fst r) = Master.graphite self ++ reports
           /\ (length reports <= S (length ticks))%nat
           /\ Master.stopped (fst r) = true
           /\ res <> Py.Raise Py.KeyboardInterrupt).
    { intros res Hres. cbn [fst snd]. split; [congruence|]. exists new.
      split; [congruence|]. split; [lia|]. split; [exact Hs1 | exact Hres]. }
    destruct e; apply Hend; discriminate.
Qed.

Lemma loop_ended_prefix ticks after self :
  snd (Master.start_loop self ticks) <> None ->
  Master.start_loop self (ticks ++ after) = Master.start_loop self ticks.
Proof.
revert self. induction ticks as [|tk ticks IH]; intros self Hend.
- now destruct Hend.
- cbn [app Master.start_loop] in *.
  destruct (Master.turn self tk) as [self1 [u|e]]; [now apply IH|].
  destruct e; reflexivity.
Qed.

(** X19 (the loop of [Master.start]: before the deadline).  As long as
    the clock reads less than next_flush_time and [asyncore.poll]
    returns, the loop changes nothing of the Master: no worker is asked
    to flush and nothing is sent to graphite. *)
Theorem X19_no_early_flush (self : Master.t) (ticks : list Master.tick)
    (Hidle : List.Forall
               (fun tk =>
                  Py.Qlt_bool 0 (Master.next_flush_time self - Master.now tk)
                  = true
                  /\ Master.poll tk = Py.Ok tt) ticks) :
  Master.start_loop self ticks = (self, None).
Proof.
induction Hidle as [|tk ticks [Hearly Hpoll] _ IH]; [reflexivity|].
cbn [Master.start_loop]. unfold Master.turn. rewrite Hearly, Hpoll. exact IH.
Qed.

Lemma X19_no_early_flush_witness :
  Master.start_loop Scenario.master0
    [Master.mk_tick 995 (Py.Ok tt) Scenario.io_up;
     Master.mk_tick 999 (Py.Ok tt) Scenario.io_down]
  = (Scenario.master0, None).
Proof.
apply X19_no_early_flush.
repeat constructor.
Defined.

End SchedulerLaws.

(** ** Keys that normalization leaves alone *)

Section KeyStable.

(** Every character of [s] is in the class [cls]. *)
#[local] Abbreviation all_in :=
  (fun (cls : ascii -> bool) (s : string) =>
     forall n c, String.get n s = Some c -> cls c = true).

Lemma all_in_cons (cls : ascii -> bool) a s :
  all_in cls (String a s) -> cls a = true /\ all_in cls s.
Proof.
intros Hall. split; [exact (Hall 0%nat a eq_refl)|].
intros n c Hget. exact (Hall (S n) c Hget).
Qed.

Lemma valid_plain c :
  Sample._VALID_CHAR_PATTERN c = true ->
  Py.is_space c = false /\ Ascii.eqb c "\" = false.
Proof.
destruct c as [[] [] [] [] [] [] [] []]; vm_compute; intros Hc;
  first [discriminate Hc | split; reflexivity].
Qed.

Lemma split_ws_from_plain cur s :
  all_in Sample._VALID_CHAR_PATTERN s ->
  Py.split_ws_from cur s
  = match cur +:+ s with EmptyString => [] | x => [x] end.
Proof.
revert cur. induction s as [|c r IH]; intros cur Hall.
- cbn [Py.split_ws_from]. rewrite app_nil_r. now destruct cur.
- apply all_in_cons in Hall as [Hc Hall]. apply valid_plain in Hc as [Hc _].
  cbn [Py.split_ws_from]. rewrite Hc, IH by assumption. now rewrite app_snoc.
Qed.

Lemma replace_plain s :
  all_in Sample._VALID_CHAR_PATTERN s -> Py.replace "\" "-" s = s.
Proof.
induction s as [|c r IH]; intros Hall; [reflexivity|].
apply all_in_cons in Hall as [Hc Hall]. apply valid_plain in Hc as [_ Hc].
cbn [Py.replace]. now rewrite Hc, IH.
Qed.

Lemma findall_plain (cls : ascii -> bool) s :
  all_in cls s -> Py.findall cls s = s.
Proof.
induction s as [|c r IH]; intros Hall; [reflexivity|].
apply all_in_cons in Hall as [Hc Hall].
cbn [Py.findall]. now rewrite Hc, IH.
Qed.

(** X20 ([Sample._normalize_key]).  A key made only of characters of
    [A-Za-z0-9._-] is its own normal form, so normalizing twice is
    normalizing once: the key under which a sample is counted is stable
    when it is sent again. *)
Theorem X20_normalize_key_stable :
  (forall key,
      (forall n c, String.get n key = Some c ->
                   Sample._VALID_CHAR_PATTERN c = true) ->
      Sample._normalize_key key = key)
  /\ (forall key,
        Sample._normalize_key (Sample._normalize_key key)
        = Sample._normalize_key key).
Proof.
assert (Hfix : forall key,
  all_in Sample._VALID_CHAR_PATTERN key -> Sample._normalize_key key = key).
{ intros key Hall. unfold Sample._normalize_key, Py.split_ws.
  rewrite split_ws_from_plain by assumption.
  destruct key as [|a r]; [reflexivity|].
  change (EmptyString +:+ String a r) with (String a r). cbn [Py.join].
  rewrite replace_plain by assumption. now apply findall_plain. }
split; [exact Hfix|].
intros key. apply Hfix. intros n c. unfold Sample._normalize_key.
apply findall_valid.
Qed.

End KeyStable.

(** ** The command line: framing of the replies *)

Section CommandLaws.

(** What [run_command] yields for one line of a handler. *)
#[local] Abbreviation stuffed :=
  (fun line : string =>
     (if Py.startswith "." line then "." +:+ line else line) +:+ Commands.CRLF).

Lemma append_inv_tail (a b c : string) : a +:+ c = b +:+ c -> a = b.
Proof.
revert b. induction a as [|x a IH]; intros [|y b] Heq.
- reflexivity.
- exfalso. apply (f_equal String.length) in Heq.
  change (String y b +:+ c) with (String y (b +:+ c)) in Heq.
  change (EmptyString +:+ c) with c in Heq.
  cbn [String.length] in Heq. rewrite length_app in Heq. lia.
- exfalso. apply (f_equal String.length) in Heq.
  change (String x a +:+ c) with (String x (a +:+ c)) in Heq.
  change (EmptyString +:+ c) with c in Heq.
  cbn [String.length] in Heq. rewrite length_app in Heq. lia.
- change (String x (a +:+ c) = String y (b +:+ c)) in Heq.
  injection Heq as -> Heq. f_equal. now apply IH.
Qed.

Lemma startswith_dot s :
  Py.startswith "." s = true <-> exists r, s = String "." r.
Proof.
unfold Py.startswith. destruct s as [|c r]; cbn [String.prefix].
- split; [discriminate | intros [r Hr]; discriminate].
- destruct (ascii_dec "." c) as [<-|Hne].
  + split; [intros _; now exists r | intros _; now destruct r].
  + split; [intros Hf; discriminate Hf|].
    intros [r' Hr']. injection Hr' as -> _. contradiction.
Qed.

Lemma stuffed_inj a b : stuffed a = stuffed b -> a = b.
Proof.
intros Heq. apply append_inv_tail in Heq.
destruct (Py.startswith "." a) eqn:Ha, (Py.startswith "." b) eqn:Hb.
- now injection Heq.
- assert (Py.startswith "." b = true) as Hb'
    by (apply startswith_dot; exists a; now rewrite <- Heq).
  congruence.
- assert (Py.startswith "." a = true) as Ha'
    by (apply startswith_dot; exists b; now rewrite Heq).
  congruence.
- exact Heq.
Qed.

Lemma stuffed_not_end a : stuffed a <> "." +:+ Commands.CRLF.
Proof.
intros Heq. apply append_inv_tail in Heq.
destruct (Py.startswith "." a) eqn:Ha.
- injection Heq as ->. discriminate Ha.
- subst a. discriminate Ha.
Qed.

Lemma map_stuffed_inj l1 l2 : map stuffed l1 = map stuffed l2 -> l1 = l2.
Proof.
revert l2. induction l1 as [|a l1 IH]; intros [|b l2] Heq;
  try discriminate; [reflexivity|].
cbn [map] in Heq. injection Heq as Hab Heq.
f_equal; [now apply stuffed_inj | now apply IH].
Qed.

Lemma lower_upper_char c :
  Commands.lower_char (Commands.upper_char c) = Commands.lower_char c
  /\ Commands.lower_char (Commands.lower_char c) = Commands.lower_char c.
Proof.
destruct c as [[] [] [] [] [] [] [] []]; vm_compute; split; reflexivity.
Qed.

Lemma lower_upper s :
  Commands.lower (Commands.upper s) = Commands.lower s
  /\ Commands.lower (Commands.lower s) = Commands.lower s.
Proof.
induction s as [|c s [IH1 IH2]]; [split; reflexivity|].
cbn [Commands.lower Commands.upper].
destruct (lower_upper_char c) as [-> ->]. now rewrite IH1, IH2.
Qed.

(** X21 ([Master.run_command], for any table of handlers).  Every chunk
    of a reply ends with CRLF.  A blank line and an unknown command get
    the single chunk 'ERROR: invalid command'.  For a known command the
    reply is one chunk per line of the handler followed by the terminator
    '.' CRLF; no chunk before the last equals the terminator, because a
    line that starts with a dot is sent with the dot doubled, and the
    handler's lines are determined by the chunks. *)
Theorem X21_run_command_framing
    (getattr : string -> option (list string -> list string))
    (line : string) :
  let out := Commands.run_command getattr line in
  (forall chunk, In chunk out -> exists body, chunk = body +:+ Commands.CRLF)
  /\ match Py.split_ws (Commands.lower line) with
     | [] => out = ["ERROR: invalid command" +:+ Commands.CRLF]
     | name :: rest =>
         match getattr name with
         | None => out = ["ERROR: invalid command" +:+ Commands.CRLF]
         | Some handler =>
             exists body,
               out = body ++ ["." +:+ Commands.CRLF]
               /\ length body = length (handler (name :: rest))
               /\ (forall chunk, In chunk body ->
                                 chunk <> "." +:+ Commands.CRLF)
               /\ forall lines,
                    map (fun l : string =>
                           (if Py.startswith "." l then "." +:+ l else l)
                           +:+ Commands.CRLF) lines = body ->
                    lines = handler (name :: rest)
         end
     end.
Proof.
intros out. subst out. unfold Commands.run_command.
destruct (Py.split_ws (Commands.lower line)) as [|name rest].
- split; [|reflexivity]. intros chunk [<-|[]]. eexists. reflexivity.
- destruct (getattr name) as [handler|].
  + split.
    * intros chunk Hin. apply in_app_or in Hin as [Hin|[<-|[]]].
      -- apply in_map_iff in Hin as (l & <- & _). eexists. reflexivity.
      -- eexists. reflexivity.
    * eexists. split; [reflexivity|]. split; [apply length_map|]. split.
      -- intros chunk Hin. apply in_map_iff in Hin as (l & <- & _).
         apply stuffed_not_end.
      -- intros lines Hlines. now apply map_stuffed_inj.
  + split; [|reflexivity]. intros chunk [<-|[]]. eexists. reflexivity.
Qed.

(** X22 ([Master.run_command] with [Master.CMD_help]).  The Master
    answers one command: a line whose first word, in any mix of cases and
    whatever follows it, is 'help' gets the list of commands, which is
    HELP alone; every other line gets 'ERROR: invalid command'.  The
    reply does not depend on the case of the line. *)
Theorem X22_master_commands (line : string) :
  Commands.run_command Commands.handler_of line
  = match Py.split_ws (Commands.lower line) with
    | name :: _ =>
        if bool_decide (name = "help")
        then ["Available commands:" +:+ Commands.CRLF;
              "  HELP" +:+ Commands.CRLF;
              "." +:+ Commands.CRLF]
        else ["ERROR: invalid command" +:+ Commands.CRLF]
    | [] => ["ERROR: invalid command" +:+ Commands.CRLF]
    end
  /\ Commands.run_command Commands.handler_of (Commands.upper line)
     = Commands.run_command Commands.handler_of line
  /\ Commands.run_command Commands.handler_of (Commands.lower line)
     = Commands.run_command Commands.handler_of line.
Proof.
split.
- unfold Commands.run_command.
  destruct (Py.split_ws (Commands.lower line)) as [|name rest]; [reflexivity|].
  unfold Commands.handler_of.
  destruct (decide (name = "help")) as [->|Hne].
  + reflexivity.
  + rewrite (bool_decide_eq_false_2 (name = "help")) by assumption.
    rewrite bool_decide_eq_false_2; [reflexivity|].
    intros Heq. apply Hne. now injection Heq.
- unfold Commands.run_command. destruct (lower_upper line) as [-> ->].
  split; reflexivity.
Qed.

End CommandLaws.

(** ** Keys on their way to graphite *)

Section SafeKeys.
Context `{FloatBuiltin}.

(** Every character of [s] is in [A-Za-z0-9._-]. *)
#[local] Abbreviation safe :=
  (fun s : string =>
     forall n c, String.get n s = Some c -> Sample._VALID_CHAR_PATTERN c = true).

(** No key of the bundle has a character outside the class, and no timer
    list is empty. *)
#[local] Abbreviation clean :=
  (fun b : Listener.bundle =>
     (forall k v, fst b !! k = Some v -> safe k)
     /\ (forall k L, snd b !! k = Some L -> safe k /\ L <> [])).

Lemma safe_nil : safe EmptyString.
Proof. intros n c Hget. destruct n; discriminate Hget. Qed.

Lemma safe_cons x s :
  Sample._VALID_CHAR_PATTERN x = true -> safe s -> safe (String x s).
Proof.
intros Hx Hs [|n] c Hget; cbn in Hget; [congruence | eapply Hs, Hget].
Qed.

Lemma safe_app a b : safe a -> safe b -> safe (a +:+ b).
Proof.
induction a as [|x a IH]; intros Ha Hb; [exact Hb|].
change (String x a +:+ b) with (String x (a +:+ b)).
refine (safe_cons x (a +:+ b) (Ha 0%nat x eq_refl) _).
refine (IH _ Hb). intros n c Hget. exact (Ha (S n) c Hget).
Qed.

Lemma safe_str_of_nat n : safe (Py.str_of_nat n).
Proof.
unfold Py.str_of_nat. generalize (Nat.to_uint n) as u.
induction u; cbn [DecimalString.NilEmpty.string_of_uint];
  first [exact safe_nil | refine (safe_cons _ _ _ IHu); reflexivity].
Qed.

Lemma safe_key_count key : safe key -> safe ("tallier._key_counts." +:+ key).
Proof.
intros Hkey. refine (safe_app _ _ _ Hkey).
repeat (refine (safe_cons _ _ _ _); [reflexivity|]). exact safe_nil.
Qed.

Lemma safe_child_keys id :
  safe ("tallier.messages.child_" +:+ Py.str_of_nat id)
  /\ safe ("tallier.bytes.child_" +:+ Py.str_of_nat id).
Proof.
split; refine (safe_app _ _ _ (safe_str_of_nat id));
  repeat (refine (safe_cons _ _ _ _); [reflexivity|]); exact safe_nil.
Qed.

(** The samples of a datagram. *)
Lemma parse_safe datagram :
  exists samples,
    Sample.parse datagram = Py.Ok samples
    /\ forall s, In s samples ->
         safe (Sample.key s)
         /\ (0 < Sample.sample_rate s)%Q /\ (Sample.sample_rate s <= 1)%Q.
Proof.
eexists. split; [apply parse_spec|].
intros s Hin. apply in_flat_map in Hin as (effective & _ & Hin).
unfold Spec.line_samples in Hin.
destruct (Py.split ":" effective) as [|raw parts]; [destruct Hin|].
apply well_formed_parts_elem in Hin as (part & _ & Hpart).
apply parse_part_ok in Hpart as (Hkey & Hrate).
split; [|exact Hrate]. rewrite Hkey. intros n c. unfold Sample._normalize_key.
apply findall_valid.
Qed.

Lemma handle_sample_clean self s self' :
  safe (Sample.key s) ->
  Listener._handle_sample self s = Py.Ok self' ->
  clean (Listener.current_samples self) ->
  clean (Listener.current_samples self').
Proof.
intros Hkey Hrun [Hc Ht]. unfold Listener._handle_sample in Hrun.
destruct (Listener.current_samples self) as [counters timers].
cbn [fst snd] in Hc, Ht.
destruct (Sample.value_type s).
- destruct (Py.div _ _) as [scaled|e]; cbn [Py.bind] in Hrun; [|discriminate].
  injection Hrun as <-. cbn [Listener.with_samples Listener.current_samples].
  split; [|exact Ht]. intros k v Hk. cbn [fst] in Hk.
  apply lookup_insert_Some in Hk as [[<- _]|[_ Hk]];
    [exact (safe_key_count _ Hkey)|].
  apply lookup_insert_Some in Hk as [[<- _]|[_ Hk]]; [exact Hkey|].
  exact (Hc k v Hk).
- cbn [Py.bind] in Hrun. injection Hrun as <-.
  cbn [Listener.with_samples Listener.current_samples]. split.
  + intros k v Hk. cbn [fst] in Hk.
    apply lookup_insert_Some in Hk as [[<- _]|[_ Hk]];
      [exact (safe_key_count _ Hkey) | exact (Hc k v Hk)].
  + intros k L Hk. cbn [snd] in Hk.
    apply lookup_insert_Some in Hk as [[<- <-]|[_ Hk]]; [|exact (Ht k L Hk)].
    split; [exact Hkey|]. intros Hnil. now apply app_eq_nil in Hnil as [_ Hnil].
Qed.

Lemma handle_samples_clean samples self self' :
  (forall s, In s samples -> safe (Sample.key s)) ->
  Py.for_each Listener._handle_sample samples self = Py.Ok self' ->
  clean (Listener.current_samples self) ->
  clean (Listener.current_samples self').
Proof.
revert self. induction samples as [|s samples IH]; intros self Hkeys Hrun Hclean.
- cbn in Hrun. injection Hrun as <-. exact Hclean.
- cbn [Py.for_each] in Hrun.
  destruct (Listener._handle_sample self s) as [self1|e] eqn:H1;
    cbn [Py.bind] in Hrun; [|discriminate].
  apply (IH self1); [intros s' Hs'; apply Hkeys; now right | exact Hrun |].
  eapply handle_sample_clean; [apply Hkeys; now left | exact H1 | exact Hclean].
Qed.

Lemma handle_datagram_clean self datagram self' :
  Listener._handle_datagram self datagram = Py.Ok self' ->
  clean (Listener.current_samples self) ->
  clean (Listener.current_samples self').
Proof.
unfold Listener._handle_datagram.
destruct (parse_safe datagram) as (samples & -> & Hsafe). cbn [Py.bind].
destruct (Py.for_each Listener._handle_sample samples self) as [self1|e] eqn:Hrun;
  cbn [Py.bind]; [|discriminate].
intros [= <-] Hclean. cbn [Listener.current_samples].
eapply handle_samples_clean; [|exact Hrun|exact Hclean].
intros s Hs. now apply Hsafe.
Qed.

Lemma flush_clean self :
  clean (Listener.current_samples self) ->
  clean (fst (Listener.flush self))
  /\ clean (Listener.current_samples (snd (Listener.flush self))).
Proof.
intros [Hc Ht]. unfold Listener.flush. cbn [fst snd Listener.current_samples].
destruct (safe_child_keys (Listener.listener_id self)) as [Hm Hb].
split; [split|split].
- intros k v Hk.
  apply lookup_insert_Some in Hk as [[<- _]|[_ Hk]]; [exact Hb|].
  apply lookup_insert_Some in Hk as [[<- _]|[_ Hk]]; [exact Hm|].
  exact (Hc k v Hk).
- exact Ht.
- intros k v Hk. cbn in Hk. rewrite lookup_empty in Hk. discriminate.
- intros k L Hk. cbn in Hk. rewrite lookup_empty in Hk. discriminate.
Qed.

(** X23 ([Sample.parse] with [Sample._normalize_key] and
    [Sample._parse_part]).  Whatever the datagram, every sample that
    [parse] returns has a key made only of characters of [A-Za-z0-9._-],
    so no whitespace or line break of a datagram reaches a key, and a
    sample rate in (0, 1]. *)
Theorem X23_parse_keys (datagram : string) :
  exists samples,
    Sample.parse datagram = Py.Ok samples
    /\ forall s, In s samples ->
         (forall n c, String.get n (Sample.key s) = Some c ->
                      Sample._VALID_CHAR_PATTERN c = true)
         /\ (0 < Sample.sample_rate s)%Q /\ (Sample.sample_rate s <= 1)%Q.
Proof. exact (parse_safe datagram). Qed.

(** The loop of the Controller keeps the bundles clean. *)
Lemma controller_clean events self :
  clean (Listener.current_samples (Controller.listener self)) ->
  (forall b, In (Controller.bundle b) (Controller.conn self) -> clean b) ->
  exists self' stopped,
    Controller.start_loop self events = Py.Ok (self', stopped)
    /\ clean (Listener.current_samples (Controller.listener self'))
    /\ forall b, In (Controller.bundle b) (Controller.conn self') -> clean b.
Proof.
revert self. induction events as [|e events IH]; intros self Hcur Hsent.
- exists self, false. split; [reflexivity|]. split; assumption.
- assert (Hstop : forall msg,
    let self' := Controller.info (Controller._shutdown self) msg in
    clean (Listener.current_samples (Controller.listener self'))
    /\ forall b, In (Controller.bundle b) (Controller.conn self') -> clean b).
  { intros msg self'. subst self'.
    cbn [Controller.info Controller._shutdown Controller.listener
         Controller.conn].
    split; [exact Hcur|]. intros b Hin.
    apply in_app_or in Hin as [Hin|[Hin|[]]]; [now apply Hsent | discriminate]. }
  destruct e as [d|cmd|]; cbn [Controller.start_loop].
  + destruct (handle_datagram_effect (Controller.listener self) d)
      as (samples & l & _ & Hrun & _).
    rewrite Hrun. cbn [Py.bind]. apply IH.
    * cbn [Controller.listener].
      eapply handle_datagram_clean; [exact Hrun | exact Hcur].
    * exact Hsent.
  + destruct (bool_decide (cmd = Controller.FLUSH)).
    * destruct (flush_clean (Controller.listener self) Hcur) as [Hb Hl].
      apply IH; unfold Controller._flush;
        destruct (Listener.flush (Controller.listener self)) as [samples l];
        cbn [fst snd Controller.listener Controller.conn] in *.
      -- exact Hl.
      -- intros b Hin. apply in_app_or in Hin as [Hin|[Hin|[]]];
           [now apply Hsent|]. injection Hin as <-. exact Hb.
    * destruct (bool_decide (cmd = Controller.SHUTDOWN)).
      -- eexists _, _. split; [reflexivity|]. apply Hstop.
      -- apply IH; cbn [Controller.info Controller.listener Controller.conn];
           assumption.
  + eexists _, _. split; [reflexivity|]. apply Hstop.
Qed.

End SafeKeys.

(** * The claims that turn on float arithmetic *)

(** ** Accumulation in the Listener (claim C1) *)

Section Accumulation64.

(** C1, as stated, fails: a key count that stands at 1e16 (the datagram
    'tallier._key_counts.x:1e16|c' puts it there) is left where it is by
    the next sample with key 'x', since 1e16 + 1 rounds to 1e16. *)
Lemma C1_float_counterexample :
  ~ (forall self sample self',
        Binary64.Listener._handle_sample self sample = Py.Ok self' ->
        let count_key := "tallier._key_counts." +:+ Binary64.Sample.key sample in
        PrimFloat.eqb
          (PrimFloat.sub
             (Binary64.Listener.get
                (fst (Binary64.Listener.current_samples self')) count_key)
             (Binary64.Listener.get
                (fst (Binary64.Listener.current_samples self)) count_key))
          PrimFloat.one
        = true).
Proof.
intros Hall.
specialize (Hall
  (Binary64.Listener.mk 0 (<["tallier._key_counts.x" := 1e16%float]> ∅, ∅)
                        1 0 28 0)
  (Binary64.Sample.mk "x" 1%float Sample.COUNTER 1%float)
  _ eq_refl).
vm_compute in Hall. discriminate Hall.
Qed.

(** C1 (amended): for every sample whose rate is not zero (every sample
    that [parse] returns is one), [_handle_sample] returns; a COUNTER sets
    counters[key] to the float sum of its old value (0.0 when absent) and
    the float quotient value / sample_rate and leaves the timers alone; a
    TIMER appends value at the end of timers[key] and leaves counters[key]
    and the other timers alone; in both cases
    counters['tallier._key_counts.' + key] becomes the float sum of its
    old value and 1.0, and no other counter and no count of the Listener
    changes.  The sums are rounded to binary64. *)
Theorem C1_float_handle_sample (self : Binary64.Listener.t)
    (sample : Binary64.Sample.t)
    (Hrate : PrimFloat.eqb (Binary64.Sample.sample_rate sample) PrimFloat.zero
             = false) :
  let key := Binary64.Sample.key sample in
  let value := Binary64.Sample.value sample in
  let count_key := "tallier._key_counts." +:+ key in
  let counters := fst (Binary64.Listener.current_samples self) in
  let timers := snd (Binary64.Listener.current_samples self) in
  exists counters' timers',
    Binary64.Listener._handle_sample self sample
    = Py.Ok (Binary64.Listener.mk
               (Binary64.Listener.listener_id self) (counters', timers')
               (Binary64.Listener.message_count self)
               (Binary64.Listener.last_message_count self)
               (Binary64.Listener.byte_count self)
               (Binary64.Listener.last_byte_count self))
    /\ match Binary64.Sample.value_type sample with
       | Sample.COUNTER =>
           counters' !! key
           = Some (PrimFloat.add
                     (Binary64.Listener.get counters key)
                     (PrimFloat.div value (Binary64.Sample.sample_rate sample)))
           /\ timers' = timers
       | Sample.TIMER =>
           timers' !! key = Some (default [] (timers !! key) ++ [value])
           /\ (forall k, k <> key -> timers' !! k = timers !! k)
           /\ counters' !! key = counters !! key
       end
    /\ counters' !! count_key
       = Some (PrimFloat.add (Binary64.Listener.get counters count_key)
                             PrimFloat.one)
    /\ forall k, k <> key -> k <> count_key -> counters' !! k = counters !! k.
Proof.
intros key value count_key counters timers.
assert (Hne : key <> count_key) by apply key_count_ne.
unfold Binary64.Listener._handle_sample.
fold key value count_key.
destruct (Binary64.Listener.current_samples self) as [c t] eqn:Hcur.
cbn [fst snd] in counters, timers. subst counters timers.
destruct (Binary64.Sample.value_type sample).
- unfold Binary64.div. rewrite Hrate. cbn [Py.bind].
  eexists _, _. split; [reflexivity|].
  assert (Hget : forall v,
    Binary64.Listener.get (<[key := v]> c) count_key
    = Binary64.Listener.get c count_key).
  { intros v. unfold Binary64.Listener.get.
    now rewrite lookup_insert_ne by congruence. }
  split; [split; [|reflexivity]|split].
  + rewrite lookup_insert_ne by congruence. apply lookup_insert_eq.
  + rewrite Hget. apply lookup_insert_eq.
  + intros k Hk Hck. now rewrite !lookup_insert_ne by congruence.
- cbn [Py.bind]. eexists _, _. split; [reflexivity|].
  split; [split; [|split]|split].
  + apply lookup_insert_eq.
  + intros k Hk. now rewrite lookup_insert_ne by congruence.
  + now rewrite lookup_insert_ne by congruence.
  + apply lookup_insert_eq.
  + intros k Hk Hck. now rewrite lookup_insert_ne by congruence.
Qed.

Lemma C1_float_handle_sample_witness :
  exists self',
    Binary64.Listener._handle_sample
      (Binary64.Listener.mk 0 (<["x" := 2%float]> ∅, ∅) 1 0 5 0)
      (Binary64.Sample.mk "x" 3%float Sample.COUNTER 0.5%float)
    = Py.Ok self'.
Proof.
destruct (C1_float_handle_sample
            (Binary64.Listener.mk 0 (<["x" := 2%float]> ∅, ∅) 1 0 5 0)
            (Binary64.Sample.mk "x" 3%float Sample.COUNTER 0.5%float)
            eq_refl)
  as (counters' & timers' & Hrun & _).
eexists. exact Hrun.
Defined.

End Accumulation64.

(** ** Coverage of the FrequencyCounter (claim C10) *)

Section Coverage64.

#[local] Abbreviation msum :=
  (fun m : gmap string Q => Py.sum (map snd (map_to_list m))).

#[local] Abbreviation inv :=
  (fun self : FrequencyCounter.t =>
     (forall k v, FrequencyCounter.frequencies self !! k = Some v -> (0 <= v)%Q)
     /\ (msum (FrequencyCounter.frequencies self)
         <= FrequencyCounter.total_observed self)%Q).






End Coverage64.

(** ** The timer lines of the report (claim C5) *)

Section Timers64.

(** A float that is not NaN: it equals itself. *)
#[local] Abbreviation number v := (PrimFloat.eqb v v = true).

#[local] Abbreviation fle a b := (PrimFloat.leb a b = true).














End Timers64.

(** ** A sink that fails (claim C2) *)

Section SinkFailure64.
Context {X W E G : Type}.
Variable merge_and_build : W -> E -> W * list string * (G + Binary64.Master.exn X).
Variable join : G -> W -> E -> W * (string + Binary64.Master.exn X).

#[local] Abbreviation M := (@Binary64.Master.t W).

Lemma in_error_snoc (l : list (Master.level * string)) info msg :
  In (Master.ERROR, msg) (l ++ [(Master.INFO, info)]) <-> In (Master.ERROR, msg) l.
Proof.
rewrite in_app_iff. cbn. intuition discriminate.
Qed.

Lemma in_error_infos (l : list (Master.level * string)) infos msg :
  In (Master.ERROR, msg) (l ++ map (fun m => (Master.INFO, m)) infos)
  <-> In (Master.ERROR, msg) l.
Proof.
rewrite in_app_iff, in_map_iff. split; [|tauto].
intros [Hin|(m & Hm & _)]; [exact Hin | discriminate].
Qed.

(** A flush whose send fails on the socket. *)
Lemma flush_socket_error (self : M) io w infos msgs :
  merge_and_build (Binary64.Master.work self) (Binary64.Master.answers io)
  = (w, infos, inl msgs) ->
  Binary64.Master.connect io = inr Binary64.Master.socket_error
  \/ (Binary64.Master.connect io = inl tt
      /\ (exists w' msg, join msgs w (Binary64.Master.answers io) = (w', inl msg))
      /\ Binary64.Master.send io = inr Binary64.Master.socket_error) ->
  exists self',
    Binary64.Master._flush merge_and_build join self io
    = (self', inr Binary64.Master.socket_error)
    /\ Binary64.Master.graphite self' = Binary64.Master.graphite self
    /\ Binary64.Master.command_service self'
       = Binary64.Master.command_service self
    /\ Binary64.Master.next_flush_time self'
       = Binary64.Master.next_flush_time self
    /\ forall msg, In (Master.ERROR, msg) (Binary64.Master.log self')
                   <-> In (Master.ERROR, msg) (Binary64.Master.log self).
Proof.
intros Hbuilt Hfail. unfold Binary64.Master._flush. rewrite Hbuilt.
unfold Binary64.Master._send_to_graphite.
cbn [Binary64.Master.logging Binary64.Master.work Binary64.Master.log
     Binary64.Master.graphite Binary64.Master.command_service
     Binary64.Master.harold Binary64.Master.flush_interval
     Binary64.Master.next_flush_time].
destruct Hfail as [Hc|(Hc & (w' & msg & Hjoin) & Hsend)]; rewrite Hc.
- eexists. split; [reflexivity|]. cbn. do 3 (split; [reflexivity|]).
  intros m. now rewrite in_error_snoc, in_error_infos.
- rewrite Hjoin. cbn [Binary64.Master.with_work]. rewrite Hsend.
  eexists. split; [reflexivity|]. cbn. do 3 (split; [reflexivity|]).
  intros m. now rewrite in_error_snoc, in_error_infos.
Qed.

(** C2 (the code diverges): at a turn whose deadline has passed, if
    lines 183 to 212 of [_flush] have built the report and then opening
    the connection to graphite or sending fails with a socket error, the
    error is caught nowhere: the loop ends at that turn, whatever would
    have followed, [_shutdown] runs and [start] ends with an exception
    (the socket error, or the AttributeError of [_shutdown] when
    command_service was never assigned); nothing is sent to graphite and
    nothing is logged as an error.  The heartbeat of the same function is
    guarded: its URLError is logged as an error and the flush
    returns. *)
Theorem C2_sink_failure_ends_start (self : M) (tk : Binary64.Master.tick)
    (ticks : list Binary64.Master.tick) (w : W) (infos : list string)
    (msgs : G)
    (Hdue : PrimFloat.ltb PrimFloat.zero
              (PrimFloat.sub (Binary64.Master.next_flush_time self)
                             (Binary64.Master.now tk)) = false)
    (Hbuilt : merge_and_build (Binary64.Master.work self)
                (Binary64.Master.answers (Binary64.Master.io tk))
              = (w, infos, inl msgs))
    (Hfail : Binary64.Master.connect (Binary64.Master.io tk)
             = inr Binary64.Master.socket_error
             \/ (Binary64.Master.connect (Binary64.Master.io tk) = inl tt
                 /\ (exists w' msg,
                       join msgs w
                            (Binary64.Master.answers (Binary64.Master.io tk))
                       = (w', inl msg))
                 /\ Binary64.Master.send (Binary64.Master.io tk)
                    = inr Binary64.Master.socket_error)) :
  (exists log' e,
      Binary64.Master.start_loop merge_and_build join self (tk :: ticks)
      = Binary64.Master.ended log' (Binary64.Master.graphite self) (inr e)
      /\ (Binary64.Master.command_service self = None ->
          e = Binary64.Master.AttributeError)
      /\ (Binary64.Master.command_service self <> None ->
          Binary64.Master.children tk = inl tt ->
          e = Binary64.Master.socket_error)
      /\ forall msg, In (Master.ERROR, msg) log' ->
                     In (Master.ERROR, msg) (Binary64.Master.log self))
  /\ forall (self0 : M) io w' msg,
       Binary64.Master.connect io = inl tt ->
       join msgs (Binary64.Master.work self0) (Binary64.Master.answers io)
       = (w', inl msg) ->
       Binary64.Master.send io = inl tt ->
       Binary64.Master.harold self0 = true ->
       Binary64.Master.heartbeat io = inr Binary64.Master.URLError ->
       exists self',
         Binary64.Master._send_to_graphite join self0 io msgs = (self', inl tt)
         /\ In (Master.ERROR, "Error sending heartbeat to harold!")
               (Binary64.Master.log self').
Proof.
split.
- destruct (flush_socket_error self (Binary64.Master.io tk) w infos msgs
              Hbuilt Hfail) as (self' & Hflush & Hg & Hcs & _ & Hlog).
  cbn [Binary64.Master.start_loop]. unfold Binary64.Master.turn.
  rewrite Hdue, Hflush. unfold Binary64.Master._shutdown.
  rewrite Hcs, Hg.
  destruct (Binary64.Master.command_service self) as [b|].
  + destruct (Binary64.Master.children tk) as [[]|e'].
    * eexists _, _. split; [reflexivity|]. split; [discriminate|].
      split; [reflexivity|]. intros msg Hin. apply Hlog.
      rewrite <- !List.app_assoc in Hin. cbn [app] in Hin.
      apply in_app_or in Hin as [Hin|Hin]; [exact Hin|].
      cbn in Hin.
      repeat (destruct Hin as [Hin|Hin]; [discriminate Hin|]). destruct Hin.
    * eexists _, _. split; [reflexivity|]. split; [discriminate|].
      split; [discriminate|]. intros msg Hin. apply Hlog.
      now rewrite !in_error_snoc in Hin.
  + eexists _, _. split; [reflexivity|]. split; [reflexivity|].
    split; [congruence|]. intros msg Hin. apply Hlog.
    now rewrite in_error_snoc in Hin.
- intros self0 io w' msg Hc Hjoin Hsend Hh Hb.
  unfold Binary64.Master._send_to_graphite.
  cbn [Binary64.Master.logging Binary64.Master.work Binary64.Master.log
       Binary64.Master.graphite Binary64.Master.command_service
       Binary64.Master.harold Binary64.Master.flush_interval
       Binary64.Master.next_flush_time].
  rewrite Hc, Hjoin. rewrite Hsend.
  cbn [Binary64.Master.logging Binary64.Master.work Binary64.Master.log
       Binary64.Master.graphite Binary64.Master.command_service
       Binary64.Master.harold Binary64.Master.flush_interval
       Binary64.Master.next_flush_time Binary64.Master.with_work].
  rewrite Hh, Hb. eexists. split; [reflexivity|].
  cbn [Binary64.Master.logging Binary64.Master.log].
  apply in_or_app. right. now left.
Qed.

End SinkFailure64.

Lemma C2_sink_failure_ends_start_witness :
  exists log',
    Binary64.Master.start_loop (X := unit) (W := unit) (E := unit) (G := unit)
      (fun w _ => (w, [], inl tt)) (fun _ w _ => (w, inl "stats.x 1 1000"))
      (Binary64.Master.mk tt 10 false 1000 None [] [])
      [Binary64.Master.mk_tick 1000 (inl tt)
         (Binary64.Master.mk_io tt (inr Binary64.Master.socket_error)
                                (inl tt) (inl tt))
         (inl tt)]
    = Binary64.Master.ended log' [] (inr Binary64.Master.AttributeError).
Proof.
destruct (C2_sink_failure_ends_start (X := unit) (W := unit) (E := unit)
            (G := unit)
            (fun w _ => (w, [], inl tt)) (fun _ w _ => (w, inl "stats.x 1 1000"))
            (Binary64.Master.mk tt 10 false 1000 None [] [])
            (Binary64.Master.mk_tick 1000 (inl tt)
               (Binary64.Master.mk_io tt (inr Binary64.Master.socket_error)
                                      (inl tt) (inl tt))
               (inl tt))
            [] tt [] tt eq_refl eq_refl (or_introl eq_refl))
  as [(log' & e & Hloop & Hnone & _) _].
exists log'. rewrite Hloop. now rewrite (Hnone eq_refl).
Defined.

(** ** The keys of the merged counters *)

Section MergeKeys.

(** X7 ([Master._flush], lines 189 to 193).  A key is among the merged
    counters exactly when some worker's reply holds it: the merge drops
    no key and invents none, whatever the values are. *)
Theorem X7_merge_counter_keys (results : list Listener.bundle) (k : string) :
  Master.agg_counters (Master.merge results) !! k = None
  <-> List.Forall (fun b : Listener.bundle => fst b !! k = None) results.
Proof.
destruct (merge_fold results Master.merged_init k) as (_ & Hn & _).
unfold Master.merge. rewrite Hn.
cbn [Master.merged_init Master.agg_counters]. rewrite lookup_empty. tauto.
Qed.

End MergeKeys.
